(** * Launchpad front-end core: value decoding, amount formatting, error
      classification, pre-flight simulation and transaction polling.

    A shallow embedding of the TypeScript library code of the Soroban token
    launchpad (lib/vesting, lib/stellar, lib/transactionSimulator) together
    with the properties its specification states about it.

    Conventions of the embedding:
    - a JavaScript [bigint] is a [Z]; [/] and [%] on bigints truncate toward
      zero and are [Z.quot] and [Z.rem];
    - a JavaScript string is a [string] of one-byte characters (the inputs
      the properties talk about are ASCII);
    - a function that can throw returns an [Outcome]; an [async] function
      is its settled promise: [Return] when it resolves, [Throw] when it
      rejects;
    - the Stellar SDK and the remote node are collaborators: what they
      answer is a field of an environment record. *)

From Stdlib Require Import ZArith List String Ascii Bool Lia.
Import ListNotations.

Local Open Scope string_scope.
Local Open Scope Z_scope.

#[local] Set Warnings "-register-all".

(* ------------------------------------------------------------------ *)
(** ** JavaScript values that are thrown, and computations that throw   *)
(* ------------------------------------------------------------------ *)

(** What a [catch (error)] clause can receive: an [Error] object with its
    [message], or any other value, kept as what [String(error)] gives. *)
Inductive JsThrown : Type :=
| JsError (message : string)
| JsOther (rendered : string).

Inductive Outcome (A : Type) : Type :=
| Return (a : A)
| Throw (e : JsThrown).

Arguments Return {A} a.
Arguments Throw {A} e.

Definition bind {A B : Type} (m : Outcome A) (k : A -> Outcome B) : Outcome B :=
  match m with
  | Return a => k a
  | Throw e => Throw e
  end.

(** [try { body } catch (error) { handler }] *)
Definition tryCatch {A : Type} (body : Outcome A) (handler : JsThrown -> Outcome A)
  : Outcome A :=
  match body with
  | Return a => Return a
  | Throw e => handler e
  end.

Notation "x <- m ;; k" := (bind m (fun x => k))
  (at level 61, m at next level, right associativity).

(** [error instanceof Error ? error.message : String(error)] *)
Definition thrownMessage (error : JsThrown) : string :=
  match error with
  | JsError message => message
  | JsOther rendered => rendered
  end.

(* ------------------------------------------------------------------ *)
(** ** The string primitives the library code calls                     *)
(* ------------------------------------------------------------------ *)

Module Js.

(** The character of a decimal digit [0 <= d <= 9]. *)
Definition digitChar (d : Z) : ascii := ascii_of_nat (48 + Z.to_nat d).

(** The value of a decimal digit character, [None] for any other one. *)
Definition digitVal (c : ascii) : option Z :=
  let n := Z.of_nat (nat_of_ascii c) in
  if (48 <=? n) && (n <=? 57) then Some (n - 48) else None.

(** Decimal digits of [n >= 0], most significant first, in front of [acc].
    [fuel] bounds the number of digits. *)
Fixpoint digitsAux (fuel : nat) (n : Z) (acc : string) : string :=
  match fuel with
  | O => acc
  | S fuel' =>
      if n <? 10 then String (digitChar n) acc
      else digitsAux fuel' (n / 10) (String (digitChar (n mod 10)) acc)
  end.

(** A number below [2^(log2 n + 1)] has at most [log2 n + 1] digits. *)
Definition natToString (n : Z) : string :=
  digitsAux (S (Z.to_nat (Z.log2 n))) n "".

(** [BigInt.prototype.toString()] (radix 10). *)
Definition toString (z : Z) : string :=
  if z <? 0 then String "-" (natToString (- z)) else natToString z.

(** Value of a string of decimal digits read after the digits of [acc]. *)
Fixpoint parseDigits (s : string) (acc : Z) : option Z :=
  match s with
  | EmptyString => Some acc
  | String c rest =>
      match digitVal c with
      | Some d => parseDigits rest (acc * 10 + d)
      | None => None
      end
  end.

(** [BigInt(s)] on a string: the decimal literals, with an optional sign;
    the empty string is [0n]; anything else is a [SyntaxError].  (The
    prefixed literals [0x], [0o], [0b] and surrounding white space, which
    [BigInt] also accepts, never reach the code embedded here and are
    rejected by this model.) *)
Definition BigInt (s : string) : Outcome Z :=
  let syntaxError := Throw (JsError ("Cannot convert " ++ s ++ " to a BigInt")) in
  let unsigned (digits : string) (sign : Z) :=
    match digits, parseDigits digits 0 with
    | String _ _, Some v => Return (sign * v)
    | _, _ => syntaxError
    end in
  match s with
  | EmptyString => Return 0
  | String c rest =>
      if Ascii.eqb c "-" then unsigned rest (-1)
      else if Ascii.eqb c "+" then unsigned rest 1
      else unsigned s 1
  end.

(** [c.repeat(k)] for a one-character string. *)
Fixpoint repeat (c : ascii) (k : nat) : string :=
  match k with
  | O => ""
  | S k' => String c (repeat c k')
  end.

(** [s.padStart(targetLength, "0")] and [s.padEnd(targetLength, "0")]. *)
Definition padStart (s : string) (targetLength : nat) (c : ascii) : string :=
  repeat c (targetLength - length s) ++ s.

Definition padEnd (s : string) (targetLength : nat) (c : ascii) : string :=
  s ++ repeat c (targetLength - length s).

(** [s.replace(/0+$/, "")]: the longest run of zeros that ends the string
    is removed. *)
Fixpoint stripTrailingZeros (s : string) : string :=
  match s with
  | EmptyString => ""
  | String c rest =>
      match stripTrailingZeros rest with
      | EmptyString => if Ascii.eqb c "0" then "" else String c ""
      | kept => String c kept
      end
  end.

(** Digits grouped by three from the right with a comma. *)
Fixpoint groupThousands (s : string) : string :=
  match s with
  | EmptyString => ""
  | String c rest =>
      String c
        (if (negb (Nat.eqb (length rest) 0)) && Nat.eqb (Nat.modulo (length rest) 3) 0
         then String "," (groupThousands rest)
         else groupThousands rest)
  end.

(** [BigInt.prototype.toLocaleString()] without arguments.  The result
    depends on the locale of the runtime; this is the [en-US] one, which
    the repository's own documentation of the formatter assumes
    ([formatAmount(10_000_0000000n, 7) => "10,000"]). *)
Definition toLocaleString (z : Z) : string :=
  if z <? 0 then String "-" (groupThousands (natToString (- z)))
  else groupThousands (natToString z).

(** [String.prototype.toLowerCase()] on one-byte characters. *)
Definition lowerChar (c : ascii) : ascii :=
  let n := nat_of_ascii c in
  if (Nat.leb 65 n) && (Nat.leb n 90) then ascii_of_nat (n + 32) else c.

Fixpoint toLowerCase (s : string) : string :=
  match s with
  | EmptyString => ""
  | String c rest => String (lowerChar c) (toLowerCase rest)
  end.

(** [s.startsWith(p)] and [s.includes(p)]. *)
Fixpoint startsWith (p s : string) : bool :=
  match p, s with
  | EmptyString, _ => true
  | String _ _, EmptyString => false
  | String a p', String b s' => Ascii.eqb a b && startsWith p' s'
  end.

Fixpoint includes (p s : string) : bool :=
  startsWith p s ||
  match s with
  | EmptyString => false
  | String _ s' => includes p s'
  end.

(** [s.split(sep)] cut at the first separator: the segment before it and
    what follows it ([None] when the separator does not occur). *)
Fixpoint splitFirst (sep : ascii) (s : string) : string * option string :=
  match s with
  | EmptyString => ("", None)
  | String c rest =>
      if Ascii.eqb c sep then ("", Some rest)
      else let (before, after) := splitFirst sep rest in (String c before, after)
  end.

End Js.

#[global] Arguments Js.digitChar : simpl never.
#[global] Arguments Js.digitVal : simpl never.
#[global] Arguments Js.natToString : simpl never.

(* ------------------------------------------------------------------ *)
(** ** The collaborators: contract values, the SDK and the RPC server   *)
(* ------------------------------------------------------------------ *)

Module Sdk.

(** [xdr.ScVal]: the tagged value of contract arguments and results.  The
    two words of an [i128] are a signed and an unsigned 64-bit integer;
    the map arm is optional in the XDR definition. *)
Inductive ScVal : Type :=
| scvBool (b : bool)
| scvVoid
| scvU32 (n : Z)
| scvI128 (hi lo : Z)
| scvSymbol (sym : string)
| scvString (str : string)
| scvAddress (strkey : string)
| scvVec (items : list ScVal)
| scvMap (entries : option (list (ScVal * ScVal))).

(** Range of the two words of a well-formed [Int128Parts]. *)
Definition wfInt128Parts (hi lo : Z) : Prop :=
  - 2 ^ 63 <= hi < 2 ^ 63 /\ 0 <= lo < 2 ^ 64.

(** Reading an arm of the union that is not the active one throws. *)
Definition armNotSet {A : Type} (arm : string) : Outcome A :=
  Throw (JsError (arm ++ " not set")).

(** Calling a method on [undefined] throws a [TypeError]. *)
Definition deref {A : Type} (o : option A) (prop : string) : Outcome A :=
  match o with
  | Some a => Return a
  | None =>
      Throw (JsError ("Cannot read properties of undefined (reading '" ++ prop ++ "')"))
  end.

(** What the code hands to [TransactionBuilder] before [build()]. *)
Record Invocation : Type := {
  inv_source : string;
  inv_sequence : string;
  inv_fee : string;
  inv_networkPassphrase : string;
  inv_contractId : string;
  inv_method : string;
  inv_args : list ScVal;
  inv_timeout : Z
}.

(** A built transaction, identified by its envelope. *)
Record Tx : Type := { tx_envelope : string }.

(** [rpc.Api.SimulateTransactionResponse]: [error] is present on an error
    response, [transactionData] on a success (or restore) response, and
    [result] carries the return value of the invocation when there is one. *)
Record SimulateTransactionResponse : Type := {
  sim_error : option string;
  sim_transactionData : bool;
  sim_result : option ScVal
}.

(** ['error' in sim] and ['transactionData' in sim] *)
Definition isSimulationError (sim : SimulateTransactionResponse) : bool :=
  match sim_error sim with Some _ => true | None => false end.

Definition isSimulationSuccess (sim : SimulateTransactionResponse) : bool :=
  sim_transactionData sim.

Inductive SendTransactionStatus : Type :=
| PENDING | DUPLICATE | TRY_AGAIN_LATER | ERROR.

Record SendTransactionResponse : Type := {
  send_status : SendTransactionStatus;
  send_hash : string;
  send_errorResult : option string
}.

Inductive GetTransactionStatus : Type :=
| SUCCESS | NOT_FOUND | FAILED.

Record GetTransactionResponse : Type := {
  get_status : GetTransactionStatus;
  get_resultXdr : option string
}.

Definition isSUCCESS (s : GetTransactionStatus) : bool :=
  match s with SUCCESS => true | _ => false end.
Definition isNOT_FOUND (s : GetTransactionStatus) : bool :=
  match s with NOT_FOUND => true | _ => false end.
Definition isFAILED (s : GetTransactionStatus) : bool :=
  match s with FAILED => true | _ => false end.
Definition isERROR (s : SendTransactionStatus) : bool :=
  match s with ERROR => true | _ => false end.

(** An [rpc.Server].  The status of a transaction changes with time:
    [getTransaction hash k] is the answer to the query number [k]
    (counted from 0) that a submit operation makes. *)
Record Server : Type := {
  simulateTransaction : Tx -> Outcome SimulateTransactionResponse;
  sendTransaction : Tx -> Outcome SendTransactionResponse;
  getTransaction : string -> nat -> Outcome GetTransactionResponse;
  getLatestLedger : Outcome Z
}.

(** The constructors of the SDK that validate their input. *)
Record Lib : Type := {
  newServer : string -> Outcome Server;
  newAddress : string -> Outcome ScVal;
  build : Invocation -> Outcome Tx;
  fromXDR : string -> string -> Outcome Tx
}.

(** Rendering of an optional payload inside a template literal. *)
Definition renderOptional (o : option string) : string :=
  match o with
  | Some s => s
  | None => "undefined"
  end.

(** The clock of a polling loop: status queries made so far and
    milliseconds spent in [setTimeout]. *)
Record Clock : Type := {
  queries : nat;
  slept : Z
}.

Definition clockStart : Clock := {| queries := 0; slept := 0 |}.

Definition sleep (ms : Z) (c : Clock) : Clock :=
  {| queries := queries c; slept := slept c + ms |}.

Definition tick (c : Clock) : Clock :=
  {| queries := S (queries c); slept := slept c |}.

End Sdk.

(* ------------------------------------------------------------------ *)
(** ** lib/vesting: the vesting client                                  *)
(* ------------------------------------------------------------------ *)

Module Vesting.
Import Sdk.

Record VestingSchedule : Type := {
  recipient : string;
  totalAmount : Z;
  cliffLedger : Z;
  endLedger : Z;
  released : Z;
  revoked : bool
}.

Record VestingInfo : Type := {
  schedule : VestingSchedule;
  vestedAmount : Z;
  releasableAmount : Z;
  currentLedger : Z
}.

(** [(hi << 64n) | lo] *)
Definition decodeI128 (val : ScVal) : Outcome Z :=
  match val with
  | scvI128 hi lo => Return (Z.lor (Z.shiftl hi 64) lo)
  | _ => armNotSet "i128"
  end.

Definition decodeU32 (val : ScVal) : Outcome Z :=
  match val with
  | scvU32 n => Return n
  | _ => armNotSet "u32"
  end.

Definition decodeAddress (val : ScVal) : Outcome string :=
  match val with
  | scvAddress strkey => Return strkey
  | _ => armNotSet "address"
  end.

Definition decodeBool (val : ScVal) : Outcome bool :=
  match val with
  | scvBool b => Return b
  | _ => armNotSet "b"
  end.

(** [Map.prototype.set] and [Map.prototype.get] on string keys. *)
Fixpoint mapSet (key : string) (v : ScVal) (m : list (string * ScVal))
  : list (string * ScVal) :=
  match m with
  | [] => [(key, v)]
  | (k, w) :: rest =>
      if String.eqb k key then (k, v) :: rest else (k, w) :: mapSet key v rest
  end.

Fixpoint mapGet (key : string) (m : list (string * ScVal)) : option ScVal :=
  match m with
  | [] => None
  | (k, w) :: rest => if String.eqb k key then Some w else mapGet key rest
  end.

(** The loop [for (const entry of fields) fieldMap.set(key, entry.val())]. *)
Fixpoint collectFields (fields : list (ScVal * ScVal)) (fieldMap : list (string * ScVal))
  : Outcome (list (string * ScVal)) :=
  match fields with
  | [] => Return fieldMap
  | (scvSymbol key, v) :: rest => collectFields rest (mapSet key v fieldMap)
  | _ :: _ => armNotSet "sym"
  end.

Definition dummySource : string :=
  "GAAAAAAAAAAAAAAAAAAAAAAAAAAAAAAAAAAAAAAAAAAAAAAAAAAAAWHF".

Section Client.

(** The module-level [server] and [NETWORK_PASSPHRASE]. *)
Variable lib : Lib.
Variable server : Server.
Variable NETWORK_PASSPHRASE : string.

Definition simulateCall (contractId method : string) (args : list ScVal)
  : Outcome ScVal :=
  tx <- build lib {| inv_source := dummySource; inv_sequence := "0";
                     inv_fee := "100";
                     inv_networkPassphrase := NETWORK_PASSPHRASE;
                     inv_contractId := contractId; inv_method := method;
                     inv_args := args; inv_timeout := 30 |} ;;
  sim <- simulateTransaction server tx ;;
  match sim_error sim with
  | Some error => Throw (JsError ("Simulation failed: " ++ error))
  | None =>
      match sim_result sim with
      | None => Throw (JsError "No result from simulation")
      | Some retval => Return retval
      end
  end.

Definition fetchVestingSchedule (contractId recipientAddress : string)
  : Outcome VestingSchedule :=
  addressVal <- newAddress lib recipientAddress ;;
  result <- simulateCall contractId "get_schedule" [addressVal] ;;
  fields <- match result with
            | scvMap (Some entries) => Return entries
            | scvMap None =>
                Throw (JsError "Unexpected result type from get_schedule")
            | _ => armNotSet "map"
            end ;;
  fieldMap <- collectFields fields [] ;;
  v1 <- deref (mapGet "recipient" fieldMap) "address" ;;
  recipient' <- decodeAddress v1 ;;
  v2 <- deref (mapGet "total_amount" fieldMap) "i128" ;;
  totalAmount' <- decodeI128 v2 ;;
  v3 <- deref (mapGet "cliff_ledger" fieldMap) "u32" ;;
  cliffLedger' <- decodeU32 v3 ;;
  v4 <- deref (mapGet "end_ledger" fieldMap) "u32" ;;
  endLedger' <- decodeU32 v4 ;;
  v5 <- deref (mapGet "released" fieldMap) "i128" ;;
  released' <- decodeI128 v5 ;;
  v6 <- deref (mapGet "revoked" fieldMap) "b" ;;
  revoked' <- decodeBool v6 ;;
  Return {| recipient := recipient'; totalAmount := totalAmount';
            cliffLedger := cliffLedger'; endLedger := endLedger';
            released := released'; revoked := revoked' |}.

Definition fetchVestedAmount (contractId recipientAddress : string) : Outcome Z :=
  addressVal <- newAddress lib recipientAddress ;;
  result <- simulateCall contractId "vested_amount" [addressVal] ;;
  decodeI128 result.

(** The two reads run under [Promise.all]; when both fail the promise
    rejects with one of the two errors, here the schedule's. *)
Definition fetchVestingInfo (contractId recipientAddress : string)
  : Outcome VestingInfo :=
  schedule' <- fetchVestingSchedule contractId recipientAddress ;;
  vestedAmount' <- fetchVestedAmount contractId recipientAddress ;;
  let releasableAmount' := vestedAmount' - released schedule' in
  latestLedger <- getLatestLedger server ;;
  Return {| schedule := schedule'; vestedAmount := vestedAmount';
            releasableAmount := releasableAmount';
            currentLedger := latestLedger |}.

(** The loop [for (let i = 0; i < 30; i++)] of [submitTx], with
    [remaining = 30 - i]. *)
Fixpoint pollLoop (hash : string) (remaining : nat) (clock : Clock)
  : Outcome GetTransactionResponse * Clock :=
  match remaining with
  | O => (Throw (JsError "Transaction timed out waiting for confirmation"), clock)
  | S remaining' =>
      let clock1 := sleep 2000 clock in
      match getTransaction server hash (queries clock1) with
      | Throw e => (Throw e, tick clock1)
      | Return getResponse =>
          if isSUCCESS (get_status getResponse)
          then (Return getResponse, tick clock1)
          else if isFAILED (get_status getResponse)
          then (Throw (JsError "Transaction failed on-chain"), tick clock1)
          else pollLoop hash remaining' (tick clock1)
      end
  end.

Definition submitTx (signedXdr : string)
  : Outcome GetTransactionResponse * Clock :=
  match fromXDR lib signedXdr NETWORK_PASSPHRASE with
  | Throw e => (Throw e, clockStart)
  | Return tx =>
      match sendTransaction server tx with
      | Throw e => (Throw e, clockStart)
      | Return response =>
          if isERROR (send_status response)
          then (Throw (JsError "Transaction submission failed: ERROR"), clockStart)
          else pollLoop (send_hash response) 30 clockStart
      end
  end.

End Client.

(** [formatTokenAmount(raw: bigint, decimals: number = 7)] *)
Definition formatTokenAmount (raw : Z) (decimals : nat) : string :=
  let divisor := 10 ^ Z.of_nat decimals in
  let whole := Z.quot raw divisor in
  let frac := Z.rem raw divisor in
  if frac =? 0 then Js.toString whole
  else
    let fracStr :=
      Js.stripTrailingZeros (Js.padStart (Js.toString frac) decimals "0") in
    Js.toString whole ++ "." ++ fracStr.

(** [progressPct] of the claim page, before the conversion [Number(...)]. *)
Definition progressPct (info : VestingInfo) : Z :=
  if totalAmount (schedule info) >? 0
  then Z.quot (vestedAmount info * 100) (totalAmount (schedule info))
  else 0.

End Vesting.

(* ------------------------------------------------------------------ *)
(** ** lib/stellar: the token client                                    *)
(* ------------------------------------------------------------------ *)

Module Stellar.
Import Sdk.

(** [((hi << BigInt(64)) + lo).toString()], the two words read through
    their decimal strings. *)
Definition decodeI128 (val : ScVal) : Outcome string :=
  match val with
  | scvI128 hi' lo' =>
      hi <- Js.BigInt (Js.toString hi') ;;
      lo <- Js.BigInt (Js.toString lo') ;;
      Return (Js.toString (Z.shiftl hi 64 + lo))
  | _ => armNotSet "i128"
  end.

(** [formatTokenAmount(raw: string, decimals: number)] *)
Definition formatTokenAmount (raw : string) (decimals : nat) : Outcome string :=
  if String.eqb raw "N/A" then Return raw
  else
    num <- Js.BigInt raw ;;
    let divisor := 10 ^ Z.of_nat decimals in
    let whole := Z.quot num divisor in
    let frac := Z.rem num divisor in
    if frac =? 0 then Return (Js.toLocaleString whole)
    else
      let fracStr :=
        Js.stripTrailingZeros (Js.padStart (Js.toString frac) decimals "0") in
      Return (Js.toLocaleString whole ++ "." ++ fracStr).

Definition maxAttempts : nat := 30.

Section Client.

Variable lib : Lib.
(** What [getRpcUrl()] answers, and the module-level passphrase. *)
Variable rpcUrl : string.
Variable NETWORK_PASSPHRASE : string.

(** The loop [while (getResponse.status === "NOT_FOUND" && attempts <
    maxAttempts)], with [remaining = maxAttempts - attempts]. *)
Fixpoint pollWhile (rpc : Server) (hash : string) (remaining : nat)
    (getResponse : GetTransactionResponse) (clock : Clock)
  : Outcome GetTransactionResponse * Clock :=
  match remaining with
  | O => (Return getResponse, clock)
  | S remaining' =>
      if isNOT_FOUND (get_status getResponse) then
        let clock1 := sleep 1000 clock in
        match getTransaction rpc hash (queries clock1) with
        | Throw e => (Throw e, tick clock1)
        | Return getResponse' =>
            pollWhile rpc hash remaining' getResponse' (tick clock1)
        end
      else (Return getResponse, clock)
  end.

Definition submitTransaction (signedXdr : string) : Outcome string * Clock :=
  match fromXDR lib signedXdr NETWORK_PASSPHRASE with
  | Throw e => (Throw e, clockStart)
  | Return tx =>
  match newServer lib rpcUrl with
  | Throw e => (Throw e, clockStart)
  | Return rpc =>
  match sendTransaction rpc tx with
  | Throw e => (Throw e, clockStart)
  | Return result =>
      if isERROR (send_status result)
      then (Throw (JsError ("Transaction failed: "
                            ++ renderOptional (send_errorResult result))),
            clockStart)
      else
        match getTransaction rpc (send_hash result) (queries clockStart) with
        | Throw e => (Throw e, tick clockStart)
        | Return first =>
            match pollWhile rpc (send_hash result) maxAttempts first
                    (tick clockStart) with
            | (Throw e, clock) => (Throw e, clock)
            | (Return getResponse, clock) =>
                if isNOT_FOUND (get_status getResponse)
                then (Throw (JsError "Transaction not found after polling"), clock)
                else if isFAILED (get_status getResponse)
                then (Throw (JsError ("Transaction failed: "
                                      ++ renderOptional (get_resultXdr getResponse))),
                      clock)
                else (Return (send_hash result), clock)
            end
        end
  end end end.

End Client.

End Stellar.

(* ------------------------------------------------------------------ *)
(** ** lib/transactionSimulator: pre-flight checks                      *)
(* ------------------------------------------------------------------ *)

Module TransactionSimulator.
Import Sdk.

Record NetworkConfig : Type := {
  rpcUrl : string;
  passphrase : string
}.

Record PreflightCheckResult : Type := {
  success : bool;
  warnings : list string;
  errors : list string;
  simulationDetails : option (string * string)
}.

(** The rule table, in the order [Object.entries] enumerates it. *)
Definition ERROR_MESSAGE_MAP : list (string * string) :=
  [ ("already initialized",
     "Contract is already initialized. Check if it was deployed previously.");
    ("insufficient balance", "Insufficient token balance for this operation.");
    ("insufficient allowance", "Insufficient allowance approved for the spender.");
    ("amount must be positive", "Amount must be greater than zero.");
    ("max_supply exceeded", "Operation would exceed the maximum supply cap.");
    ("mint would exceed max_supply",
     "Minting this amount would exceed the maximum supply cap.");
    ("account is frozen", "The account is frozen and cannot perform transfers.");
    ("not initialized", "Contract is not initialized. This token may not exist.");
    ("no pending admin", "No pending admin to accept. Did you propose_admin first?");
    ("insufficient balance to burn", "Cannot burn more tokens than the account holds.");
    ("schedule already exists", "A vesting schedule already exists for this recipient.");
    ("no schedule found", "No vesting schedule found for this recipient.");
    ("schedule has been revoked", "This vesting schedule has been revoked.");
    ("nothing to release", "No vested tokens are available to release.");
    ("schedule already revoked", "This schedule has already been revoked.");
    ("end_ledger must be after cliff_ledger", "End ledger must be after cliff ledger.");
    ("total_amount must be positive", "Total amount must be greater than zero.");
    ("Invalid Stellar public key", "The provided Stellar address is not valid.");
    ("max_supply must be positive", "Maximum supply must be greater than zero.");
    ("initial_supply exceeds max_supply",
     "Initial supply cannot exceed maximum supply.");
    ("allowance would overflow", "Allowance amount is too large and would overflow.");
    ("approval would exceed max_supply",
     "Approval amount cannot exceed the token's maximum supply.") ].

(** [lowerError.includes(key.toLowerCase())] *)
Definition ruleMatches (lowerError : string) (rule : string * string) : bool :=
  Js.includes (Js.toLowerCase (fst rule)) lowerError.

(** The rule the loop over the table stops at, if any. *)
Definition firstRule (lowerError : string) : option (string * string) :=
  find (ruleMatches lowerError) ERROR_MESSAGE_MAP.

(** The checks that follow the loop. *)
Definition panicMessage (lowerError : string) : option string :=
  if Js.includes "invocation failed" lowerError then
    Some "Contract invocation failed. The transaction may have invalid parameters."
  else if Js.includes "insufficient funds" lowerError then
    Some "Insufficient XLM balance to pay transaction fees."
  else if Js.includes "timeout" lowerError then
    Some "The operation timed out. Please try again."
  else if Js.includes "deadline exceeded" lowerError then
    Some "Transaction deadline exceeded. Please try again."
  else if Js.includes "build failed" lowerError then
    Some "Failed to build transaction. Please check your inputs."
  else None.

Definition parseSorobanError (errorMessage : string) : string :=
  let lowerError := Js.toLowerCase errorMessage in
  match firstRule lowerError with
  | Some (_, message) => message
  | None =>
      match panicMessage lowerError with
      | Some message => message
      | None => errorMessage
      end
  end.

Definition failure (message : string) : PreflightCheckResult :=
  {| success := false; warnings := []; errors := [message];
     simulationDetails := None |}.

Definition defaultSource : string :=
  "GAAAAAAAAAAAAAAAAAAAAAAAAAAAAAAAAAAAAAAAAAAAAAAAAAAAAWHF".

(** The transaction the builder is asked for: a call of [method] on the
    contract, from a zero-sequence account, fee 100, time-out 30. *)
Definition invocation (contractId method : string) (args : list ScVal)
    (config : NetworkConfig) (sourcePublicKey : string) : Invocation :=
  {| inv_source := sourcePublicKey; inv_sequence := "0"; inv_fee := "100";
     inv_networkPassphrase := passphrase config;
     inv_contractId := contractId; inv_method := method;
     inv_args := args; inv_timeout := 30 |}.

Section Client.

Variable lib : Lib.

(** The [try] block of [simulateTransaction]. *)
Definition simulateBody (contractId method : string) (args : list ScVal)
    (config : NetworkConfig) (sourcePublicKey : string)
  : Outcome PreflightCheckResult :=
  rpc <- newServer lib (rpcUrl config) ;;
  tx <- build lib (invocation contractId method args config sourcePublicKey) ;;
  sim <- simulateTransaction rpc tx ;;
  match sim_error sim with
  | Some error => Return (failure (parseSorobanError error))
  | None =>
      if negb (isSimulationSuccess sim)
         || match sim_result sim with Some _ => false | None => true end
      then Return (failure "Transaction simulation failed. Please check your inputs.")
      else Return {| success := true; warnings := []; errors := [];
                     simulationDetails := None |}
  end.

Definition simulateTransaction (contractId method : string) (args : list ScVal)
    (config : NetworkConfig) (sourcePublicKey : string)
  : Outcome PreflightCheckResult :=
  tryCatch (simulateBody contractId method args config sourcePublicKey)
    (fun error =>
       let errorMessage := thrownMessage error in
       let friendlyError := parseSorobanError errorMessage in
       Return (failure friendlyError)).

End Client.

End TransactionSimulator.

(* ------------------------------------------------------------------ *)
(** ** app/my-account: the vesting card of the personal dashboard       *)
(* ------------------------------------------------------------------ *)

Module PersonalDashboard.

(** The three cases of [vestPct] in [VestingCard]: 100 from the end
    ledger on, the ratio [elapsed / span] (times 100, in floating point)
    strictly after the cliff, and 0 otherwise. *)
Inductive VestProgress : Type :=
| FullyVested
| Vesting (elapsed span : Z)
| CliffPending.

Definition vestProgress (cliffLedger endLedger currentLedger : Z) : VestProgress :=
  if currentLedger >=? endLedger then FullyVested
  else if currentLedger >? cliffLedger
  then Vesting (currentLedger - cliffLedger) (endLedger - cliffLedger)
  else CliffPending.

End PersonalDashboard.

(* ------------------------------------------------------------------ *)
(** ** Operations the specification names whose code is elsewhere       *)
(* ------------------------------------------------------------------ *)

Module SpecModel.

Inductive AmountError : Type :=
| PrecisionError
| InvalidAmount.

Inductive Parsed : Type :=
| Raw (raw : Z)
| Rejected (e : AmountError).

(** Modelled from the spec: [parseToRaw], the [parseTokenAmount] of
    lib/stellar that the forms import and whose definition is not among
    the sources.  The display string is split on ".", a fractional segment
    longer than [decimals] is rejected with [PrecisionError], the
    fractional segment is padded to exactly [decimals] digits, and the
    result is [whole * 10^decimals + fraction].  A segment that is not a
    string of decimal digits (a sign, a separator) is rejected. *)
Definition parseToRaw (display : string) (decimals : nat) : Parsed :=
  let (wholeStr, rest) := Js.splitFirst "." display in
  let fracStr := match rest with Some f => f | None => "" end in
  if Nat.ltb decimals (length fracStr) then Rejected PrecisionError
  else
    match Js.parseDigits wholeStr 0,
          Js.parseDigits (Js.padEnd fracStr decimals "0") 0 with
    | Some whole, Some fraction => Raw (whole * 10 ^ Z.of_nat decimals + fraction)
    | _, _ => Rejected InvalidAmount
    end.

(** The specification's wording of [toDisplay], to compare the formatters
    of the source with: integer-divide by [10^decimals], zero-pad the
    remainder to [decimals] digits, strip the trailing zeros, and return
    only the integer part when the fractional part is empty. *)
Definition toDisplay (raw : Z) (decimals : nat) : string :=
  let whole := raw / 10 ^ Z.of_nat decimals in
  let remainder := raw mod 10 ^ Z.of_nat decimals in
  let fraction :=
    Js.stripTrailingZeros (Js.padStart (Js.toString remainder) decimals "0") in
  match fraction with
  | EmptyString => Js.toString whole
  | _ => Js.toString whole ++ "." ++ fraction
  end.

(** Modelled from the spec: [vestedAmount], the [vested_amount] entry
    point of the vesting contract, which the client only calls remotely.
    Zero before the cliff, the total from the end on, and in between the
    floor of [totalAmount * (currentLedger - cliffLedger) / (endLedger -
    cliffLedger)], the product taken exactly. *)
Definition vestedAmount (schedule : Vesting.VestingSchedule) (currentLedger : Z) : Z :=
  if currentLedger <? Vesting.cliffLedger schedule then 0
  else if currentLedger >=? Vesting.endLedger schedule
  then Vesting.totalAmount schedule
  else Vesting.totalAmount schedule * (currentLedger - Vesting.cliffLedger schedule)
       / (Vesting.endLedger schedule - Vesting.cliffLedger schedule).

End SpecModel.

(* ------------------------------------------------------------------ *)
(** ** Observations on a remote, and concrete remotes                   *)
(* ------------------------------------------------------------------ *)

Module Remote.
Import Sdk.

(** The query number [k] for [hash] is answered with status [st]. *)
Definition statusAt (server : Server) (hash : string) (k : nat)
    (st : GetTransactionStatus) : Prop :=
  exists r, getTransaction server hash k = Return r /\ get_status r = st.

(** Every query before number [k] is answered [NOT_FOUND]. *)
Definition notFoundBefore (server : Server) (hash : string) (k : nat) : Prop :=
  forall j, (j < k)%nat -> statusAt server hash j NOT_FOUND.

(** The signed envelope decodes and the node accepts it under [hash]. *)
Definition accepted (lib : Lib) (server : Server) (passphrase signedXdr hash : string)
  : Prop :=
  exists tx response,
    fromXDR lib signedXdr passphrase = Return tx
    /\ sendTransaction server tx = Return response
    /\ isERROR (send_status response) = false
    /\ send_hash response = hash.

Definition simulationResult (retval : ScVal) : SimulateTransactionResponse :=
  {| sim_error := None; sim_transactionData := true; sim_result := Some retval |}.

(** The struct a vesting contract returns from [get_schedule]. *)
Definition scheduleVal (total cliff endL released : Z) : ScVal :=
  scvMap (Some [ (scvSymbol "recipient", scvAddress "GRECIPIENT");
                 (scvSymbol "total_amount", scvI128 0 total);
                 (scvSymbol "cliff_ledger", scvU32 cliff);
                 (scvSymbol "end_ledger", scvU32 endL);
                 (scvSymbol "released", scvI128 0 released);
                 (scvSymbol "revoked", scvBool false) ]).

(** A node that serves one vesting schedule and reports the given
    transaction status at each query. *)
Definition vestingNode (schedule : ScVal) (vested : Z) (ledger : Z)
    (status : nat -> GetTransactionStatus) : Server :=
  {| simulateTransaction := fun tx =>
       if String.eqb (tx_envelope tx) "get_schedule"
       then Return (simulationResult schedule)
       else Return (simulationResult (scvI128 0 vested));
     sendTransaction := fun _ =>
       Return {| send_status := PENDING; send_hash := "HASH";
                 send_errorResult := None |};
     getTransaction := fun _ k =>
       Return {| get_status := status k; get_resultXdr := None |};
     getLatestLedger := Return ledger |}.

(** An SDK that accepts every input and reaches the given node; the
    envelope of a built transaction is the method it invokes. *)
Definition libFor (server : Server) : Lib :=
  {| newServer := fun _ => Return server;
     newAddress := fun a => Return (scvAddress a);
     build := fun inv => Return {| tx_envelope := inv_method inv |};
     fromXDR := fun xdr _ => Return {| tx_envelope := xdr |} |}.

(** A node whose simulation endpoint answers [sim], behind an SDK whose
    transaction builder refuses the contract id ["bad"]. *)
Definition simulationNode (sim : Outcome SimulateTransactionResponse) : Server :=
  {| simulateTransaction := fun _ => sim;
     sendTransaction := fun _ => Throw (JsError "unused");
     getTransaction := fun _ _ => Throw (JsError "unused");
     getLatestLedger := Return 0 |}.

Definition strictLib (server : Server) : Lib :=
  {| newServer := fun _ => Return server;
     newAddress := fun a => Return (scvAddress a);
     build := fun inv =>
       if String.eqb (inv_contractId inv) "bad"
       then Throw (JsError "Invalid contract ID: bad")
       else Return {| tx_envelope := inv_method inv |};
     fromXDR := fun xdr _ => Return {| tx_envelope := xdr |} |}.

Definition neverFound : nat -> GetTransactionStatus := fun _ => NOT_FOUND.

Definition foundAt (n : nat) (st : GetTransactionStatus)
  : nat -> GetTransactionStatus :=
  fun k => if Nat.ltb k n then NOT_FOUND else st.

(** A node with one schedule, half vested, whose transactions are found
    successful at the sixth query; and one that never finds them. *)
Definition sampleNode : Server :=
  vestingNode (scheduleVal 1000 100 1100 200) 500 600 (foundAt 5 SUCCESS).

Definition silentNode : Server :=
  vestingNode (scheduleVal 1000 100 1100 200) 500 600 neverFound.

(** The errors the two submit operations raise when polling runs out. *)
Definition vestingTimeout : JsThrown :=
  JsError "Transaction timed out waiting for confirmation".

Definition stellarTimeout : JsThrown :=
  JsError "Transaction not found after polling".

(** What lib/stellar's [submitTransaction] does with the response its
    polling loop ends on. *)
Definition stellarVerdict (hash : string)
    (polled : Outcome GetTransactionResponse * Clock) : Outcome string * Clock :=
  match polled with
  | (Throw e, clock) => (Throw e, clock)
  | (Return getResponse, clock) =>
      if isNOT_FOUND (get_status getResponse)
      then (Throw stellarTimeout, clock)
      else if isFAILED (get_status getResponse)
      then (Throw (JsError ("Transaction failed: "
                            ++ renderOptional (get_resultXdr getResponse))),
            clock)
      else (Return hash, clock)
  end.

End Remote.

(* ------------------------------------------------------------------ *)
(** ** More string and array primitives                                 *)
(* ------------------------------------------------------------------ *)

Module JsExtra.

(** [s.slice(0, n)] for [n >= 0]. *)
Definition sliceTo (s : string) (n : nat) : string := substring 0 n s.

(** [s.slice(-k)] for [k >= 0]: the last [k] characters, and the whole
    string when [k] is [0] (as [-0] is [0]) or exceeds the length. *)
Definition sliceLast (s : string) (k : nat) : string :=
  match k with
  | O => s
  | S _ => substring (length s - k) k s
  end.

(** [a.slice(start, end)] on an array: a negative index counts from the
    end, indices are clamped to the array, and the result is empty when
    [start] is not before [end]. *)
Definition clampIndex (len i : Z) : Z :=
  if i <? 0 then Z.max (len + i) 0 else Z.min i len.

Definition slice {A : Type} (a : list A) (start finish : Z) : list A :=
  let len := Z.of_nat (List.length a) in
  let from := clampIndex len start in
  let to := clampIndex len finish in
  firstn (Z.to_nat (to - from)) (skipn (Z.to_nat from) a).

(** White space that [String.prototype.trim] removes, among one-byte
    characters: tab, line feed, vertical tab, form feed, carriage return,
    space and no-break space. *)
Definition isWhiteSpace (c : ascii) : bool :=
  let n := nat_of_ascii c in
  (Nat.leb 9 n && Nat.leb n 13) || Nat.eqb n 32 || Nat.eqb n 160.

Fixpoint trimStart (s : string) : string :=
  match s with
  | EmptyString => ""
  | String c rest => if isWhiteSpace c then trimStart rest else s
  end.

(** The string without its trailing white space. *)
Fixpoint trimEnd (s : string) : string :=
  match s with
  | EmptyString => ""
  | String c rest =>
      match trimEnd rest with
      | EmptyString => if isWhiteSpace c then "" else String c ""
      | kept => String c kept
      end
  end.

Definition trim (s : string) : string := trimEnd (trimStart s).

End JsExtra.

(* ------------------------------------------------------------------ *)
(** ** lib/stellar: reading a token and a schedule                      *)
(* ------------------------------------------------------------------ *)

Module StellarClient.
Import Sdk.

Record TokenInfo : Type := {
  name : string;
  symbol : string;
  decimals : Z;
  totalSupply : string;
  circulatingSupply : string;
  admin : string;
  contractId : string
}.

Record VestingScheduleInfo : Type := {
  recipient : string;
  totalAmount : string;
  cliffLedger : Z;
  endLedger : Z;
  released : string;
  revoked : bool
}.

Definition decodeU32 (val : ScVal) : Outcome Z :=
  match val with
  | scvU32 n => Return n
  | _ => armNotSet "u32"
  end.

Definition decodeAddress (val : ScVal) : Outcome string :=
  match val with
  | scvAddress strkey => Return strkey
  | _ => armNotSet "address"
  end.

(** [truncateAddress(addr, chars = 4)] *)
Definition truncateAddress (addr : string) (chars : nat) : string :=
  if Nat.leb (length addr) (chars * 2 + 3) then addr
  else JsExtra.sliceTo addr (chars + 1) ++ "..." ++ JsExtra.sliceLast addr chars.

Section Client.

Variable lib : Lib.
(** What [getRpcUrl()] answers. *)
Variable rpcUrl : string.
(** What [val.value()?.toString() ?? ""] renders for a value that is
    neither a symbol nor a string. *)
Variable valueToString : ScVal -> string.

Definition decodeString (val : ScVal) : string :=
  match val with
  | scvSymbol sym => sym
  | scvString str => str
  | other => valueToString other
  end.

(** [simulateCall(contractId, method, config, args)]: a server is
    constructed from [config.rpcUrl], and the simulation is sent through
    [getRpc()]. *)
Definition simulateCall (contractId method : string)
    (config : TransactionSimulator.NetworkConfig) (args : list ScVal)
  : Outcome ScVal :=
  _rpc <- newServer lib (TransactionSimulator.rpcUrl config) ;;
  tx <- build lib {| inv_source := "GAAAAAAAAAAAAAAAAAAAAAAAAAAAAAAAAAAAAAAAAAAAAAAAAAAAAWHF";
                     inv_sequence := "0"; inv_fee := "100";
                     inv_networkPassphrase := TransactionSimulator.passphrase config;
                     inv_contractId := contractId; inv_method := method;
                     inv_args := args; inv_timeout := 30 |} ;;
  rpc <- newServer lib rpcUrl ;;
  sim <- simulateTransaction rpc tx ;;
  match sim_error sim with
  | Some error =>
      Throw (JsError ("Soroban simulation error (" ++ method ++ "): " ++ error))
  | None =>
      match isSimulationSuccess sim, sim_result sim with
      | true, Some retval => Return retval
      | _, _ => Throw (JsError ("Soroban simulation failed for " ++ method))
      end
  end.

(** [entries.find((e) => decodeString(e.key()) === name)] *)
Definition getStructField (entries : list (ScVal * ScVal)) (name : string)
  : Outcome ScVal :=
  match find (fun e => String.eqb (decodeString (fst e)) name) entries with
  | Some entry => Return (snd entry)
  | None => Throw (JsError ("Missing struct field: " ++ name))
  end.

Definition fetchCurrentLedger (config : TransactionSimulator.NetworkConfig)
  : Outcome Z :=
  rpc <- newServer lib (TransactionSimulator.rpcUrl config) ;;
  getLatestLedger rpc.

Definition fetchVestingSchedule (vestingContractId recipient' : string)
    (config : TransactionSimulator.NetworkConfig) : Outcome VestingScheduleInfo :=
  recipientScVal <- newAddress lib recipient' ;;
  result <- simulateCall vestingContractId "get_schedule" config [recipientScVal] ;;
  fields <- match result with
            | scvMap (Some entries) => Return entries
            | scvMap None =>
                Throw (JsError "Cannot read properties of null (reading 'find')")
            | _ => armNotSet "map"
            end ;;
  v1 <- getStructField fields "recipient" ;;
  recipient'' <- decodeAddress v1 ;;
  v2 <- getStructField fields "total_amount" ;;
  totalAmount' <- Stellar.decodeI128 v2 ;;
  v3 <- getStructField fields "cliff_ledger" ;;
  cliffLedger' <- decodeU32 v3 ;;
  v4 <- getStructField fields "end_ledger" ;;
  endLedger' <- decodeU32 v4 ;;
  v5 <- getStructField fields "released" ;;
  released' <- Stellar.decodeI128 v5 ;;
  v6 <- getStructField fields "revoked" ;;
  revoked' <- match v6 with scvBool b => Return b | _ => armNotSet "b" end ;;
  Return {| recipient := recipient''; totalAmount := totalAmount';
            cliffLedger := cliffLedger'; endLedger := endLedger';
            released := released'; revoked := revoked' |}.

(** The [try { ... } catch { }] around the supply of [fetchTokenInfo]:
    any failure leaves ["N/A"]. *)
Definition supplyOrNA (contractId : string)
    (config : TransactionSimulator.NetworkConfig) (decimals' : Z) : string :=
  match (supplyVal <- simulateCall contractId "total_supply" config [] ;;
         rawSupply <- Stellar.decodeI128 supplyVal ;;
         Stellar.formatTokenAmount rawSupply (Z.to_nat decimals')) with
  | Return formatted => formatted
  | Throw _ => "N/A"
  end.

(** [fetchTokenInfo(contractId, config)].  The four reads run under
    [Promise.all], the one of the admin with [.catch(() => null)]; when
    several of the others fail the promise rejects with one of their
    errors, here the first in the order of the array. *)
Definition fetchTokenInfo (contractId' : string)
    (config : TransactionSimulator.NetworkConfig) : Outcome TokenInfo :=
  nameVal <- simulateCall contractId' "name" config [] ;;
  symbolVal <- simulateCall contractId' "symbol" config [] ;;
  decimalsVal <- simulateCall contractId' "decimals" config [] ;;
  let adminVal := match simulateCall contractId' "admin" config [] with
                  | Return v => Some v
                  | Throw _ => None
                  end in
  decimals' <- decodeU32 decimalsVal ;;
  let totalSupply' := supplyOrNA contractId' config decimals' in
  admin' <- match adminVal with
            | Some v => decodeAddress v
            | None => Return "N/A"
            end ;;
  Return {| name := decodeString nameVal; symbol := decodeString symbolVal;
            decimals := decimals'; totalSupply := totalSupply';
            circulatingSupply := totalSupply'; admin := admin';
            contractId := contractId' |}.

End Client.

End StellarClient.

(* ------------------------------------------------------------------ *)
(** ** lib/transactionSimulator: the pre-flight helpers                 *)
(* ------------------------------------------------------------------ *)

Module Preflight.
Import Sdk TransactionSimulator.

(** An [amount: bigint | string]. *)
Inductive Amount : Type :=
| AmountBigInt (value : Z)
| AmountString (text : string).

(** [BigInt(amount)] *)
Definition toBigInt (amount : Amount) : Outcome Z :=
  match amount with
  | AmountBigInt value => Return value
  | AmountString text => Js.BigInt text
  end.

Definition configRequired : PreflightCheckResult :=
  failure "Network configuration is required".

Section Helpers.

Variable lib : Lib.
(** [StellarSdk.nativeToScVal(value, { type })] on a bigint. *)
Variable nativeToScVal : Z -> string -> Outcome ScVal.

Definition simulateTransfer (contractId fromAddress toAddress : string)
    (amount : Amount) (config : NetworkConfig) : Outcome PreflightCheckResult :=
  a1 <- newAddress lib fromAddress ;;
  a2 <- newAddress lib toAddress ;;
  n <- toBigInt amount ;;
  a3 <- nativeToScVal n "i128" ;;
  simulateTransaction lib contractId "transfer" [a1; a2; a3] config fromAddress.

Definition simulateMint (contractId toAddress : string) (amount : Amount)
    (adminAddress : string) (config : NetworkConfig) : Outcome PreflightCheckResult :=
  a1 <- newAddress lib toAddress ;;
  n <- toBigInt amount ;;
  a2 <- nativeToScVal n "i128" ;;
  simulateTransaction lib contractId "mint" [a1; a2] config adminAddress.

Definition simulateBurn (contractId fromAddress : string) (amount : Amount)
    (adminAddress : string) (config : NetworkConfig) : Outcome PreflightCheckResult :=
  a1 <- newAddress lib fromAddress ;;
  n <- toBigInt amount ;;
  a2 <- nativeToScVal n "i128" ;;
  simulateTransaction lib contractId "burn" [a1; a2] config adminAddress.

Definition simulateTransferFrom (contractId spenderAddress fromAddress toAddress : string)
    (amount : Amount) (config : NetworkConfig) : Outcome PreflightCheckResult :=
  a1 <- newAddress lib spenderAddress ;;
  a2 <- newAddress lib fromAddress ;;
  a3 <- newAddress lib toAddress ;;
  n <- toBigInt amount ;;
  a4 <- nativeToScVal n "i128" ;;
  simulateTransaction lib contractId "transfer_from" [a1; a2; a3; a4] config
    spenderAddress.

Definition simulateVestingRelease (vestingContractId recipientAddress : string)
    (config : NetworkConfig) : Outcome PreflightCheckResult :=
  a1 <- newAddress lib recipientAddress ;;
  simulateTransaction lib vestingContractId "release" [a1] config defaultSource.

Definition simulateVestingRevoke (vestingContractId recipientAddress adminAddress : string)
    (config : NetworkConfig) : Outcome PreflightCheckResult :=
  a1 <- newAddress lib recipientAddress ;;
  simulateTransaction lib vestingContractId "revoke" [a1] config adminAddress.

Definition simulateCreateSchedule (vestingContractId recipientAddress : string)
    (totalAmount : Amount) (cliffLedger endLedger : Z) (adminAddress : string)
    (config : NetworkConfig) : Outcome PreflightCheckResult :=
  a1 <- newAddress lib recipientAddress ;;
  n <- toBigInt totalAmount ;;
  a2 <- nativeToScVal n "i128" ;;
  a3 <- nativeToScVal cliffLedger "u32" ;;
  a4 <- nativeToScVal endLedger "u32" ;;
  simulateTransaction lib vestingContractId "create_schedule" [a1; a2; a3; a4]
    config adminAddress.

Definition defaultExpirationLedger : Z := 10000000.

Definition simulateApprove (contractId ownerAddress spenderAddress : string)
    (amount : Amount) (expirationLedger : Z) (config : option NetworkConfig)
  : Outcome PreflightCheckResult :=
  match config with
  | None => Return configRequired
  | Some config' =>
      a1 <- newAddress lib ownerAddress ;;
      a2 <- newAddress lib spenderAddress ;;
      n <- toBigInt amount ;;
      a3 <- nativeToScVal n "i128" ;;
      a4 <- nativeToScVal expirationLedger "u32" ;;
      simulateTransaction lib contractId "approve" [a1; a2; a3; a4] config'
        ownerAddress
  end.

Definition simulateRevokeAllowance (contractId ownerAddress spenderAddress : string)
    (config : option NetworkConfig) : Outcome PreflightCheckResult :=
  match config with
  | None => Return configRequired
  | Some config' =>
      a1 <- newAddress lib ownerAddress ;;
      a2 <- newAddress lib spenderAddress ;;
      a3 <- nativeToScVal 0 "i128" ;;
      a4 <- nativeToScVal 1000 "u32" ;;
      simulateTransaction lib contractId "approve" [a1; a2; a3; a4] config'
        ownerAddress
  end.

End Helpers.

End Preflight.

(* ------------------------------------------------------------------ *)
(** ** components/ui/PreflightCheck and the mint form                   *)
(* ------------------------------------------------------------------ *)

Module PreflightCheck.

(** What [PreflightCheckDisplay] renders. *)
Inductive Panel : Type :=
| Loading
| ErrorPanel (errors : list string)
| WarningPanel (warnings : list string)
| SuccessPanel (message : string)
| Nothing.

Definition nonEmpty {A : Type} (l : option (list A)) : bool :=
  match l with
  | Some (_ :: _) => true
  | _ => false
  end.

(** [PreflightCheckDisplay({ isLoading, errors, warnings, successMessage })];
    an empty success message is falsy. *)
Definition PreflightCheckDisplay (isLoading : bool) (errors warnings : option (list string))
    (successMessage : option string) : Panel :=
  if isLoading then Loading
  else if nonEmpty errors
  then ErrorPanel (match errors with Some l => l | None => [] end)
  else if nonEmpty warnings
  then WarningPanel (match warnings with Some l => l | None => [] end)
  else match successMessage with
       | Some (String c rest) => SuccessPanel (String c rest)
       | _ => Nothing
       end.

(** The pre-flight state of the mint form. *)
Record FormState : Type := {
  isLoading : bool;
  success : bool;
  errors : list string;
  warnings : list string
}.

(** The state [handleCheck] stores once [checkMint] has settled. *)
Definition handleCheck (checked : Outcome TransactionSimulator.PreflightCheckResult)
  : FormState :=
  match checked with
  | Return result =>
      {| isLoading := false;
         success := TransactionSimulator.success result;
         errors := TransactionSimulator.errors result;
         warnings := TransactionSimulator.warnings result |}
  | Throw error =>
      {| isLoading := false; success := false;
         errors := [match error with
                    | JsError message => message
                    | JsOther _ => "Unknown error"
                    end];
         warnings := [] |}
  end.

(** The panel of the mint form, and whether its submit button is
    disabled ([!isValid || isSubmitting || !(preflightResult?.success ??
    false)]). *)
Definition mintPanel (state : option FormState) : Panel :=
  match state with
  | None => Nothing
  | Some st =>
      PreflightCheckDisplay (isLoading st) (Some (errors st)) (Some (warnings st))
        (if success st then Some "Ready to mint tokens" else None)
  end.

Definition submitDisabled (isValid isSubmitting : bool) (state : option FormState)
  : bool :=
  negb isValid || isSubmitting
  || negb (match state with Some st => success st | None => false end).

End PreflightCheck.

(* ------------------------------------------------------------------ *)
(** ** The token dashboard: pages of the holders table                  *)
(* ------------------------------------------------------------------ *)

Module TokenDashboard.

Definition itemsPerPage : Z := 10.

(** [Math.ceil(sorted.length / itemsPerPage)] *)
Definition totalPages {A : Type} (sorted : list A) : Z :=
  (Z.of_nat (List.length sorted) + itemsPerPage - 1) / itemsPerPage.

Definition startIndex (currentPage : Z) : Z := (currentPage - 1) * itemsPerPage.
Definition endIndex (currentPage : Z) : Z := startIndex currentPage + itemsPerPage.

(** [sorted.slice(startIndex, endIndex)] *)
Definition paginatedHolders {A : Type} (sorted : list A) (currentPage : Z) : list A :=
  JsExtra.slice sorted (startIndex currentPage) (endIndex currentPage).

(** The "Previous" and "Next" buttons. *)
Definition previousPage (currentPage : Z) : Z := Z.max 1 (currentPage - 1).
Definition nextPage (pages currentPage : Z) : Z := Z.min pages (currentPage + 1).

(** [Array.from({ length: totalPages }, (_, i) => i + 1)] *)
Definition pageNumbers (pages : Z) : list Z :=
  map (fun i => Z.of_nat i + 1) (seq 0 (Z.to_nat pages)).

(** The page buttons shown: the first page, the last page, the current
    page and its two neighbours. *)
Definition pageShown (pages currentPage page : Z) : bool :=
  (page =? 1) || (page =? pages) || (Z.abs (page - currentPage) <=? 1).

Definition visiblePages (pages currentPage : Z) : list Z :=
  filter (pageShown pages currentPage) (pageNumbers pages).

End TokenDashboard.

(* ------------------------------------------------------------------ *)
(** ** app/my-account: amounts and status of the vesting card           *)
(* ------------------------------------------------------------------ *)

Module VestingCard.

Record Amounts : Type := {
  totalAmount : Z;
  released : Z;
  unreleased : Z
}.

(** [BigInt(schedule.totalAmount)], [BigInt(schedule.released)] and their
    difference. *)
Definition amounts (schedule : StellarClient.VestingScheduleInfo) : Outcome Amounts :=
  total <- Js.BigInt (StellarClient.totalAmount schedule) ;;
  released' <- Js.BigInt (StellarClient.released schedule) ;;
  Return {| totalAmount := total; released := released';
            unreleased := total - released' |}.

(** [releasedPct], before the conversion [Number(...)]. *)
Definition releasedPct (a : Amounts) : Z :=
  if totalAmount a >? 0 then Z.quot (released a * 100) (totalAmount a) else 0.

Definition statusLabel (revoked : bool) (cliffLedger endLedger currentLedger : Z)
  : string :=
  if revoked then "Revoked"
  else if currentLedger <? cliffLedger then "Cliff Pending"
  else if currentLedger >=? endLedger then "Fully Vested"
  else "Vesting".

Definition statusColor (revoked : bool) (endLedger currentLedger : Z) : string :=
  if revoked then "text-red-400 bg-red-400/10 border-red-400/20"
  else if currentLedger >=? endLedger
  then "text-green-400 bg-green-400/10 border-green-400/20"
  else "text-amber-400 bg-amber-400/10 border-amber-400/20".

End VestingCard.

(* ------------------------------------------------------------------ *)
(** ** app/claim: looking a schedule up                                 *)
(* ------------------------------------------------------------------ *)

Module ClaimVesting.
Import Sdk.

(** A character of [[A-Z2-7]]. *)
Definition isBase32 (c : ascii) : bool :=
  let n := nat_of_ascii c in
  (Nat.leb 65 n && Nat.leb n 90) || (Nat.leb 50 n && Nat.leb n 55).

Fixpoint allBase32 (s : string) : bool :=
  match s with
  | EmptyString => true
  | String c rest => isBase32 c && allBase32 rest
  end.

(** [CONTRACT_ID_RE.test(s)] with [/^C[A-Z2-7]{55}$/]. *)
Definition CONTRACT_ID_RE (s : string) : bool :=
  match s with
  | String c rest =>
      Ascii.eqb c "C" && Nat.eqb (length rest) 55 && allBase32 rest
  | EmptyString => false
  end.

(** What [handleLookup] leaves on the page. *)
Inductive Lookup : Type :=
| ConnectWalletFirst
| InvalidContractId
| Found (info : Vesting.VestingInfo)
| LookupError (message : string).

Definition truthy (publicKey : option string) : option string :=
  match publicKey with
  | Some (String c rest) => Some (String c rest)
  | _ => None
  end.

Section Page.

Variable lib : Lib.
Variable server : Server.
Variable NETWORK_PASSPHRASE : string.

Definition handleLookup (connected : bool) (publicKey : option string)
    (contractId : string) : Lookup :=
  match connected, truthy publicKey with
  | true, Some key =>
      let trimmed := JsExtra.trim contractId in
      if negb (CONTRACT_ID_RE trimmed) then InvalidContractId
      else
        match Vesting.fetchVestingInfo lib server NETWORK_PASSPHRASE trimmed key with
        | Return vestingInfo => Found vestingInfo
        | Throw err =>
            let msg := match err with
                       | JsError message => message
                       | JsOther _ => "Failed to fetch vesting info"
                       end in
            if Js.includes "no schedule found" msg
            then LookupError
                   "No vesting schedule found for your wallet on this contract."
            else LookupError msg
        end
  | _, _ => ConnectWalletFirst
  end.

End Page.

End ClaimVesting.

(* ------------------------------------------------------------------ *)
(** ** app/dashboard/allowances: the list of allowances                 *)
(* ------------------------------------------------------------------ *)

Module AllowancesPage.

Record AllowanceInfo : Type := {
  spenderAddress : string;
  amount : string;
  amountFormatted : string;
  isExpired : bool
}.

(** The entry built for one spender from the allowance read for it. *)
Definition toAllowance (decimals : nat) (fetched : string * Z) : Outcome AllowanceInfo :=
  let (spender, amount') := fetched in
  formatted <- Stellar.formatTokenAmount (Js.toString amount') decimals ;;
  Return {| spenderAddress := spender; amount := Js.toString amount';
            amountFormatted := formatted; isExpired := amount' <=? 0 |}.

(** [Promise.all(spenders.map(...))] on the allowances read. *)
Fixpoint allResults (decimals : nat) (fetched : list (string * Z))
  : Outcome (list AllowanceInfo) :=
  match fetched with
  | [] => Return []
  | f :: rest =>
      a <- toAllowance decimals f ;;
      others <- allResults decimals rest ;;
      Return (a :: others)
  end.

(** [results.filter((a) => a.amount !== "0")] *)
Definition listed (decimals : nat) (fetched : list (string * Z))
  : Outcome (list AllowanceInfo) :=
  results <- allResults decimals fetched ;;
  Return (filter (fun a => negb (String.eqb (amount a) "0")) results).

End AllowancesPage.

(* ------------------------------------------------------------------ *)
(** ** A token contract to run the readers against                      *)
(* ------------------------------------------------------------------ *)

Module Samples.
Import Sdk.

Definition simulationFailure (error : string) : SimulateTransactionResponse :=
  {| sim_error := Some error; sim_transactionData := false; sim_result := None |}.

(** A token named "Launch Token" (LNCH, seven decimals) whose contract
    has no [admin] entry point, and [total_supply] only when a supply is
    given. *)
Definition tokenNode (supply : option Z) : Server :=
  {| simulateTransaction := fun tx =>
       let method := tx_envelope tx in
       if String.eqb method "name"
       then Return (Remote.simulationResult (scvString "Launch Token"))
       else if String.eqb method "symbol"
       then Return (Remote.simulationResult (scvSymbol "LNCH"))
       else if String.eqb method "decimals"
       then Return (Remote.simulationResult (scvU32 7))
       else if String.eqb method "total_supply"
       then match supply with
            | Some z => Return (Remote.simulationResult (scvI128 0 z))
            | None => Return (simulationFailure "HostError: missing function")
            end
       else Return (simulationFailure "HostError: missing function");
     sendTransaction := fun _ =>
       Return {| send_status := ERROR; send_hash := "HASH";
                 send_errorResult := Some "AAAAAAAAAGT////7AAAAAA==" |};
     getTransaction := fun _ _ => Throw (JsError "Network Error");
     getLatestLedger := Return 600 |}.

Definition testnet : TransactionSimulator.NetworkConfig :=
  {| TransactionSimulator.rpcUrl := "https://soroban-testnet.stellar.org";
     TransactionSimulator.passphrase := "Test SDF Network ; September 2015" |}.

(** An SDK whose [Address] constructor accepts only strings that start
    with "G" or "C", and whose encoder accepts every integer. *)
Definition checkingLib (server : Server) : Lib :=
  {| newServer := fun _ => Return server;
     newAddress := fun a =>
       match a with
       | String "G" _ | String "C" _ => Return (scvAddress a)
       | _ => Throw (JsError "Unsupported address type")
       end;
     build := fun inv => Return {| tx_envelope := inv_method inv |};
     fromXDR := fun xdr _ => Return {| tx_envelope := xdr |} |}.

Definition encodeAny (value : Z) (type : string) : Outcome ScVal :=
  if String.eqb type "u32" then Return (scvU32 value)
  else Return (scvI128 (value / 2 ^ 64) (value mod 2 ^ 64)).

(** A node whose status queries fail at query [n] and answer
    [NOT_FOUND] before. *)
Definition flakyNode (n : nat) : Server :=
  {| simulateTransaction := fun _ => Throw (JsError "Network Error");
     sendTransaction := fun _ =>
       Return {| send_status := TRY_AGAIN_LATER; send_hash := "HASH";
                 send_errorResult := None |};
     getTransaction := fun _ k =>
       if Nat.eqb k n then Throw (JsError "Network Error")
       else Return {| get_status := NOT_FOUND; get_resultXdr := None |};
     getLatestLedger := Return 600 |}.

End Samples.

(* ================================================================== *)
(** * Properties                                                        *)
(* ================================================================== *)

(* ------------------------------------------------------------------ *)
(** ** Strings and decimal digits                                       *)
(* ------------------------------------------------------------------ *)

Section StringFacts.

Lemma length_append (s t : string) :
  length (s ++ t) = (length s + length t)%nat.
Proof. induction s as [|c s IH]; simpl; [reflexivity | now rewrite IH]. Qed.

Lemma append_assoc (s t u : string) : (s ++ t) ++ u = s ++ (t ++ u).
Proof. induction s as [|c s IH]; simpl; [reflexivity | now rewrite IH]. Qed.

Lemma length_repeat (c : ascii) (k : nat) : length (Js.repeat c k) = k.
Proof. induction k as [|k IH]; simpl; [reflexivity | now rewrite IH]. Qed.

Lemma digitVal_digitChar (d : Z) :
  0 <= d < 10 -> Js.digitVal (Js.digitChar d) = Some d.
Proof.
  intros H.
  assert (E : d = 0 \/ d = 1 \/ d = 2 \/ d = 3 \/ d = 4 \/ d = 5 \/ d = 6
              \/ d = 7 \/ d = 8 \/ d = 9) by lia.
  repeat (destruct E as [E | E]; [subst d; reflexivity|]).
  subst d; reflexivity.
Qed.

Lemma digitVal_is_not (c sep : ascii) (d : Z) :
  Js.digitVal sep = None -> Js.digitVal c = Some d -> Ascii.eqb c sep = false.
Proof.
  intros Hsep Hc. destruct (Ascii.eqb_spec c sep) as [-> | _]; [congruence | reflexivity].
Qed.

Lemma parseDigits_app (s t : string) : forall acc,
  Js.parseDigits (s ++ t) acc =
  match Js.parseDigits s acc with
  | Some v => Js.parseDigits t v
  | None => None
  end.
Proof.
  induction s as [|c s IH]; intros acc; simpl; [reflexivity|].
  destruct (Js.digitVal c); [apply IH | reflexivity].
Qed.

Lemma parseDigits_zeros (k : nat) : Js.parseDigits (Js.repeat "0" k) 0 = Some 0.
Proof. induction k as [|k IH]; simpl; [reflexivity | exact IH]. Qed.

Lemma parseDigits_padStart (s : string) (d : nat) :
  Js.parseDigits (Js.padStart s d "0") 0 = Js.parseDigits s 0.
Proof.
  unfold Js.padStart. now rewrite parseDigits_app, parseDigits_zeros.
Qed.

Lemma digitsAux_acc (fuel : nat) : forall n acc,
  Js.digitsAux fuel n acc = Js.digitsAux fuel n "" ++ acc.
Proof.
  induction fuel as [|fuel IH]; intros n acc; simpl; [reflexivity|].
  destruct (n <? 10); [reflexivity|].
  rewrite (IH _ (String _ acc)), (IH _ (String _ "")), append_assoc.
  reflexivity.
Qed.

(** With enough fuel the digits read back as the number. *)
Lemma parseDigits_digitsAux (fuel : nat) : forall n,
  0 <= n < 2 ^ Z.of_nat fuel ->
  Js.parseDigits (Js.digitsAux fuel n "") 0 = Some n.
Proof.
  induction fuel as [|fuel IH]; intros n Hn.
  - simpl in *. assert (n = 0) by lia. now subst.
  - cbn [Js.digitsAux]. destruct (Z.ltb_spec n 10) as [Hlt | Hge].
    + cbn [Js.parseDigits]. rewrite digitVal_digitChar by lia. reflexivity.
    + rewrite digitsAux_acc, parseDigits_app, IH.
      * cbn [Js.parseDigits]. rewrite digitVal_digitChar by (apply Z.mod_pos_bound; lia).
        f_equal. pose proof (Z.div_mod n 10). lia.
      * rewrite Nat2Z.inj_succ, Z.pow_succ_r in Hn by lia.
        split; [apply Z.div_pos; lia|].
        apply Z.div_lt_upper_bound; lia.
Qed.

Lemma natToString_fuel (n : Z) :
  0 <= n -> 0 <= n < 2 ^ Z.of_nat (S (Z.to_nat (Z.log2 n))).
Proof.
  intros Hn. split; [exact Hn|].
  rewrite Nat2Z.inj_succ, Z2Nat.id by apply Z.log2_nonneg.
  destruct (Z.eq_dec n 0) as [-> | Hnz]; [reflexivity|].
  apply Z.log2_spec. lia.
Qed.

Lemma parseDigits_natToString (n : Z) :
  0 <= n -> Js.parseDigits (Js.natToString n) 0 = Some n.
Proof.
  intros Hn. apply parseDigits_digitsAux, natToString_fuel, Hn.
Qed.

Lemma natToString_not_empty (n : Z) : Js.natToString n <> "".
Proof.
  unfold Js.natToString. cbn [Js.digitsAux]. destruct (n <? 10); [discriminate|].
  rewrite digitsAux_acc. destruct (Js.digitsAux _ _ ""); discriminate.
Qed.

(** A number below [10^d] has at most [d] digits. *)
Lemma length_digitsAux (fuel : nat) : forall n d,
  0 <= n < 10 ^ Z.of_nat d -> (1 <= d)%nat ->
  (length (Js.digitsAux fuel n "") <= d)%nat.
Proof.
  induction fuel as [|fuel IH]; intros n d Hn Hd; simpl; [lia|].
  destruct (Z.ltb_spec n 10) as [Hlt | Hge]; [simpl; lia|].
  rewrite digitsAux_acc, length_append. simpl.
  destruct d as [|d]; [lia|].
  rewrite Nat2Z.inj_succ, Z.pow_succ_r in Hn by lia.
  assert (Hq : 0 <= n / 10 < 10 ^ Z.of_nat d).
  { split; [apply Z.div_pos; lia | apply Z.div_lt_upper_bound; lia]. }
  assert (1 <= d)%nat.
  { destruct d; [|lia]. simpl in Hq. assert (1 <= n / 10) by
      (apply Z.div_le_lower_bound; lia). lia. }
  specialize (IH _ _ Hq H). lia.
Qed.

Lemma length_natToString (n : Z) (d : nat) :
  0 <= n < 10 ^ Z.of_nat d -> (1 <= d)%nat ->
  (length (Js.natToString n) <= d)%nat.
Proof. intros. now apply length_digitsAux. Qed.

Lemma toString_nonneg (z : Z) : 0 <= z -> Js.toString z = Js.natToString z.
Proof.
  intros Hz. unfold Js.toString.
  destruct (Z.ltb_spec z 0); [lia | reflexivity].
Qed.

(** [BigInt(z.toString()) = z] for every bigint. *)
Lemma BigInt_toString (z : Z) : Js.BigInt (Js.toString z) = Return z.
Proof.
  unfold Js.toString. destruct (Z.ltb_spec z 0) as [Hneg | Hpos].
  - unfold Js.BigInt. cbv zeta. cbn [Ascii.eqb Bool.eqb].
    pose proof (natToString_not_empty (- z)) as Hne.
    assert (Hp : Js.parseDigits (Js.natToString (- z)) 0 = Some (- z))
      by (apply parseDigits_natToString; lia).
    destruct (Js.natToString (- z)); [congruence|].
    rewrite Hp. f_equal. lia.
  - pose proof (parseDigits_natToString z Hpos) as Hp.
    unfold Js.BigInt. cbv zeta.
    destruct (Js.natToString z) as [|c rest] eqn:E.
    + cbn in Hp. congruence.
    + assert (Hd : exists d, Js.digitVal c = Some d).
      { cbn [Js.parseDigits] in Hp. destruct (Js.digitVal c); [eauto | discriminate]. }
      destruct Hd as [d Hd].
      rewrite (digitVal_is_not c "-" d), (digitVal_is_not c "+" d)
        by (reflexivity || assumption).
      rewrite Hp. f_equal. lia.
Qed.

End StringFacts.

(* ------------------------------------------------------------------ *)
(** ** Trailing zeros, padding and splitting                            *)
(* ------------------------------------------------------------------ *)

Section PaddingFacts.

(** What [replace(/0+$/, "")] removes is a run of zeros. *)
Lemma stripTrailingZeros_decompose (s : string) :
  s = Js.stripTrailingZeros s
      ++ Js.repeat "0" (length s - length (Js.stripTrailingZeros s)).
Proof.
  induction s as [|c s IH]; [reflexivity|].
  cbn [Js.stripTrailingZeros].
  destruct (Js.stripTrailingZeros s) as [|k kept] eqn:E.
  - cbn [length append] in IH.
    destruct (Ascii.eqb_spec c "0") as [-> | _]; cbn [length append].
    + replace (S (length s) - 0)%nat with (S (length s)) by lia.
      cbn [Js.repeat]. f_equal.
      etransitivity; [exact IH | f_equal; lia].
    + f_equal. etransitivity; [exact IH | f_equal; lia].
  - cbn [length append] in *. f_equal.
    etransitivity; [exact IH | do 3 f_equal; lia].
Qed.

Lemma length_stripTrailingZeros (s : string) :
  (length (Js.stripTrailingZeros s) <= length s)%nat.
Proof.
  pose proof (stripTrailingZeros_decompose s) as H.
  apply (f_equal length) in H. rewrite length_append in H. lia.
Qed.

Lemma stripTrailingZeros_zeros (k : nat) :
  Js.stripTrailingZeros (Js.repeat "0" k) = "".
Proof.
  induction k as [|k IH]; [reflexivity|].
  cbn [Js.repeat Js.stripTrailingZeros]. now rewrite IH.
Qed.

(** Stripping then padding at the end gives the string back. *)
Lemma padEnd_stripTrailingZeros (s : string) :
  Js.padEnd (Js.stripTrailingZeros s) (length s) "0" = s.
Proof. unfold Js.padEnd. symmetry. apply stripTrailingZeros_decompose. Qed.

Lemma length_padStart (s : string) (d : nat) (c : ascii) :
  (length s <= d)%nat -> length (Js.padStart s d c) = d.
Proof.
  intros H. unfold Js.padStart. rewrite length_append, length_repeat. lia.
Qed.

(** A string of digits holds no separator, so the first ["."] of a
    display string is the one the formatter wrote. *)
Lemma splitFirst_digits (w : string) : forall acc v,
  Js.parseDigits w acc = Some v ->
  Js.splitFirst "." w = (w, None) /\
  forall f, Js.splitFirst "." (w ++ String "." f) = (w, Some f).
Proof.
  induction w as [|c w IH]; intros acc v Hp.
  - split; reflexivity.
  - cbn [Js.parseDigits] in Hp.
    destruct (Js.digitVal c) as [d|] eqn:Hd; [|discriminate].
    destruct (IH _ _ Hp) as [IH1 IH2].
    cbn [Js.splitFirst append].
    rewrite (digitVal_is_not c "." d) by (reflexivity || assumption).
    split; [now rewrite IH1 | intros f; now rewrite IH2].
Qed.

Lemma groupThousands_short (s : string) :
  (length s <= 3)%nat -> Js.groupThousands s = s.
Proof.
  destruct s as [|a [|b [|c [|e s]]]]; cbn; intros H; try reflexivity; lia.
Qed.

(** Below one thousand the locale rendering has nothing to group. *)
Lemma toLocaleString_small (z : Z) :
  0 <= z < 1000 -> Js.toLocaleString z = Js.toString z.
Proof.
  intros Hz. unfold Js.toLocaleString, Js.toString.
  destruct (Z.ltb_spec z 0); [lia|].
  apply groupThousands_short, length_natToString; [simpl; lia | lia].
Qed.

(** The zero-padded remainder: [d] digits that read as [frac]. *)
Lemma padded_fraction (frac : Z) (d : nat) :
  0 < frac < 10 ^ Z.of_nat d ->
  let padded := Js.padStart (Js.natToString frac) d "0" in
  length padded = d /\ Js.parseDigits padded 0 = Some frac.
Proof.
  intros Hf padded. subst padded. split.
  - apply length_padStart, length_natToString; [lia|].
    destruct d; [simpl in Hf; lia | lia].
  - rewrite parseDigits_padStart. apply parseDigits_natToString. lia.
Qed.

Lemma fraction_not_empty (frac : Z) (d : nat) :
  0 < frac < 10 ^ Z.of_nat d ->
  Js.stripTrailingZeros (Js.padStart (Js.natToString frac) d "0") <> "".
Proof.
  intros Hf Hempty.
  destruct (padded_fraction frac d Hf) as [_ Hp].
  pose proof (stripTrailingZeros_decompose
                (Js.padStart (Js.natToString frac) d "0")) as Hdec.
  rewrite Hempty in Hdec. cbn [append] in Hdec.
  rewrite Hdec, parseDigits_zeros in Hp. injection Hp. lia.
Qed.

Lemma fraction_zero (d : nat) :
  Js.stripTrailingZeros (Js.padStart (Js.natToString 0) d "0") = "".
Proof.
  change (Js.natToString 0) with (Js.repeat "0" 1).
  unfold Js.padStart.
  replace (Js.repeat "0" (d - length (Js.repeat "0" 1)) ++ Js.repeat "0" 1)
    with (Js.repeat "0" ((d - 1) + 1)).
  - apply stripTrailingZeros_zeros.
  - cbn [length Js.repeat]. generalize (d - 1)%nat as k.
    induction k as [|k IH]; [reflexivity|]. cbn [Nat.add Js.repeat append].
    now rewrite IH.
Qed.

End PaddingFacts.

(* ------------------------------------------------------------------ *)
(** ** AmountMath: display strings and their round trip                 *)
(* ------------------------------------------------------------------ *)

Section AmountMath.

(** A display string without fractional part reads as the whole amount. *)
Lemma parseToRaw_whole (w : string) (whole : Z) (d : nat) :
  Js.parseDigits w 0 = Some whole ->
  SpecModel.parseToRaw w d = SpecModel.Raw (whole * 10 ^ Z.of_nat d).
Proof.
  intros Hw. unfold SpecModel.parseToRaw.
  destruct (splitFirst_digits w 0 whole Hw) as [-> _].
  cbn [length]. destruct (Nat.ltb_spec d 0); [lia|].
  rewrite Hw. unfold Js.padEnd. cbn [append].
  rewrite parseDigits_zeros. f_equal. lia.
Qed.

(** A display string with the fractional part the formatter writes reads
    as whole and remainder put together. *)
Lemma parseToRaw_fraction (w : string) (whole frac : Z) (d : nat) :
  Js.parseDigits w 0 = Some whole ->
  0 < frac < 10 ^ Z.of_nat d ->
  SpecModel.parseToRaw
    (w ++ "." ++ Js.stripTrailingZeros (Js.padStart (Js.natToString frac) d "0")) d
  = SpecModel.Raw (whole * 10 ^ Z.of_nat d + frac).
Proof.
  intros Hw Hf. unfold SpecModel.parseToRaw.
  change ("." ++ ?x) with (String "." x).
  destruct (splitFirst_digits w 0 whole Hw) as [_ ->].
  destruct (padded_fraction frac d Hf) as [Hlen Hval].
  set (padded := Js.padStart (Js.natToString frac) d "0") in *.
  pose proof (length_stripTrailingZeros padded) as Hle.
  destruct (Nat.ltb_spec d (length (Js.stripTrailingZeros padded))); [lia|].
  pose proof (padEnd_stripTrailingZeros padded) as Hpad.
  rewrite Hlen in Hpad. rewrite Hw, Hpad, Hval. reflexivity.
Qed.

(** Quotient and remainder of a non-negative amount. *)
Lemma amount_split (raw : Z) (d : nat) :
  0 <= raw ->
  let divisor := 10 ^ Z.of_nat d in
  Z.quot raw divisor = raw / divisor /\ Z.rem raw divisor = raw mod divisor /\
  0 <= raw / divisor /\ 0 <= raw mod divisor < divisor /\
  raw = raw / divisor * divisor + raw mod divisor.
Proof.
  intros Hraw divisor.
  assert (Hd : 0 < divisor) by (apply Z.pow_pos_nonneg; lia).
  repeat split.
  - apply Z.quot_div_nonneg; lia.
  - apply Z.rem_mod_nonneg; lia.
  - apply Z.div_pos; lia.
  - apply Z.mod_pos_bound; lia.
  - apply Z.mod_pos_bound; lia.
  - pose proof (Z.div_mod raw divisor). lia.
Qed.

End AmountMath.

Section Formatters.

Variable raw : Z.
Variable decimals : nat.
Hypothesis raw_nonneg : 0 <= raw.

Let divisor := 10 ^ Z.of_nat decimals.
Let fraction :=
  Js.stripTrailingZeros (Js.padStart (Js.natToString (raw mod divisor)) decimals "0").

(** lib/vesting's formatter on a non-negative amount, in terms of floor
    quotient and remainder. *)
Lemma vesting_format_nonneg :
  Vesting.formatTokenAmount raw decimals =
  if raw mod divisor =? 0 then Js.natToString (raw / divisor)
  else Js.natToString (raw / divisor) ++ "." ++ fraction.
Proof.
  destruct (amount_split raw decimals raw_nonneg) as (Hq & Hr & Hw & Hf & _).
  unfold Vesting.formatTokenAmount. fold divisor in Hq, Hr, Hw, Hf |- *.
  rewrite Hq, Hr, !toString_nonneg by lia. reflexivity.
Qed.

Lemma digits_not_NA (s : string) (v : Z) :
  Js.parseDigits s 0 = Some v -> String.eqb s "N/A" = false.
Proof.
  intros Hp. destruct (String.eqb_spec s "N/A") as [-> | _];
    [discriminate | reflexivity].
Qed.

(** lib/stellar's formatter on the decimal string of a non-negative
    amount: the same digits, the integer part in the locale's grouping. *)
Lemma stellar_format_nonneg :
  Stellar.formatTokenAmount (Js.toString raw) decimals =
  Return (if raw mod divisor =? 0 then Js.toLocaleString (raw / divisor)
          else Js.toLocaleString (raw / divisor) ++ "." ++ fraction).
Proof.
  destruct (amount_split raw decimals raw_nonneg) as (Hq & Hr & Hw & Hf & _).
  unfold Stellar.formatTokenAmount. fold divisor in Hq, Hr, Hw, Hf |- *.
  rewrite (digits_not_NA (Js.toString raw) raw)
    by (rewrite toString_nonneg by lia; now apply parseDigits_natToString).
  rewrite BigInt_toString. cbn [bind].
  rewrite Hq, Hr, (toString_nonneg (raw mod divisor)) by lia.
  destruct (raw mod divisor =? 0); reflexivity.
Qed.

(** The specification's wording of the formatter, case by case. *)
Lemma toDisplay_cases :
  SpecModel.toDisplay raw decimals =
  if raw mod divisor =? 0 then Js.natToString (raw / divisor)
  else Js.natToString (raw / divisor) ++ "." ++ fraction.
Proof.
  destruct (amount_split raw decimals raw_nonneg) as (_ & _ & Hw & Hf & _).
  unfold SpecModel.toDisplay. fold divisor in Hw, Hf |- *.
  rewrite !toString_nonneg by lia. fold fraction.
  destruct (Z.eqb_spec (raw mod divisor) 0) as [E | E].
  - unfold fraction. rewrite E, fraction_zero. reflexivity.
  - pose proof (fraction_not_empty (raw mod divisor) decimals) as Hne.
    fold divisor in Hne. fold fraction in Hne.
    destruct fraction; [exfalso; apply Hne; [lia | reflexivity] | reflexivity].
Qed.

(** Reading back what lib/vesting's formatter writes. *)
Lemma parseToRaw_vesting_format :
  SpecModel.parseToRaw (Vesting.formatTokenAmount raw decimals) decimals
  = SpecModel.Raw raw.
Proof.
  destruct (amount_split raw decimals raw_nonneg) as (_ & _ & Hw & Hf & Hsum).
  fold divisor in Hw, Hf, Hsum.
  rewrite vesting_format_nonneg.
  pose proof (parseDigits_natToString (raw / divisor) Hw) as Hp.
  destruct (Z.eqb_spec (raw mod divisor) 0) as [E | E].
  - rewrite (parseToRaw_whole _ _ _ Hp). f_equal. fold divisor. lia.
  - unfold fraction. rewrite (parseToRaw_fraction _ _ _ _ Hp) by (fold divisor; lia).
    f_equal. fold divisor. lia.
Qed.

End Formatters.

(** C1 (as amended).  Round trip of the display string: what lib/vesting's
    [formatTokenAmount] writes for a non-negative [raw] reads back as [raw]
    with [parseToRaw] at the same [decimals], for every [decimals]; what
    lib/stellar's [formatTokenAmount] writes reads back as [raw] when the
    integer part [raw / 10^decimals] is below 1000, where the locale
    grouping inserts no separator. *)
Theorem roundtrip_parseToRaw_formatTokenAmount (raw : Z) (decimals : nat) :
  0 <= raw ->
  SpecModel.parseToRaw (Vesting.formatTokenAmount raw decimals) decimals
    = SpecModel.Raw raw
  /\ (raw / 10 ^ Z.of_nat decimals < 1000 ->
      exists display,
        Stellar.formatTokenAmount (Js.toString raw) decimals = Return display
        /\ SpecModel.parseToRaw display decimals = SpecModel.Raw raw).
Proof.
  intros Hraw. split; [now apply parseToRaw_vesting_format|].
  intros Hsmall.
  destruct (amount_split raw decimals Hraw) as (_ & _ & Hw & _).
  exists (Vesting.formatTokenAmount raw decimals). split.
  - rewrite stellar_format_nonneg, vesting_format_nonneg by assumption.
    rewrite toLocaleString_small, toString_nonneg by lia. reflexivity.
  - now apply parseToRaw_vesting_format.
Qed.

Lemma roundtrip_parseToRaw_formatTokenAmount_witness :
  0 <= 12345678 /\
  SpecModel.parseToRaw (Vesting.formatTokenAmount 12345678 7) 7
    = SpecModel.Raw 12345678.
Proof.
  split; [lia|].
  apply (roundtrip_parseToRaw_formatTokenAmount 12345678 7). lia.
Defined.

(** C1 as the specification words it does not hold of lib/stellar's
    formatter: ten billion
    raw units at seven decimals are displayed as ["1,000"], which does not
    read back as an amount. *)
Lemma roundtrip_grouped_counterexample :
  Stellar.formatTokenAmount (Js.toString 10000000000) 7 = Return "1,000"
  /\ SpecModel.parseToRaw "1,000" 7 = SpecModel.Rejected SpecModel.InvalidAmount
  /\ SpecModel.parseToRaw "1,000" 7 <> SpecModel.Raw 10000000000.
Proof. repeat split; [vm_compute; reflexivity .. | discriminate]. Qed.

(** C2 (as amended).  On a non-negative amount lib/vesting's
    [formatTokenAmount] is the specification's [toDisplay]: floor quotient
    by [10^decimals], remainder zero-padded to [decimals] digits, trailing
    zeros stripped, the integer part alone when no fractional digit is
    left; it gives ["0"] for [0] and ["1000"] for [10_000_000_000] at seven
    decimals.  lib/stellar's [formatTokenAmount] writes the same fractional
    digits after the integer part in the locale's grouping: it agrees with
    [toDisplay] when the integer part is below 1000, gives ["0"] for [0],
    and ["1,000"] for [10_000_000_000] at seven decimals. *)
Theorem formatTokenAmount_toDisplay (raw : Z) (decimals : nat) :
  0 <= raw ->
  Vesting.formatTokenAmount raw decimals = SpecModel.toDisplay raw decimals
  /\ Stellar.formatTokenAmount (Js.toString raw) decimals =
     Return
       (let fraction :=
          Js.stripTrailingZeros
            (Js.padStart (Js.toString (raw mod 10 ^ Z.of_nat decimals)) decimals "0") in
        match fraction with
        | EmptyString => Js.toLocaleString (raw / 10 ^ Z.of_nat decimals)
        | _ => Js.toLocaleString (raw / 10 ^ Z.of_nat decimals) ++ "." ++ fraction
        end)
  /\ (raw / 10 ^ Z.of_nat decimals < 1000 ->
      Stellar.formatTokenAmount (Js.toString raw) decimals
      = Return (SpecModel.toDisplay raw decimals))
  /\ Vesting.formatTokenAmount 0 7 = "0"
  /\ Vesting.formatTokenAmount 10000000000 7 = "1000"
  /\ Stellar.formatTokenAmount "0" 7 = Return "0"
  /\ Stellar.formatTokenAmount "10000000000" 7 = Return "1,000".
Proof.
  intros Hraw.
  destruct (amount_split raw decimals Hraw) as (_ & _ & Hw & Hf & _).
  split; [|split; [|split]].
  - now rewrite vesting_format_nonneg, toDisplay_cases.
  - rewrite stellar_format_nonneg by assumption.
    rewrite toString_nonneg by lia. cbv zeta. f_equal.
    destruct (Z.eqb_spec (raw mod 10 ^ Z.of_nat decimals) 0) as [E | E].
    + rewrite E, fraction_zero. reflexivity.
    + pose proof (fraction_not_empty (raw mod 10 ^ Z.of_nat decimals) decimals) as Hne.
      destruct (Js.stripTrailingZeros _);
        [exfalso; apply Hne; [lia | reflexivity] | reflexivity].
  - intros Hsmall.
    rewrite stellar_format_nonneg, toDisplay_cases by assumption.
    rewrite toLocaleString_small, toString_nonneg by lia. reflexivity.
  - repeat split; vm_compute; reflexivity.
Qed.

Lemma formatTokenAmount_toDisplay_witness :
  0 <= 10000500 /\
  Vesting.formatTokenAmount 10000500 7 = SpecModel.toDisplay 10000500 7.
Proof.
  split; [lia|].
  apply (formatTokenAmount_toDisplay 10000500 7). lia.
Defined.

(** C2 as the specification words it does not hold of lib/stellar's
    formatter, which groups the integer part: [10_000_000_000] at seven decimals is
    ["1,000"], not ["1000"]. *)
Lemma formatTokenAmount_grouping_counterexample :
  Stellar.formatTokenAmount "10000000000" 7 = Return "1,000"
  /\ Stellar.formatTokenAmount "10000000000" 7 <> Return "1000".
Proof. split; [vm_compute; reflexivity | vm_compute; discriminate]. Qed.

(* ------------------------------------------------------------------ *)
(** ** ValueCodec: the two words of an i128                             *)
(* ------------------------------------------------------------------ *)

Section Int128.

(** An unsigned 64-bit word has no bit in common with a multiple of
    [2^64]. *)
Lemma land_shifted_word (hi lo : Z) :
  0 <= lo < 2 ^ 64 -> Z.land (Z.shiftl hi 64) lo = 0.
Proof.
  intros Hlo. apply Z.bits_inj'. intros n Hn.
  rewrite Z.land_spec, Z.bits_0.
  destruct (Z.lt_ge_cases n 64) as [Hlt | Hge].
  - rewrite Z.shiftl_spec_low by assumption. reflexivity.
  - replace (Z.testbit lo n) with false; [apply andb_false_r|].
    symmetry. destruct (Z.eq_dec lo 0) as [-> | Hnz]; [apply Z.bits_0|].
    apply Z.bits_above_log2; [lia|].
    assert (Z.log2 lo < 64) by (apply Z.log2_lt_pow2; lia). lia.
Qed.

(** [(hi << 64n) | lo] and [(hi << 64n) + lo] are the same integer. *)
Lemma lor_shifted_word (hi lo : Z) :
  0 <= lo < 2 ^ 64 ->
  Z.lor (Z.shiftl hi 64) lo = hi * 2 ^ 64 + lo
  /\ Z.shiftl hi 64 + lo = hi * 2 ^ 64 + lo.
Proof.
  intros Hlo.
  pose proof (Z.add_lor_land (Z.shiftl hi 64) lo) as H.
  rewrite land_shifted_word in H by assumption.
  rewrite Z.shiftl_mul_pow2 in * by lia. lia.
Qed.

End Int128.

(** C3.  For a signed 64-bit [hi] and an unsigned 64-bit [lo], decoding
    the I128 value gives the exact integer [(hi << 64) | lo], that is
    [hi * 2^64 + lo], which lies in the signed 128-bit range; the [|]
    variant of lib/vesting and the [+] variant of lib/stellar (which
    returns the decimal string) agree; [{hi: 0, lo: 500}] decodes to 500.
    All arithmetic is on integers. *)
Theorem decodeI128_exact (hi lo : Z) :
  Sdk.wfInt128Parts hi lo ->
  Vesting.decodeI128 (Sdk.scvI128 hi lo) = Return (Z.lor (Z.shiftl hi 64) lo)
  /\ Z.lor (Z.shiftl hi 64) lo = hi * 2 ^ 64 + lo
  /\ - 2 ^ 127 <= hi * 2 ^ 64 + lo < 2 ^ 127
  /\ Stellar.decodeI128 (Sdk.scvI128 hi lo)
     = Return (Js.toString (Z.lor (Z.shiftl hi 64) lo))
  /\ Vesting.decodeI128 (Sdk.scvI128 0 500) = Return 500
  /\ Stellar.decodeI128 (Sdk.scvI128 0 500) = Return "500".
Proof.
  intros [Hhi Hlo].
  destruct (lor_shifted_word hi lo Hlo) as [Hor Hadd].
  split; [reflexivity|]. split; [exact Hor|]. split; [lia|].
  split; [|split; reflexivity].
  unfold Stellar.decodeI128. rewrite !BigInt_toString. cbn [bind].
  now rewrite Hor, Hadd.
Qed.

Lemma decodeI128_exact_witness :
  Sdk.wfInt128Parts (-1) 5 /\
  Vesting.decodeI128 (Sdk.scvI128 (-1) 5) = Return (-18446744073709551611).
Proof.
  assert (W : Sdk.wfInt128Parts (-1) 5) by (unfold Sdk.wfInt128Parts; lia).
  split; [exact W|].
  destruct (decodeI128_exact (-1) 5 W) as (H1 & H2 & _).
  rewrite H1, H2. reflexivity.
Defined.

(* ------------------------------------------------------------------ *)
(** ** VestingCalculator                                                *)
(* ------------------------------------------------------------------ *)

Section VestingMath.

Import Vesting.

Lemma bind_Return {A B : Type} (m : Outcome A) (k : A -> Outcome B) (b : B) :
  bind m k = Return b -> exists a, m = Return a /\ k a = Return b.
Proof. destruct m as [a | e]; simpl; [eauto | discriminate]. Qed.

(** Between cliff and end the vested amount is the floor of the exact
    quotient. *)
Lemma vestedAmount_linear (s : VestingSchedule) (currentLedger : Z) :
  cliffLedger s <= currentLedger < endLedger s ->
  let vested := SpecModel.vestedAmount s currentLedger in
  let span := endLedger s - cliffLedger s in
  let delta := currentLedger - cliffLedger s in
  vested = totalAmount s * delta / span
  /\ vested * span <= totalAmount s * delta < (vested + 1) * span.
Proof.
  intros H vested span delta. subst vested. unfold SpecModel.vestedAmount.
  destruct (Z.ltb_spec currentLedger (cliffLedger s)); [lia|].
  destruct (Z.geb_spec currentLedger (endLedger s)); [lia|].
  fold span delta. split; [reflexivity|].
  assert (Hs : 0 < span) by (subst span; lia).
  pose proof (Z.div_mod (totalAmount s * delta) span).
  pose proof (Z.mod_pos_bound (totalAmount s * delta) span Hs).
  nia.
Qed.

(** The vested amount of a non-negative total stays between zero and
    the total. *)
Lemma vestedAmount_bounds (s : VestingSchedule) (currentLedger : Z) :
  0 <= totalAmount s ->
  0 <= SpecModel.vestedAmount s currentLedger <= totalAmount s.
Proof.
  intros Ht. unfold SpecModel.vestedAmount.
  destruct (Z.ltb_spec currentLedger (cliffLedger s)); [lia|].
  destruct (Z.geb_spec currentLedger (endLedger s)); [lia|].
  set (span := endLedger s - cliffLedger s).
  set (delta := currentLedger - cliffLedger s).
  assert (0 < span) by (subst span; lia).
  assert (0 <= delta < span) by (subst span delta; lia).
  split.
  - apply Z.div_pos; nia.
  - apply Z.div_le_upper_bound; nia.
Qed.

(** The progress percentage of the claim page stays within 0..100 when
    the vested amount is the one of the schedule. *)
Lemma progressPct_range (s : VestingSchedule) (currentLedger ledger : Z) :
  0 <= totalAmount s ->
  0 <= progressPct {| schedule := s;
                      vestedAmount := SpecModel.vestedAmount s currentLedger;
                      releasableAmount :=
                        SpecModel.vestedAmount s currentLedger - released s;
                      currentLedger := ledger |} <= 100.
Proof.
  intros Ht. unfold progressPct. cbn [schedule vestedAmount].
  pose proof (vestedAmount_bounds s currentLedger Ht) as Hv.
  destruct (Z.gtb_spec (totalAmount s) 0) as [Hpos | _]; [|lia].
  rewrite Z.quot_div_nonneg by lia. split.
  - apply Z.div_pos; lia.
  - apply Z.div_le_upper_bound; lia.
Qed.

(** The cases of the dashboard's progress bar are the cases of the
    vested amount. *)
Lemma vestProgress_agrees (s : VestingSchedule) (currentLedger : Z) :
  cliffLedger s <= endLedger s ->
  match PersonalDashboard.vestProgress (cliffLedger s) (endLedger s) currentLedger with
  | PersonalDashboard.FullyVested =>
      SpecModel.vestedAmount s currentLedger = totalAmount s
  | PersonalDashboard.Vesting elapsed span =>
      SpecModel.vestedAmount s currentLedger = totalAmount s * elapsed / span
  | PersonalDashboard.CliffPending =>
      SpecModel.vestedAmount s currentLedger = 0
  end.
Proof.
  intros Hce. unfold PersonalDashboard.vestProgress, SpecModel.vestedAmount.
  destruct (Z.geb_spec currentLedger (endLedger s)) as [Hge | Hlt].
  - destruct (Z.ltb_spec currentLedger (cliffLedger s)); [lia | reflexivity].
  - destruct (Z.gtb_spec currentLedger (cliffLedger s)) as [Hgt | Hle];
      destruct (Z.ltb_spec currentLedger (cliffLedger s)) as [Hlt' | Hge'];
      try lia; try reflexivity.
    assert (currentLedger = cliffLedger s) as -> by lia.
    rewrite Z.sub_diag, Z.mul_0_r. apply Z.div_0_l. lia.
Qed.

End VestingMath.

(** C4.  For a schedule with [cliffLedger <= endLedger]: the vested
    amount is 0 before the cliff, the total from the end ledger on, and
    in between the floor of [totalAmount * (currentLedger - cliffLedger) /
    (endLedger - cliffLedger)], the product being exact (it stays below
    [2^159] for a 128-bit total and 32-bit ledgers); for [{total=1000,
    cliff=100, end=1100}] the amounts at ledgers 100, 600, 1100 and 1200
    are 0, 500, 1000 and 1000. *)
Theorem vestedAmount_piecewise (s : Vesting.VestingSchedule) (currentLedger : Z) :
  Vesting.cliffLedger s <= Vesting.endLedger s ->
  let total := Vesting.totalAmount s in
  let cliff := Vesting.cliffLedger s in
  let endL := Vesting.endLedger s in
  let vested := SpecModel.vestedAmount s currentLedger in
  (currentLedger < cliff -> vested = 0)
  /\ (currentLedger >= endL -> vested = total)
  /\ (cliff <= currentLedger < endL ->
      vested = total * (currentLedger - cliff) / (endL - cliff)
      /\ vested * (endL - cliff) <= total * (currentLedger - cliff)
         < (vested + 1) * (endL - cliff)
      /\ (0 <= total < 2 ^ 127 -> 0 <= cliff -> endL < 2 ^ 32 ->
          0 <= total * (currentLedger - cliff) < 2 ^ 159))
  /\ (let example := {| Vesting.recipient := "GRECIPIENT";
                        Vesting.totalAmount := 1000;
                        Vesting.cliffLedger := 100; Vesting.endLedger := 1100;
                        Vesting.released := 0; Vesting.revoked := false |} in
      SpecModel.vestedAmount example 100 = 0
      /\ SpecModel.vestedAmount example 600 = 500
      /\ SpecModel.vestedAmount example 1100 = 1000
      /\ SpecModel.vestedAmount example 1200 = 1000).
Proof.
  intros Hce total cliff endL vested.
  split; [|split; [|split]].
  - intros H. subst vested. unfold SpecModel.vestedAmount.
    destruct (Z.ltb_spec currentLedger (Vesting.cliffLedger s)); [reflexivity | lia].
  - intros H. subst vested. unfold SpecModel.vestedAmount.
    destruct (Z.ltb_spec currentLedger (Vesting.cliffLedger s)); [lia|].
    destruct (Z.geb_spec currentLedger (Vesting.endLedger s)); [reflexivity | lia].
  - intros H. destruct (vestedAmount_linear s currentLedger H) as [Hv Hfloor].
    split; [exact Hv|]. split; [exact Hfloor|].
    intros Ht Hc He. subst total cliff endL.
    assert (0 <= currentLedger - Vesting.cliffLedger s < 2 ^ 32) by lia.
    split; [nia|].
    replace (2 ^ 159) with (2 ^ 127 * 2 ^ 32) by reflexivity. nia.
  - repeat split; reflexivity.
Qed.

Lemma vestedAmount_piecewise_witness :
  Vesting.cliffLedger
    {| Vesting.recipient := "GRECIPIENT"; Vesting.totalAmount := 900;
       Vesting.cliffLedger := 10; Vesting.endLedger := 40;
       Vesting.released := 0; Vesting.revoked := false |} <= 40
  /\ SpecModel.vestedAmount
       {| Vesting.recipient := "GRECIPIENT"; Vesting.totalAmount := 900;
          Vesting.cliffLedger := 10; Vesting.endLedger := 40;
          Vesting.released := 0; Vesting.revoked := false |} 17
     = 900 * (17 - 10) / (40 - 10).
Proof.
  split; [simpl; lia|].
  apply (vestedAmount_piecewise
           {| Vesting.recipient := "GRECIPIENT"; Vesting.totalAmount := 900;
              Vesting.cliffLedger := 10; Vesting.endLedger := 40;
              Vesting.released := 0; Vesting.revoked := false |} 17);
    simpl; lia.
Defined.

(** C5 (as amended).  The vesting client computes the releasable amount
    as the difference [vestedAmount - released] of the two values read
    from the contract: it equals [max(0, vestedAmount - released)] when
    [released <= vestedAmount], and is negative when [released] exceeds
    [vestedAmount]. *)
Theorem releasableAmount_difference (lib : Sdk.Lib) (server : Sdk.Server)
    (passphrase contractId recipientAddress : string) (info : Vesting.VestingInfo) :
  Vesting.fetchVestingInfo lib server passphrase contractId recipientAddress
    = Return info ->
  Vesting.fetchVestingSchedule lib server passphrase contractId recipientAddress
    = Return (Vesting.schedule info)
  /\ Vesting.fetchVestedAmount lib server passphrase contractId recipientAddress
     = Return (Vesting.vestedAmount info)
  /\ Vesting.releasableAmount info
     = Vesting.vestedAmount info - Vesting.released (Vesting.schedule info)
  /\ (Vesting.released (Vesting.schedule info) <= Vesting.vestedAmount info ->
      Vesting.releasableAmount info
      = Z.max 0 (Vesting.vestedAmount info - Vesting.released (Vesting.schedule info)))
  /\ (Vesting.vestedAmount info < Vesting.released (Vesting.schedule info) ->
      Vesting.releasableAmount info < 0).
Proof.
  intros H. unfold Vesting.fetchVestingInfo in H.
  apply bind_Return in H as (sch & Hsch & H).
  apply bind_Return in H as (vested & Hvested & H).
  apply bind_Return in H as (ledger & _ & H).
  injection H as <-. cbn.
  repeat split; try assumption; lia.
Qed.

Lemma releasableAmount_difference_witness :
  exists info,
    Vesting.fetchVestingInfo (Remote.libFor Remote.sampleNode) Remote.sampleNode
      "Test SDF Network ; September 2015" "CVESTING" "GRECIPIENT" = Return info
    /\ Vesting.vestedAmount info = 500
    /\ Vesting.released (Vesting.schedule info) = 200
    /\ Vesting.releasableAmount info
       = Vesting.vestedAmount info - Vesting.released (Vesting.schedule info).
Proof.
  pose (info :=
          {| Vesting.schedule :=
               {| Vesting.recipient := "GRECIPIENT"; Vesting.totalAmount := 1000;
                  Vesting.cliffLedger := 100; Vesting.endLedger := 1100;
                  Vesting.released := 200; Vesting.revoked := false |};
             Vesting.vestedAmount := 500; Vesting.releasableAmount := 300;
             Vesting.currentLedger := 600 |}).
  assert (E : Vesting.fetchVestingInfo (Remote.libFor Remote.sampleNode)
                Remote.sampleNode "Test SDF Network ; September 2015"
                "CVESTING" "GRECIPIENT" = Return info)
    by (vm_compute; reflexivity).
  exists info. split; [exact E|]. split; [reflexivity|]. split; [reflexivity|].
  exact (proj1 (proj2 (proj2 (releasableAmount_difference _ _ _ _ _ _ E)))).
Defined.

(** C5 as the specification words it does not hold: with nothing vested
    and 5 units
    already released, the releasable amount the client reports is [-5],
    not [max(0, -5) = 0]. *)
Lemma releasableAmount_negative_counterexample :
  exists info,
    Vesting.fetchVestingInfo
      (Remote.libFor (Remote.vestingNode (Remote.scheduleVal 1000 100 1100 5)
                        0 50 Remote.neverFound))
      (Remote.vestingNode (Remote.scheduleVal 1000 100 1100 5) 0 50
         Remote.neverFound)
      "Test SDF Network ; September 2015" "CVESTING" "GRECIPIENT" = Return info
    /\ Vesting.vestedAmount info = 0
    /\ Vesting.released (Vesting.schedule info) = 5
    /\ Vesting.releasableAmount info = -5
    /\ Vesting.releasableAmount info
       <> Z.max 0 (Vesting.vestedAmount info - Vesting.released (Vesting.schedule info)).
Proof.
  eexists. split; [vm_compute; reflexivity|].
  cbn. repeat split; discriminate.
Qed.

(* ------------------------------------------------------------------ *)
(** ** TransactionLifecycle: submit and poll                            *)
(* ------------------------------------------------------------------ *)

(** Reading a clock without unfolding the arithmetic on it. *)
Ltac clock_simpl :=
  cbn [fst snd Sdk.queries Sdk.slept Sdk.sleep Sdk.tick Sdk.clockStart
       Sdk.isSUCCESS Sdk.isFAILED Sdk.isNOT_FOUND] in *.

Section Polling.

Import Sdk Remote.

Variable server : Server.
Variable hash : string.

(** Two clocks with the same readings are the same clock. *)
Lemma clock_ext (a b : Clock) :
  queries a = queries b -> slept a = slept b -> a = b.
Proof. destruct a, b; simpl; intros -> ->; reflexivity. Qed.

Lemma status_cases (st : GetTransactionStatus) :
  st = SUCCESS \/ st = NOT_FOUND \/ st = FAILED.
Proof. destruct st; auto. Qed.

(** lib/vesting: each turn of the loop sleeps two seconds and makes one
    query, and there are at most [remaining] turns. *)
Lemma pollLoop_clock (remaining : nat) : forall clock,
  let final := snd (Vesting.pollLoop server hash remaining clock) in
  (queries clock <= queries final <= queries clock + remaining)%nat
  /\ slept final
     = slept clock + 2000 * (Z.of_nat (queries final) - Z.of_nat (queries clock)).
Proof.
  induction remaining as [|remaining IH]; intros clock; cbv zeta;
    cbn [Vesting.pollLoop].
  - clock_simpl. split; lia.
  - destruct (getTransaction server hash (queries (sleep 2000 clock)))
      as [getResponse | e]; [|clock_simpl; split; lia].
    destruct (isSUCCESS (get_status getResponse)); [clock_simpl; split; lia|].
    destruct (isFAILED (get_status getResponse)); [clock_simpl; split; lia|].
    specialize (IH (tick (sleep 2000 clock))). clock_simpl.
    destruct IH as [IHq IHs]. split; lia.
Qed.

(** lib/vesting: [NOT_FOUND] at every turn ends in the time-out error. *)
Lemma pollLoop_timeout (remaining : nat) : forall clock,
  (forall j, (queries clock <= j < queries clock + remaining)%nat ->
             statusAt server hash j NOT_FOUND) ->
  Vesting.pollLoop server hash remaining clock
  = (Throw vestingTimeout,
     {| queries := queries clock + remaining;
        slept := slept clock + 2000 * Z.of_nat remaining |}).
Proof.
  induction remaining as [|remaining IH]; intros clock Hnf; cbn [Vesting.pollLoop].
  - clock_simpl. f_equal; apply clock_ext; clock_simpl; lia.
  - destruct (Hnf (queries clock)) as (r & Hr & Hst); [lia|].
    cbn [sleep queries]. rewrite Hr, Hst. cbn [isSUCCESS isFAILED].
    rewrite IH.
    + clock_simpl. f_equal; apply clock_ext; clock_simpl; lia.
    + intros j Hj. clock_simpl. apply Hnf. lia.
Qed.

(** lib/vesting: the first answer that is not [NOT_FOUND] ends the loop. *)
Lemma pollLoop_terminal (k : nat) : forall remaining clock r,
  (k < remaining)%nat ->
  (forall j, (queries clock <= j < queries clock + k)%nat ->
             statusAt server hash j NOT_FOUND) ->
  getTransaction server hash (queries clock + k) = Return r ->
  get_status r <> NOT_FOUND ->
  Vesting.pollLoop server hash remaining clock
  = (if isSUCCESS (get_status r) then Return r
     else Throw (JsError "Transaction failed on-chain"),
     {| queries := queries clock + k + 1;
        slept := slept clock + 2000 * (Z.of_nat k + 1) |}).
Proof.
  induction k as [|k IH]; intros remaining clock r Hk Hnf Hr Hst;
    (destruct remaining as [|remaining]; [lia|]); cbn [Vesting.pollLoop].
  - cbn [sleep queries]. rewrite Nat.add_0_r in Hr. rewrite Hr.
    destruct (status_cases (get_status r)) as [E | [E | E]];
      [| congruence |]; rewrite E; clock_simpl; f_equal; apply clock_ext; clock_simpl; lia.
  - destruct (Hnf (queries clock)) as (r0 & Hr0 & Hst0); [lia|].
    cbn [sleep queries]. rewrite Hr0, Hst0. cbn [isSUCCESS isFAILED].
    rewrite (IH remaining _ r).
    + clock_simpl. f_equal; apply clock_ext; clock_simpl; lia.
    + lia.
    + intros j Hj. clock_simpl. apply Hnf. lia.
    + clock_simpl. rewrite <- Hr. f_equal. lia.
    + exact Hst.
Qed.

(** lib/stellar: each turn of the loop sleeps one second and makes one
    query, and there are at most [remaining] turns. *)
Lemma pollWhile_clock (remaining : nat) : forall getResponse clock,
  let final := snd (Stellar.pollWhile server hash remaining getResponse clock) in
  (queries clock <= queries final <= queries clock + remaining)%nat
  /\ slept final
     = slept clock + 1000 * (Z.of_nat (queries final) - Z.of_nat (queries clock)).
Proof.
  induction remaining as [|remaining IH]; intros getResponse clock; cbv zeta;
    cbn [Stellar.pollWhile].
  - clock_simpl. split; lia.
  - destruct (isNOT_FOUND (get_status getResponse)); [|clock_simpl; split; lia].
    destruct (getTransaction server hash (queries (sleep 1000 clock)))
      as [getResponse' | e]; [|clock_simpl; split; lia].
    specialize (IH getResponse' (tick (sleep 1000 clock))). clock_simpl.
    destruct IH as [IHq IHs]. split; lia.
Qed.

(** lib/stellar: [NOT_FOUND] at every turn leaves the loop with a
    [NOT_FOUND] response after [remaining] more queries. *)
Lemma pollWhile_not_found (remaining : nat) : forall getResponse clock,
  get_status getResponse = NOT_FOUND ->
  (forall j, (queries clock <= j < queries clock + remaining)%nat ->
             statusAt server hash j NOT_FOUND) ->
  exists last,
    get_status last = NOT_FOUND
    /\ Stellar.pollWhile server hash remaining getResponse clock
       = (Return last,
          {| queries := queries clock + remaining;
             slept := slept clock + 1000 * Z.of_nat remaining |}).
Proof.
  induction remaining as [|remaining IH]; intros getResponse clock Hcur Hnf;
    cbn [Stellar.pollWhile].
  - exists getResponse. split; [exact Hcur|].
    clock_simpl. f_equal; apply clock_ext; clock_simpl; lia.
  - rewrite Hcur. cbn [isNOT_FOUND].
    destruct (Hnf (queries clock)) as (r & Hr & Hst); [lia|].
    cbn [sleep queries]. rewrite Hr.
    destruct (IH r (tick (sleep 1000 clock)) Hst) as (last & Hlast & Hrun).
    + intros j Hj. clock_simpl. apply Hnf. lia.
    + exists last. split; [exact Hlast|].
      clock_simpl. rewrite Hrun. clock_simpl. f_equal; apply clock_ext; clock_simpl; lia.
Qed.

(** lib/stellar: the first answer that is not [NOT_FOUND] ends the loop. *)
Lemma pollWhile_terminal (k : nat) : forall remaining getResponse clock r,
  (k < remaining)%nat ->
  get_status getResponse = NOT_FOUND ->
  (forall j, (queries clock <= j < queries clock + k)%nat ->
             statusAt server hash j NOT_FOUND) ->
  getTransaction server hash (queries clock + k) = Return r ->
  get_status r <> NOT_FOUND ->
  Stellar.pollWhile server hash remaining getResponse clock
  = (Return r,
     {| queries := queries clock + k + 1;
        slept := slept clock + 1000 * (Z.of_nat k + 1) |}).
Proof.
  induction k as [|k IH]; intros remaining getResponse clock r Hk Hcur Hnf Hr Hst;
    (destruct remaining as [|remaining]; [lia|]); cbn [Stellar.pollWhile];
    rewrite Hcur; cbn [isNOT_FOUND sleep queries].
  - rewrite Nat.add_0_r in Hr. rewrite Hr.
    destruct remaining as [|remaining]; cbn [Stellar.pollWhile].
    + clock_simpl. f_equal; apply clock_ext; clock_simpl; lia.
    + destruct (status_cases (get_status r)) as [E | [E | E]];
        [| congruence |]; rewrite E; clock_simpl; f_equal; apply clock_ext; clock_simpl; lia.
  - destruct (Hnf (queries clock)) as (r0 & Hr0 & Hst0); [lia|].
    rewrite Hr0. rewrite (IH remaining r0 _ r).
    + clock_simpl. f_equal; apply clock_ext; clock_simpl; lia.
    + lia.
    + exact Hst0.
    + intros j Hj. clock_simpl. apply Hnf. lia.
    + clock_simpl. rewrite <- Hr. f_equal. lia.
    + exact Hst.
Qed.

End Polling.

Section Submit.

Import Sdk Remote.

Variable lib : Lib.
Variable server : Server.
Variables rpcUrl passphrase signedXdr hash : string.

Hypothesis Haccepted : accepted lib server passphrase signedXdr hash.
Hypothesis Hserver : newServer lib rpcUrl = Return server.

(** Once the node has accepted the envelope, lib/vesting's [submitTx] is
    its polling loop. *)
Lemma submitTx_accepted :
  Vesting.submitTx lib server passphrase signedXdr
  = Vesting.pollLoop server hash 30 clockStart.
Proof.
  destruct Haccepted as (tx & response & Hx & Hs & He & Hh).
  unfold Vesting.submitTx. now rewrite Hx, Hs, He, Hh.
Qed.

Lemma submitTransaction_accepted :
  Stellar.submitTransaction lib rpcUrl passphrase signedXdr
  = match getTransaction server hash 0 with
    | Throw e => (Throw e, tick clockStart)
    | Return first =>
        stellarVerdict hash
          (Stellar.pollWhile server hash Stellar.maxAttempts first (tick clockStart))
    end.
Proof.
  destruct Haccepted as (tx & response & Hx & Hs & He & Hh).
  unfold Stellar.submitTransaction. rewrite Hx, Hserver, Hs, He, Hh.
  reflexivity.
Qed.

Lemma submitTx_bounded :
  let final := snd (Vesting.submitTx lib server passphrase signedXdr) in
  (queries final <= 30)%nat /\ slept final = 2000 * Z.of_nat (queries final).
Proof.
  cbv zeta. rewrite submitTx_accepted.
  pose proof (pollLoop_clock server hash 30 clockStart) as H.
  cbv zeta in H. clock_simpl. lia.
Qed.

Lemma submitTransaction_bounded :
  let final := snd (Stellar.submitTransaction lib rpcUrl passphrase signedXdr) in
  (1 <= queries final <= 31)%nat
  /\ slept final = 1000 * (Z.of_nat (queries final) - 1).
Proof.
  cbv zeta. rewrite submitTransaction_accepted.
  destruct (getTransaction server hash 0) as [first | e]; [|clock_simpl; lia].
  pose proof (pollWhile_clock server hash Stellar.maxAttempts first (tick clockStart))
    as H.
  cbv zeta in H. unfold Stellar.maxAttempts in *.
  destruct (Stellar.pollWhile server hash 30 first (tick clockStart))
    as [[getResponse | e] clock]; unfold stellarVerdict.
  - destruct (isNOT_FOUND (get_status getResponse));
      [|destruct (isFAILED (get_status getResponse))]; clock_simpl; lia.
  - clock_simpl. lia.
Qed.

(** The first answer that is not [NOT_FOUND] settles [submitTx]. *)
Lemma submitTx_terminal (k : nat) (r : GetTransactionResponse) :
  (k < 30)%nat ->
  notFoundBefore server hash k ->
  getTransaction server hash k = Return r ->
  get_status r <> NOT_FOUND ->
  Vesting.submitTx lib server passphrase signedXdr
  = (if isSUCCESS (get_status r) then Return r
     else Throw (JsError "Transaction failed on-chain"),
     {| queries := S k; slept := 2000 * Z.of_nat (S k) |}).
Proof.
  intros Hk Hnf Hr Hst. rewrite submitTx_accepted.
  rewrite (pollLoop_terminal server hash k 30 clockStart r); clock_simpl.
  - f_equal. apply clock_ext; clock_simpl; lia.
  - exact Hk.
  - intros j Hj. apply Hnf. lia.
  - exact Hr.
  - exact Hst.
Qed.

(** The first answer that is not [NOT_FOUND] settles
    [submitTransaction]. *)
Lemma submitTransaction_terminal (k : nat) (r : GetTransactionResponse) :
  (k <= 30)%nat ->
  notFoundBefore server hash k ->
  getTransaction server hash k = Return r ->
  get_status r <> NOT_FOUND ->
  Stellar.submitTransaction lib rpcUrl passphrase signedXdr
  = (if isFAILED (get_status r)
     then Throw (JsError ("Transaction failed: " ++ renderOptional (get_resultXdr r)))
     else Return hash,
     {| queries := S k; slept := 1000 * Z.of_nat k |}).
Proof.
  intros Hk Hnf Hr Hst. rewrite submitTransaction_accepted.
  assert (Hverdict : forall clock,
    stellarVerdict hash (Return r, clock)
    = (if isFAILED (get_status r)
       then Throw (JsError ("Transaction failed: " ++ renderOptional (get_resultXdr r)))
       else Return hash, clock)).
  { intros clock. unfold stellarVerdict.
    destruct (status_cases (get_status r)) as [E | [E | E]];
      [| congruence |]; rewrite E; reflexivity. }
  destruct k as [|k].
  - rewrite Hr. unfold Stellar.maxAttempts. cbn [Stellar.pollWhile].
    replace (isNOT_FOUND (get_status r)) with false
      by (destruct (get_status r); [reflexivity | congruence | reflexivity]).
    rewrite Hverdict. f_equal.
  - destruct (Hnf 0%nat) as (first & Hfirst & Hst0); [lia|].
    rewrite Hfirst.
    rewrite (pollWhile_terminal server hash k Stellar.maxAttempts first
               (tick clockStart) r); clock_simpl.
    + rewrite Hverdict. f_equal. apply clock_ext; clock_simpl; lia.
    + unfold Stellar.maxAttempts. lia.
    + exact Hst0.
    + intros j Hj. apply Hnf. lia.
    + exact Hr.
    + exact Hst.
Qed.

(** [NOT_FOUND] at each of the 30 queries: [submitTx] rejects. *)
Lemma submitTx_never_found :
  notFoundBefore server hash 30 ->
  Vesting.submitTx lib server passphrase signedXdr
  = (Throw vestingTimeout, {| queries := 30; slept := 60000 |}).
Proof.
  intros Hnf. rewrite submitTx_accepted, pollLoop_timeout; clock_simpl.
  - reflexivity.
  - intros j Hj. apply Hnf. lia.
Qed.

(** [NOT_FOUND] at each of the 31 queries: [submitTransaction] rejects. *)
Lemma submitTransaction_never_found :
  notFoundBefore server hash 31 ->
  Stellar.submitTransaction lib rpcUrl passphrase signedXdr
  = (Throw stellarTimeout, {| queries := 31; slept := 30000 |}).
Proof.
  intros Hnf. rewrite submitTransaction_accepted.
  destruct (Hnf 0%nat) as (first & Hfirst & Hst0); [lia|].
  rewrite Hfirst.
  destruct (pollWhile_not_found server hash Stellar.maxAttempts first
              (tick clockStart) Hst0) as (last & Hlast & Hrun).
  - intros j Hj. clock_simpl. apply Hnf. unfold Stellar.maxAttempts in Hj. lia.
  - rewrite Hrun. unfold stellarVerdict. rewrite Hlast. reflexivity.
Qed.

End Submit.

(** C6 (as amended).  Once the node has accepted the envelope, the
    submit-and-poll operations query the transaction status a bounded
    number of times on a fixed interval: lib/vesting's [submitTx] at most
    30 times, two seconds before each query; lib/stellar's
    [submitTransaction] at most 31 times, one second before each query
    after the first.  While the node answers [NOT_FOUND] they keep
    polling; [SUCCESS] resolves the operation and [FAILED] rejects it, at
    the query that reports them; when every query is answered [NOT_FOUND]
    the operation rejects with its time-out error. *)
Theorem submit_poll_outcomes (lib : Sdk.Lib) (server : Sdk.Server)
    (rpcUrl passphrase signedXdr hash : string) :
  Remote.accepted lib server passphrase signedXdr hash ->
  Sdk.newServer lib rpcUrl = Return server ->
  let vesting := Vesting.submitTx lib server passphrase signedXdr in
  let stellar := Stellar.submitTransaction lib rpcUrl passphrase signedXdr in
  ((Sdk.queries (snd vesting) <= 30)%nat
   /\ Sdk.slept (snd vesting) = 2000 * Z.of_nat (Sdk.queries (snd vesting)))
  /\ ((Sdk.queries (snd stellar) <= 31)%nat
      /\ Sdk.slept (snd stellar) = 1000 * (Z.of_nat (Sdk.queries (snd stellar)) - 1))
  /\ (forall k r,
        Remote.notFoundBefore server hash k ->
        Sdk.getTransaction server hash k = Return r ->
        Sdk.get_status r = Sdk.SUCCESS ->
        ((k < 30)%nat ->
         vesting = (Return r, {| Sdk.queries := S k;
                                 Sdk.slept := 2000 * Z.of_nat (S k) |}))
        /\ ((k <= 30)%nat ->
            stellar = (Return hash, {| Sdk.queries := S k;
                                       Sdk.slept := 1000 * Z.of_nat k |})))
  /\ (forall k r,
        Remote.notFoundBefore server hash k ->
        Sdk.getTransaction server hash k = Return r ->
        Sdk.get_status r = Sdk.FAILED ->
        ((k < 30)%nat ->
         vesting = (Throw (JsError "Transaction failed on-chain"),
                    {| Sdk.queries := S k; Sdk.slept := 2000 * Z.of_nat (S k) |}))
        /\ ((k <= 30)%nat ->
            stellar = (Throw (JsError ("Transaction failed: "
                                       ++ Sdk.renderOptional (Sdk.get_resultXdr r))),
                       {| Sdk.queries := S k; Sdk.slept := 1000 * Z.of_nat k |})))
  /\ (Remote.notFoundBefore server hash 30 ->
      vesting = (Throw (JsError "Transaction timed out waiting for confirmation"),
                 {| Sdk.queries := 30; Sdk.slept := 60000 |}))
  /\ (Remote.notFoundBefore server hash 31 ->
      stellar = (Throw (JsError "Transaction not found after polling"),
                 {| Sdk.queries := 31; Sdk.slept := 30000 |})).
Proof.
  intros Hacc Hsrv vesting stellar. subst vesting stellar.
  split; [exact (submitTx_bounded lib server passphrase signedXdr hash Hacc)|].
  split.
  { pose proof (submitTransaction_bounded lib server rpcUrl passphrase signedXdr
                  hash Hacc Hsrv) as H. cbv zeta in H. lia. }
  split; [|split; [|split]].
  - intros k r Hnf Hr Hst. split; intros Hk.
    + rewrite (submitTx_terminal lib server passphrase signedXdr hash Hacc k r)
        by (assumption || congruence).
      now rewrite Hst.
    + rewrite (submitTransaction_terminal lib server rpcUrl passphrase signedXdr
                 hash Hacc Hsrv k r) by (assumption || congruence).
      now rewrite Hst.
  - intros k r Hnf Hr Hst. split; intros Hk.
    + rewrite (submitTx_terminal lib server passphrase signedXdr hash Hacc k r)
        by (assumption || congruence).
      now rewrite Hst.
    + rewrite (submitTransaction_terminal lib server rpcUrl passphrase signedXdr
                 hash Hacc Hsrv k r) by (assumption || congruence).
      now rewrite Hst.
  - intros Hnf.
    exact (submitTx_never_found lib server passphrase signedXdr hash Hacc Hnf).
  - intros Hnf.
    exact (submitTransaction_never_found lib server rpcUrl passphrase signedXdr
             hash Hacc Hsrv Hnf).
Qed.

(** A node that reports [NOT_FOUND] five times and then [SUCCESS]. *)
Lemma submit_poll_outcomes_witness :
  Remote.accepted (Remote.libFor Remote.sampleNode) Remote.sampleNode
    "Test SDF Network ; September 2015" "AAAA" "HASH"
  /\ Sdk.newServer (Remote.libFor Remote.sampleNode) "https://soroban-testnet.stellar.org"
     = Return Remote.sampleNode
  /\ (Sdk.queries
        (snd (Vesting.submitTx (Remote.libFor Remote.sampleNode) Remote.sampleNode
                "Test SDF Network ; September 2015" "AAAA")) <= 30)%nat.
Proof.
  assert (A : Remote.accepted (Remote.libFor Remote.sampleNode) Remote.sampleNode
                "Test SDF Network ; September 2015" "AAAA" "HASH").
  { eexists _, _. repeat split; reflexivity. }
  split; [exact A|]. split; [reflexivity|].
  apply (submit_poll_outcomes (Remote.libFor Remote.sampleNode) Remote.sampleNode
           "https://soroban-testnet.stellar.org" "Test SDF Network ; September 2015"
           "AAAA" "HASH" A eq_refl).
Defined.

(** C6 as the specification words it does not hold: against a node that
    always answers
    [NOT_FOUND] both operations end by throwing an error; neither
    resolves to a value. *)
Lemma submit_poll_timeout_counterexample :
  Vesting.submitTx (Remote.libFor Remote.silentNode) Remote.silentNode
    "Test SDF Network ; September 2015" "AAAA"
  = (Throw (JsError "Transaction timed out waiting for confirmation"),
     {| Sdk.queries := 30; Sdk.slept := 60000 |})
  /\ Stellar.submitTransaction (Remote.libFor Remote.silentNode)
       "https://soroban-testnet.stellar.org" "Test SDF Network ; September 2015" "AAAA"
     = (Throw (JsError "Transaction not found after polling"),
        {| Sdk.queries := 31; Sdk.slept := 30000 |})
  /\ ~ (exists v clock,
          Vesting.submitTx (Remote.libFor Remote.silentNode) Remote.silentNode
            "Test SDF Network ; September 2015" "AAAA" = (Return v, clock)).
Proof.
  assert (E : Vesting.submitTx (Remote.libFor Remote.silentNode) Remote.silentNode
                "Test SDF Network ; September 2015" "AAAA"
              = (Throw (JsError "Transaction timed out waiting for confirmation"),
                 {| Sdk.queries := 30; Sdk.slept := 60000 |}))
    by (vm_compute; reflexivity).
  split; [exact E|]. split; [vm_compute; reflexivity|].
  intros (v & clock & H). rewrite E in H. discriminate.
Qed.

(* ------------------------------------------------------------------ *)
(** ** ErrorClassifier                                                  *)
(* ------------------------------------------------------------------ *)

Section Substrings.

Lemma includes_unfold (p s : string) :
  Js.includes p s =
  Js.startsWith p s || match s with
                       | EmptyString => false
                       | String _ s' => Js.includes p s'
                       end.
Proof. destruct s; reflexivity. Qed.

Lemma startsWith_refl (s : string) : Js.startsWith s s = true.
Proof.
  induction s as [|c s IH]; [reflexivity|].
  cbn [Js.startsWith]. now rewrite Ascii.eqb_refl, IH.
Qed.

Lemma includes_refl (s : string) : Js.includes s s = true.
Proof. now rewrite includes_unfold, startsWith_refl. Qed.

Lemma startsWith_app_l (p q : string) : forall s,
  Js.startsWith (p ++ q) s = true -> Js.startsWith p s = true.
Proof.
  induction p as [|a p IH]; intros s H; [destruct s; reflexivity|].
  destruct s as [|b s]; cbn [append Js.startsWith] in *; [discriminate|].
  apply andb_true_iff in H as [Hab Hrest].
  now rewrite Hab, (IH _ Hrest).
Qed.

Lemma startsWith_app_r (p q : string) : forall s,
  Js.startsWith (p ++ q) s = true -> Js.includes q s = true.
Proof.
  induction p as [|a p IH]; intros s H.
  - cbn [append] in H. now rewrite includes_unfold, H.
  - destruct s as [|b s]; cbn [append Js.startsWith] in H; [discriminate|].
    apply andb_true_iff in H as [_ Hrest].
    rewrite includes_unfold, (IH _ Hrest). apply orb_true_r.
Qed.

(** A text that contains [p ++ q] contains [p] and contains [q]. *)
Lemma includes_app (p q : string) : forall s,
  Js.includes (p ++ q) s = true ->
  Js.includes p s = true /\ Js.includes q s = true.
Proof.
  induction s as [|b s IH]; intros H; rewrite includes_unfold in H;
    apply orb_true_iff in H as [H | H].
  - split; [rewrite includes_unfold, (startsWith_app_l _ _ _ H); reflexivity
           | exact (startsWith_app_r _ _ _ H)].
  - discriminate.
  - split; [rewrite includes_unfold, (startsWith_app_l _ _ _ H); reflexivity
           | exact (startsWith_app_r _ _ _ H)].
  - destruct (IH H) as [Hp Hq].
    split; rewrite includes_unfold; [rewrite Hp | rewrite Hq]; apply orb_true_r.
Qed.

(** In an ordered scan, an entry that sits behind one matching whenever
    it matches is never the result. *)
Lemma find_shadowed {A : Type} (f : A -> bool) (x y : A) (before between after : list A) :
  (f y = true -> f x = true) ->
  ~ In y before -> x <> y ->
  find f (before ++ x :: between ++ y :: after) <> Some y.
Proof.
  intros Hxy Hb Hneq Hfind.
  assert (Hy : f y = true) by (apply (find_some _ _ Hfind)).
  specialize (Hxy Hy).
  induction before as [|b before IH]; cbn [app find] in Hfind.
  - rewrite Hxy in Hfind. congruence.
  - destruct (f b).
    + injection Hfind as ->. apply Hb. now left.
    + apply IH; [|exact Hfind]. intros Hin. apply Hb. now right.
Qed.

Lemma find_none_iff {A : Type} (f : A -> bool) (l : list A) :
  (forall x, In x l -> f x = false) -> find f l = None.
Proof.
  intros H. destruct (find f l) as [x|] eqn:E; [|reflexivity].
  destruct (find_some _ _ E) as [Hin Hfx]. rewrite (H x Hin) in Hfx. discriminate.
Qed.

End Substrings.

(** Membership of a closed entry in a closed list, decided entry by
    entry. *)
Ltac not_in_closed :=
  let H := fresh "H" in
  intros H; cbn [In] in H;
  repeat (destruct H as [H | H]; [discriminate H|]); exact H.

(** C7.  The rule table has shadowed rules.  ["insufficient balance to
    burn"] comes after ["insufficient balance"], and ["total_amount must
    be positive"] after ["amount must be positive"]: for every input the
    scan stops at the earlier, more general rule, and the two later rules
    are never the one that classifies. *)
Theorem shadowed_rules (errorMessage : string) :
  let scan := TransactionSimulator.firstRule (Js.toLowerCase errorMessage) in
  In ("insufficient balance to burn",
      "Cannot burn more tokens than the account holds.")
     TransactionSimulator.ERROR_MESSAGE_MAP
  /\ scan <> Some ("insufficient balance to burn",
                   "Cannot burn more tokens than the account holds.")
  /\ In ("total_amount must be positive", "Total amount must be greater than zero.")
        TransactionSimulator.ERROR_MESSAGE_MAP
  /\ scan <> Some ("total_amount must be positive",
                   "Total amount must be greater than zero.")
  /\ TransactionSimulator.parseSorobanError "insufficient balance to burn"
     = "Insufficient token balance for this operation."
  /\ TransactionSimulator.parseSorobanError "total_amount must be positive"
     = "Amount must be greater than zero.".
Proof.
  intros scan. subst scan.
  split; [cbn; tauto|]. split.
  { unfold TransactionSimulator.firstRule.
    apply (find_shadowed _
             ("insufficient balance", "Insufficient token balance for this operation.")
             _ [ _ ] [ _; _; _; _; _; _; _ ] _).
    - unfold TransactionSimulator.ruleMatches. cbn [fst].
      change (Js.toLowerCase "insufficient balance to burn")
        with ("insufficient balance" ++ " to burn").
      change (Js.toLowerCase "insufficient balance") with "insufficient balance".
      intros H. now apply includes_app in H.
    - not_in_closed.
    - discriminate. }
  split; [cbn; tauto|]. split.
  { unfold TransactionSimulator.firstRule.
    apply (find_shadowed _ ("amount must be positive", "Amount must be greater than zero.")
             _ [ _; _; _ ] [ _; _; _; _; _; _; _; _; _; _; _; _ ] _).
    - unfold TransactionSimulator.ruleMatches. cbn [fst].
      change (Js.toLowerCase "total_amount must be positive")
        with ("total_" ++ "amount must be positive").
      change (Js.toLowerCase "amount must be positive") with "amount must be positive".
      intros H. now apply includes_app in H.
    - not_in_closed.
    - discriminate. }
  split; vm_compute; reflexivity.
Qed.

(** C8.  The classifier is total: every input gets a message, which is
    the message of a rule of the table, one of the five messages of the
    checks that follow it, or the input itself; an input that matches no
    rule and none of the five checks is returned unchanged, so the
    message contains the original text. *)
Theorem parseSorobanError_total (errorMessage : string) :
  (forall rule, In rule TransactionSimulator.ERROR_MESSAGE_MAP ->
     Js.includes (Js.toLowerCase (fst rule)) (Js.toLowerCase errorMessage) = false) ->
  (forall pattern,
     In pattern ["invocation failed"; "insufficient funds"; "timeout";
                 "deadline exceeded"; "build failed"] ->
     Js.includes pattern (Js.toLowerCase errorMessage) = false) ->
  TransactionSimulator.parseSorobanError errorMessage = errorMessage
  /\ Js.includes errorMessage (TransactionSimulator.parseSorobanError errorMessage) = true
  /\ (forall anyMessage,
        exists message,
          TransactionSimulator.parseSorobanError anyMessage = message
          /\ (In message (map snd TransactionSimulator.ERROR_MESSAGE_MAP)
              \/ In message
                   ["Contract invocation failed. The transaction may have invalid parameters.";
                    "Insufficient XLM balance to pay transaction fees.";
                    "The operation timed out. Please try again.";
                    "Transaction deadline exceeded. Please try again.";
                    "Failed to build transaction. Please check your inputs."]
              \/ message = anyMessage))
  /\ TransactionSimulator.parseSorobanError "totally unrecognized xyz"
     = "totally unrecognized xyz".
Proof.
  intros Hrules Hpanic.
  assert (E : TransactionSimulator.parseSorobanError errorMessage = errorMessage).
  { unfold TransactionSimulator.parseSorobanError, TransactionSimulator.firstRule.
    rewrite find_none_iff by exact Hrules.
    unfold TransactionSimulator.panicMessage.
    rewrite !Hpanic by (cbn [In]; tauto). reflexivity. }
  split; [exact E|]. split; [rewrite E; apply includes_refl|].
  split; [|vm_compute; reflexivity].
  intros anyMessage. eexists. split; [reflexivity|].
  unfold TransactionSimulator.parseSorobanError.
  destruct (TransactionSimulator.firstRule _) as [[key message]|] eqn:Hfind.
  - left. apply find_some in Hfind as [Hin _].
    apply (in_map snd) in Hin. exact Hin.
  - unfold TransactionSimulator.panicMessage.
    repeat match goal with
           | |- context [if Js.includes ?p ?s then _ else _] =>
               destruct (Js.includes p s)
           end; cbn [In]; tauto.
Qed.

Lemma parseSorobanError_total_witness :
  TransactionSimulator.parseSorobanError "totally unrecognized xyz"
  = "totally unrecognized xyz"
  /\ Js.includes "totally unrecognized xyz"
       (TransactionSimulator.parseSorobanError "totally unrecognized xyz") = true.
Proof.
  assert (Hrules : forall rule, In rule TransactionSimulator.ERROR_MESSAGE_MAP ->
            Js.includes (Js.toLowerCase (fst rule))
              (Js.toLowerCase "totally unrecognized xyz") = false).
  { intros rule H. unfold TransactionSimulator.ERROR_MESSAGE_MAP in H. cbn [In] in H.
    repeat (destruct H as [<- | H]; [vm_compute; reflexivity|]). contradiction. }
  assert (Hpanic : forall pattern,
            In pattern ["invocation failed"; "insufficient funds"; "timeout";
                        "deadline exceeded"; "build failed"] ->
            Js.includes pattern (Js.toLowerCase "totally unrecognized xyz") = false).
  { intros pattern H. cbn [In] in H.
    repeat (destruct H as [<- | H]; [vm_compute; reflexivity|]). contradiction. }
  destruct (parseSorobanError_total "totally unrecognized xyz" Hrules Hpanic)
    as (H1 & H2 & _).
  split; [exact H1 | exact H2].
Defined.

(* ------------------------------------------------------------------ *)
(** ** SimulationClient                                                 *)
(* ------------------------------------------------------------------ *)

Section Preflight.

Import Sdk TransactionSimulator.

Variable lib : Lib.
Variables contractId method : string.
Variable args : list ScVal.
Variable config : NetworkConfig.
Variable sourcePublicKey : string.

Let request := invocation contractId method args config sourcePublicKey.
Let run := TransactionSimulator.simulateTransaction lib contractId method args
             config sourcePublicKey.

(** What the pre-flight check answers to a simulation response. *)
Lemma simulate_response (rpc : Server) (tx : Tx) (sim : SimulateTransactionResponse) :
  newServer lib (rpcUrl config) = Return rpc ->
  build lib request = Return tx ->
  Sdk.simulateTransaction rpc tx = Return sim ->
  run = Return
          match sim_error sim, sim_transactionData sim, sim_result sim with
          | Some error, _, _ => failure (parseSorobanError error)
          | None, true, Some _ =>
              {| success := true; warnings := []; errors := [];
                 simulationDetails := None |}
          | None, _, _ =>
              failure "Transaction simulation failed. Please check your inputs."
          end.
Proof.
  intros Hrpc Htx Hsim. subst run request.
  unfold TransactionSimulator.simulateTransaction, simulateBody.
  rewrite Hrpc. cbn [bind]. rewrite Htx. cbn [bind]. rewrite Hsim. cbn [bind].
  unfold isSimulationSuccess.
  destruct (sim_error sim); [reflexivity|].
  destruct (sim_transactionData sim), (sim_result sim); reflexivity.
Qed.

(** What the pre-flight check answers when a step of the [try] block
    throws. *)
Lemma simulate_thrown (e : JsThrown) :
  newServer lib (rpcUrl config) = Throw e
  \/ (exists rpc, newServer lib (rpcUrl config) = Return rpc
                  /\ build lib request = Throw e)
  \/ (exists rpc tx, newServer lib (rpcUrl config) = Return rpc
                     /\ build lib request = Return tx
                     /\ Sdk.simulateTransaction rpc tx = Throw e) ->
  run = Return (failure (parseSorobanError (thrownMessage e))).
Proof.
  subst run request.
  unfold TransactionSimulator.simulateTransaction, simulateBody.
  intros [H | [(rpc & Hrpc & H) | (rpc & tx & Hrpc & Htx & H)]].
  - rewrite H. reflexivity.
  - rewrite Hrpc. cbn [bind]. rewrite H. reflexivity.
  - rewrite Hrpc. cbn [bind]. rewrite Htx. cbn [bind]. rewrite H. reflexivity.
Qed.

(** Every run ends in one of the two ways above. *)
Lemma simulate_cases :
  (exists e, run = Return (failure (parseSorobanError (thrownMessage e)))
             /\ (newServer lib (rpcUrl config) = Throw e
                 \/ (exists rpc, newServer lib (rpcUrl config) = Return rpc
                                 /\ build lib request = Throw e)
                 \/ (exists rpc tx, newServer lib (rpcUrl config) = Return rpc
                                    /\ build lib request = Return tx
                                    /\ Sdk.simulateTransaction rpc tx = Throw e)))
  \/ (exists rpc tx sim,
        newServer lib (rpcUrl config) = Return rpc
        /\ build lib request = Return tx
        /\ Sdk.simulateTransaction rpc tx = Return sim).
Proof.
  destruct (newServer lib (rpcUrl config)) as [rpc | e] eqn:Hrpc.
  2:{ left. exists e. split; [apply simulate_thrown; left; exact Hrpc|].
      left. reflexivity. }
  destruct (build lib request) as [tx | e] eqn:Htx.
  2:{ left. exists e.
      split; [apply simulate_thrown|]; right; left; exists rpc;
        split; first [reflexivity | assumption]. }
  destruct (Sdk.simulateTransaction rpc tx) as [sim | e] eqn:Hsim.
  2:{ left. exists e.
      split; [apply simulate_thrown|]; right; right; exists rpc, tx;
        repeat split; first [reflexivity | assumption]. }
  right. exists rpc, tx, sim. repeat split; first [reflexivity | assumption].
Qed.

End Preflight.

(** C9.  Shape of a pre-flight result: [success = true] implies that the
    list of errors is empty, and is answered only when the node's
    simulation response carries no error, is a success response and
    includes a result; a response without error that omits the result
    gives [success = false] with the generic error. *)
Theorem simulateTransaction_shape (lib : Sdk.Lib) (contractId method : string)
    (args : list Sdk.ScVal) (config : TransactionSimulator.NetworkConfig)
    (sourcePublicKey : string) (r : TransactionSimulator.PreflightCheckResult) :
  TransactionSimulator.simulateTransaction lib contractId method args config
    sourcePublicKey = Return r ->
  (TransactionSimulator.success r = true -> TransactionSimulator.errors r = [])
  /\ (TransactionSimulator.success r = true ->
      exists rpc tx sim retval,
        Sdk.newServer lib (TransactionSimulator.rpcUrl config) = Return rpc
        /\ Sdk.build lib (TransactionSimulator.invocation contractId method args
                            config sourcePublicKey) = Return tx
        /\ Sdk.simulateTransaction rpc tx = Return sim
        /\ Sdk.isSimulationError sim = false
        /\ Sdk.isSimulationSuccess sim = true
        /\ Sdk.sim_result sim = Some retval)
  /\ (forall rpc tx sim,
        Sdk.newServer lib (TransactionSimulator.rpcUrl config) = Return rpc ->
        Sdk.build lib (TransactionSimulator.invocation contractId method args
                         config sourcePublicKey) = Return tx ->
        Sdk.simulateTransaction rpc tx = Return sim ->
        Sdk.isSimulationError sim = false ->
        Sdk.sim_result sim = None ->
        r = TransactionSimulator.failure
              "Transaction simulation failed. Please check your inputs.").
Proof.
  intros Hrun. split; [|split].
  - destruct (simulate_cases lib contractId method args config sourcePublicKey)
      as [(e & He & _) | (rpc & tx & sim & H1 & H2 & H3)].
    + rewrite He in Hrun. injection Hrun as <-. discriminate.
    + rewrite (simulate_response _ _ _ _ _ _ rpc tx sim H1 H2 H3) in Hrun.
      injection Hrun as <-.
      destruct (Sdk.sim_error sim), (Sdk.sim_transactionData sim),
        (Sdk.sim_result sim); cbn; intros; congruence.
  - destruct (simulate_cases lib contractId method args config sourcePublicKey)
      as [(e & He & _) | (rpc & tx & sim & H1 & H2 & H3)].
    + rewrite He in Hrun. injection Hrun as <-. discriminate.
    + rewrite (simulate_response _ _ _ _ _ _ rpc tx sim H1 H2 H3) in Hrun.
      injection Hrun as <-. unfold Sdk.isSimulationError, Sdk.isSimulationSuccess.
      destruct (Sdk.sim_error sim) eqn:E1, (Sdk.sim_transactionData sim) eqn:E2,
        (Sdk.sim_result sim) as [retval|] eqn:E3; cbn; intros Hs; try discriminate.
      exists rpc, tx, sim, retval. rewrite E1, E2. auto 10.
  - intros rpc tx sim H1 H2 H3 Herr Hres.
    rewrite (simulate_response _ _ _ _ _ _ rpc tx sim H1 H2 H3) in Hrun.
    injection Hrun as <-. unfold Sdk.isSimulationError in Herr.
    destruct (Sdk.sim_error sim); [discriminate|]. rewrite Hres.
    destruct (Sdk.sim_transactionData sim); reflexivity.
Qed.

Lemma simulateTransaction_shape_witness :
  TransactionSimulator.simulateTransaction
    (Remote.strictLib (Remote.simulationNode
                         (Return (Remote.simulationResult Sdk.scvVoid))))
    "CTOKEN" "transfer" []
    {| TransactionSimulator.rpcUrl := "https://soroban-testnet.stellar.org";
       TransactionSimulator.passphrase := "Test SDF Network ; September 2015" |}
    TransactionSimulator.defaultSource
  = Return {| TransactionSimulator.success := true;
              TransactionSimulator.warnings := [];
              TransactionSimulator.errors := [];
              TransactionSimulator.simulationDetails := None |}
  /\ TransactionSimulator.errors
       {| TransactionSimulator.success := true;
          TransactionSimulator.warnings := [];
          TransactionSimulator.errors := [];
          TransactionSimulator.simulationDetails := None |} = [].
Proof.
  assert (E : TransactionSimulator.simulateTransaction
    (Remote.strictLib (Remote.simulationNode
                         (Return (Remote.simulationResult Sdk.scvVoid))))
    "CTOKEN" "transfer" []
    {| TransactionSimulator.rpcUrl := "https://soroban-testnet.stellar.org";
       TransactionSimulator.passphrase := "Test SDF Network ; September 2015" |}
    TransactionSimulator.defaultSource
  = Return {| TransactionSimulator.success := true;
              TransactionSimulator.warnings := [];
              TransactionSimulator.errors := [];
              TransactionSimulator.simulationDetails := None |})
    by (vm_compute; reflexivity).
  split; [exact E|].
  apply (simulateTransaction_shape _ _ _ _ _ _ _ E). reflexivity.
Defined.

(** C10.  [simulateTransaction] never rejects: for every input the
    promise resolves to a pre-flight result; a failed result carries
    exactly one error message; and whenever a step of the [try] block
    throws (the server constructor, the transaction builder on a
    malformed contract id or argument, the transport of the simulation
    call) the result is [success = false] with the single message that
    the classifier gives to the thrown value. *)
Theorem simulateTransaction_never_rejects (lib : Sdk.Lib) (contractId method : string)
    (args : list Sdk.ScVal) (config : TransactionSimulator.NetworkConfig)
    (sourcePublicKey : string) :
  exists r,
    TransactionSimulator.simulateTransaction lib contractId method args config
      sourcePublicKey = Return r
    /\ (TransactionSimulator.success r = false ->
        exists message, TransactionSimulator.errors r = [message])
    /\ (forall e,
          Sdk.newServer lib (TransactionSimulator.rpcUrl config) = Throw e
          \/ (exists rpc,
                Sdk.newServer lib (TransactionSimulator.rpcUrl config) = Return rpc
                /\ Sdk.build lib (TransactionSimulator.invocation contractId method
                                    args config sourcePublicKey) = Throw e)
          \/ (exists rpc tx,
                Sdk.newServer lib (TransactionSimulator.rpcUrl config) = Return rpc
                /\ Sdk.build lib (TransactionSimulator.invocation contractId method
                                    args config sourcePublicKey) = Return tx
                /\ Sdk.simulateTransaction rpc tx = Throw e) ->
          r = TransactionSimulator.failure
                (TransactionSimulator.parseSorobanError (thrownMessage e))
          /\ TransactionSimulator.success r = false
          /\ List.length (TransactionSimulator.errors r) = 1%nat).
Proof.
  assert (Hthrown : forall e r,
    TransactionSimulator.simulateTransaction lib contractId method args config
      sourcePublicKey = Return r ->
    Sdk.newServer lib (TransactionSimulator.rpcUrl config) = Throw e
    \/ (exists rpc,
          Sdk.newServer lib (TransactionSimulator.rpcUrl config) = Return rpc
          /\ Sdk.build lib (TransactionSimulator.invocation contractId method
                              args config sourcePublicKey) = Throw e)
    \/ (exists rpc tx,
          Sdk.newServer lib (TransactionSimulator.rpcUrl config) = Return rpc
          /\ Sdk.build lib (TransactionSimulator.invocation contractId method
                              args config sourcePublicKey) = Return tx
          /\ Sdk.simulateTransaction rpc tx = Throw e) ->
    r = TransactionSimulator.failure
          (TransactionSimulator.parseSorobanError (thrownMessage e))
    /\ TransactionSimulator.success r = false
    /\ List.length (TransactionSimulator.errors r) = 1%nat).
  { intros e r Hrun He.
    rewrite (simulate_thrown _ _ _ _ _ _ e He) in Hrun.
    injection Hrun as <-. repeat split. }
  destruct (simulate_cases lib contractId method args config sourcePublicKey)
    as [(e & He & _) | (rpc & tx & sim & H1 & H2 & H3)].
  - eexists. split; [exact He|]. split; [cbn; eauto|].
    intros e' He'. now apply Hthrown.
  - pose proof (simulate_response _ _ _ _ _ _ rpc tx sim H1 H2 H3) as Hrun.
    eexists. split; [exact Hrun|]. split.
    + destruct (Sdk.sim_error sim), (Sdk.sim_transactionData sim),
        (Sdk.sim_result sim); cbn; intros; try discriminate; eauto.
    + intros e' He'. now apply Hthrown.
Qed.

Lemma simulateTransaction_never_rejects_witness :
  TransactionSimulator.simulateTransaction
    (Remote.strictLib (Remote.simulationNode (Throw (JsError "unused"))))
    "bad" "transfer" []
    {| TransactionSimulator.rpcUrl := "https://soroban-testnet.stellar.org";
       TransactionSimulator.passphrase := "Test SDF Network ; September 2015" |}
    TransactionSimulator.defaultSource
  = Return (TransactionSimulator.failure "Invalid contract ID: bad").
Proof.
  destruct (simulateTransaction_never_rejects
              (Remote.strictLib (Remote.simulationNode (Throw (JsError "unused"))))
              "bad" "transfer" []
              {| TransactionSimulator.rpcUrl := "https://soroban-testnet.stellar.org";
                 TransactionSimulator.passphrase := "Test SDF Network ; September 2015" |}
              TransactionSimulator.defaultSource) as (r & Hrun & _ & Hthrown).
  destruct (Hthrown (JsError "Invalid contract ID: bad")) as (Hr & _).
  - right. left. eexists. split; reflexivity.
  - rewrite Hrun, Hr. reflexivity.
Defined.

(* ------------------------------------------------------------------ *)
(** ** The specification's sample cases                                 *)
(* ------------------------------------------------------------------ *)

Example classify_samples :
  TransactionSimulator.parseSorobanError "insufficient balance for transfer"
  = "Insufficient token balance for this operation."
  /\ TransactionSimulator.parseSorobanError "mint would exceed max_supply"
     = "Minting this amount would exceed the maximum supply cap."
  /\ TransactionSimulator.parseSorobanError "insufficient allowance"
     = "Insufficient allowance approved for the spender.".
Proof. repeat split; vm_compute; reflexivity. Qed.

(** [NOT_FOUND] five times, then [SUCCESS]: both operations resolve at
    the sixth query. *)
Example submit_after_five_not_found :
  Vesting.submitTx (Remote.libFor Remote.sampleNode) Remote.sampleNode
    "Test SDF Network ; September 2015" "AAAA"
  = (Return {| Sdk.get_status := Sdk.SUCCESS; Sdk.get_resultXdr := None |},
     {| Sdk.queries := 6; Sdk.slept := 12000 |})
  /\ Stellar.submitTransaction (Remote.libFor Remote.sampleNode)
       "https://soroban-testnet.stellar.org" "Test SDF Network ; September 2015" "AAAA"
     = (Return "HASH", {| Sdk.queries := 6; Sdk.slept := 5000 |}).
Proof. split; vm_compute; reflexivity. Qed.

(** A simulation error reported by the node is classified. *)
Example simulate_insufficient_balance :
  TransactionSimulator.simulateTransaction
    (Remote.strictLib
       (Remote.simulationNode
          (Return {| Sdk.sim_error := Some "insufficient balance";
                     Sdk.sim_transactionData := false;
                     Sdk.sim_result := None |})))
    "CTOKEN" "transfer" []
    {| TransactionSimulator.rpcUrl := "https://soroban-testnet.stellar.org";
       TransactionSimulator.passphrase := "Test SDF Network ; September 2015" |}
    TransactionSimulator.defaultSource
  = Return (TransactionSimulator.failure
              "Insufficient token balance for this operation.").
Proof. vm_compute; reflexivity. Qed.

(* ================================================================== *)
(** * Further properties of the library code                            *)
(* ================================================================== *)

(* ------------------------------------------------------------------ *)
(** ** Truncated addresses                                              *)
(* ------------------------------------------------------------------ *)

Section Substring.

Lemma substring_all (s : string) : substring 0 (length s) s = s.
Proof. induction s as [|c s IH]; simpl; [reflexivity | now rewrite IH]. Qed.

Lemma substring_zero (n : nat) (s : string) : substring n 0 s = "".
Proof.
  revert s. induction n as [|n IH]; intros [|c s]; simpl; auto.
Qed.

Lemma length_substring (s : string) : forall n m,
  (n + m <= length s)%nat -> length (substring n m s) = m.
Proof.
  induction s as [|c s IH]; intros n m H; simpl in H.
  - assert (n = 0 /\ m = 0)%nat as [-> ->] by lia. reflexivity.
  - destruct n as [|n]; simpl.
    + destruct m as [|m]; simpl; [reflexivity|]. rewrite IH; [reflexivity | lia].
    + apply IH. lia.
Qed.

(** A string is its first [n] characters followed by the rest. *)
Lemma substring_split (n : nat) : forall s,
  (n <= length s)%nat ->
  s = substring 0 n s ++ substring n (length s - n) s.
Proof.
  induction n as [|n IH]; intros s H.
  - rewrite substring_zero, Nat.sub_0_r, substring_all. reflexivity.
  - destruct s as [|c s]; simpl in H; [lia|].
    simpl. f_equal. apply IH. lia.
Qed.

(** Cutting inside the rest is cutting further in the string. *)
Lemma substring_rest (a : nat) : forall s k j,
  (a <= length s)%nat ->
  substring k j (substring a (length s - a) s) = substring (a + k) j s.
Proof.
  induction a as [|a IH]; intros s k j H.
  - now rewrite Nat.sub_0_r, substring_all.
  - destruct s as [|c s]; simpl in H; [lia|].
    simpl. apply IH. lia.
Qed.

(** First [a] characters, what lies between, last [b] characters. *)
Lemma substring_three (s : string) (a b : nat) :
  (a + b <= length s)%nat ->
  s = substring 0 a s
      ++ substring a (length s - a - b) s
      ++ substring (length s - b) b s.
Proof.
  intros H.
  rewrite (substring_split a s) at 1 by lia. f_equal.
  set (rest := substring a (length s - a) s).
  assert (Hlen : length rest = (length s - a)%nat)
    by (apply length_substring; lia).
  rewrite (substring_split (length s - a - b) rest) by lia.
  unfold rest at 1 3. rewrite !substring_rest by lia.
  rewrite Hlen. f_equal; f_equal; lia.
Qed.

End Substring.

(** X1.  lib/stellar's [truncateAddress] with [chars >= 1] never
    lengthens an address.  An address longer than [2 * chars + 3] is cut
    to exactly [2 * chars + 4] characters: its first [chars + 1]
    characters, three dots, and its last [chars] characters, with at least
    three characters hidden; a shorter one is returned whole. *)
Theorem truncateAddress_keeps_ends (addr : string) (chars : nat) :
  (1 <= chars)%nat ->
  (length (StellarClient.truncateAddress addr chars) <= length addr)%nat
  /\ ((length addr <= 2 * chars + 3)%nat ->
      StellarClient.truncateAddress addr chars = addr)
  /\ ((2 * chars + 3 < length addr)%nat ->
      exists first hidden last,
        addr = first ++ hidden ++ last
        /\ StellarClient.truncateAddress addr chars = first ++ "..." ++ last
        /\ length first = (chars + 1)%nat
        /\ length last = chars
        /\ (3 <= length hidden)%nat
        /\ length (StellarClient.truncateAddress addr chars) = (2 * chars + 4)%nat).
Proof.
  intros Hc. unfold StellarClient.truncateAddress.
  destruct (Nat.leb_spec (length addr) (chars * 2 + 3)) as [Hshort | Hlong].
  - split; [lia|]. split; [reflexivity | lia].
  - assert (Hparts : exists first hidden last,
      addr = first ++ hidden ++ last
      /\ JsExtra.sliceTo addr (chars + 1) ++ "..." ++ JsExtra.sliceLast addr chars
         = first ++ "..." ++ last
      /\ length first = (chars + 1)%nat /\ length last = chars
      /\ (3 <= length hidden)%nat).
    { exists (substring 0 (chars + 1) addr),
             (substring (chars + 1) (length addr - (chars + 1) - chars) addr),
             (substring (length addr - chars) chars addr).
      split; [apply substring_three; lia|].
      split.
      { unfold JsExtra.sliceTo, JsExtra.sliceLast.
        destruct chars; [lia | reflexivity]. }
      rewrite !length_substring by lia. lia. }
    destruct Hparts as (first & hidden & last & Haddr & Hcut & Hf & Hl & Hh).
    assert (Hlen : length (JsExtra.sliceTo addr (chars + 1) ++ "..."
                           ++ JsExtra.sliceLast addr chars) = (2 * chars + 4)%nat).
    { rewrite Hcut, !length_append, Hf, Hl. simpl. lia. }
    split; [lia|]. split; [lia|].
    intros _. exists first, hidden, last. repeat split; assumption.
Qed.

Lemma truncateAddress_keeps_ends_witness :
  (1 <= 4)%nat
  /\ StellarClient.truncateAddress
       "GAAAAAAAAAAAAAAAAAAAAAAAAAAAAAAAAAAAAAAAAAAAAAAAAAAAAWHF" 4
     = "GAAAA...AWHF".
Proof.
  split; [lia|].
  destruct (truncateAddress_keeps_ends
              "GAAAAAAAAAAAAAAAAAAAAAAAAAAAAAAAAAAAAAAAAAAAAAAAAAAAAWHF" 4)
    as (_ & _ & _); [lia|].
  reflexivity.
Defined.

(** X2.  With [chars = 0] an address of more than three characters is
    not shortened: [slice(-0)] is the whole string, so the result is the
    first character, three dots and the whole address again. *)
Theorem truncateAddress_zero_chars (addr : string) :
  (3 < length addr)%nat ->
  StellarClient.truncateAddress addr 0 = substring 0 1 addr ++ "..." ++ addr
  /\ length (StellarClient.truncateAddress addr 0) = (length addr + 4)%nat.
Proof.
  intros H. unfold StellarClient.truncateAddress.
  destruct (Nat.leb_spec (length addr) (0 * 2 + 3)) as [Hshort | _];
    [simpl in Hshort; lia|].
  unfold JsExtra.sliceTo, JsExtra.sliceLast. split; [reflexivity|].
  rewrite !length_append, length_substring by (simpl; lia). simpl. lia.
Qed.

Lemma truncateAddress_zero_chars_witness :
  (3 < length "GABCD")%nat
  /\ StellarClient.truncateAddress "GABCD" 0 = "G...GABCD".
Proof.
  split; [simpl; lia|].
  rewrite (proj1 (truncateAddress_zero_chars "GABCD" ltac:(simpl; lia))).
  reflexivity.
Defined.

(* ------------------------------------------------------------------ *)
(** ** Reading the fields of a contract struct                          *)
(* ------------------------------------------------------------------ *)

Section StructFields.

Import Sdk.

Variable valueToString : ScVal -> string.

Lemma mapGet_mapSet (key name : string) (v : ScVal) (m : list (string * ScVal)) :
  Vesting.mapGet name (Vesting.mapSet key v m)
  = if String.eqb key name then Some v else Vesting.mapGet name m.
Proof.
  induction m as [|[k w] m IH]; cbn [Vesting.mapSet Vesting.mapGet].
  - destruct (String.eqb key name); reflexivity.
  - destruct (String.eqb_spec k key) as [-> | Hk]; cbn [Vesting.mapGet].
    + destruct (String.eqb key name); reflexivity.
    + destruct (String.eqb_spec k name) as [-> | Hn].
      * destruct (String.eqb_spec key name); [congruence | reflexivity].
      * exact IH.
Qed.

Lemma deref_Return {A : Type} (o : option A) (prop : string) (a : A) :
  deref o prop = Return a -> o = Some a.
Proof. destruct o; simpl; [intros [= ->]; reflexivity | discriminate]. Qed.

(** A struct that [collectFields] accepts has symbols for keys. *)
Lemma collectFields_symbols (entries : list (ScVal * ScVal)) : forall acc m,
  Vesting.collectFields entries acc = Return m ->
  forall e, In e entries -> exists key, fst e = scvSymbol key.
Proof.
  induction entries as [|[k v] entries IH]; intros acc m H e Hin; [contradiction|].
  destruct k; try discriminate H. cbn [Vesting.collectFields] in H.
  destruct Hin as [<- | Hin]; [eexists; reflexivity | eapply IH; eassumption].
Qed.

(** With distinct keys, the map lib/vesting builds holds for each name
    the value of the first entry lib/stellar's scan finds. *)
Lemma collectFields_lookup (entries : list (ScVal * ScVal)) : forall acc m name,
  Vesting.collectFields entries acc = Return m ->
  NoDup (map fst entries) ->
  Vesting.mapGet name m
  = match find (fun e => String.eqb (StellarClient.decodeString valueToString (fst e)) name)
            entries with
    | Some e => Some (snd e)
    | None => Vesting.mapGet name acc
    end.
Proof.
  induction entries as [|[k v] entries IH]; intros acc m name H Hnd.
  - cbn in H. injection H as <-. reflexivity.
  - destruct k; try discriminate H. cbn [Vesting.collectFields] in H.
    cbn [map fst] in Hnd. apply NoDup_cons_iff in Hnd as [Hnotin Hnd].
    rewrite (IH _ _ name H Hnd). cbn [find fst StellarClient.decodeString].
    destruct (String.eqb_spec sym name) as [-> | Hne].
    + destruct (find _ entries) as [e|] eqn:Hfind.
      * exfalso. apply find_some in Hfind as [Hin Heq].
        apply String.eqb_eq in Heq.
        destruct (collectFields_symbols _ _ _ H e Hin) as [key Hkey].
        rewrite Hkey in Heq. cbn in Heq. subst key.
        apply Hnotin. rewrite <- Hkey. now apply in_map.
      * rewrite mapGet_mapSet, String.eqb_refl. reflexivity.
    + destruct (find _ entries); [reflexivity|].
      rewrite mapGet_mapSet.
      destruct (String.eqb_spec sym name); [congruence | reflexivity].
Qed.

End StructFields.

(** X3.  For a struct whose keys are distinct symbols, the two ways of
    reading a field agree: what lib/vesting finds in the map it builds is
    what lib/stellar's [getStructField] returns, and a name that is not in
    the map makes [getStructField] throw "Missing struct field: <name>". *)
Theorem struct_lookup_agrees (valueToString : Sdk.ScVal -> string)
    (entries : list (Sdk.ScVal * Sdk.ScVal)) (fieldMap : list (string * Sdk.ScVal))
    (name : string) :
  Vesting.collectFields entries [] = Return fieldMap ->
  NoDup (map fst entries) ->
  StellarClient.getStructField valueToString entries name
  = match Vesting.mapGet name fieldMap with
    | Some v => Return v
    | None => Throw (JsError ("Missing struct field: " ++ name))
    end.
Proof.
  intros Hc Hnd. unfold StellarClient.getStructField.
  rewrite (collectFields_lookup valueToString entries [] fieldMap name Hc Hnd).
  destruct (find _ entries); reflexivity.
Qed.

Lemma struct_lookup_agrees_witness :
  StellarClient.getStructField (fun _ => "")
    [ (Sdk.scvSymbol "released", Sdk.scvI128 0 200);
      (Sdk.scvSymbol "revoked", Sdk.scvBool false) ] "revoked"
  = Return (Sdk.scvBool false).
Proof.
  rewrite (struct_lookup_agrees (fun _ => "")
             [ (Sdk.scvSymbol "released", Sdk.scvI128 0 200);
               (Sdk.scvSymbol "revoked", Sdk.scvBool false) ]
             [ ("released", Sdk.scvI128 0 200); ("revoked", Sdk.scvBool false) ]
             "revoked" eq_refl).
  - reflexivity.
  - repeat constructor; cbn; intuition discriminate.
Defined.

Section ScheduleDecoders.

Import Sdk.

Lemma decodeAddress_Return (v : ScVal) (a : string) :
  Vesting.decodeAddress v = Return a -> v = scvAddress a.
Proof. destruct v; try discriminate. now intros [= ->]. Qed.

Lemma decodeU32_Return (v : ScVal) (n : Z) :
  Vesting.decodeU32 v = Return n -> v = scvU32 n.
Proof. destruct v; try discriminate. now intros [= ->]. Qed.

Lemma decodeBool_Return (v : ScVal) (b : bool) :
  Vesting.decodeBool v = Return b -> v = scvBool b.
Proof. destruct v; try discriminate. now intros [= ->]. Qed.

Lemma decodeI128_Return (v : ScVal) (z : Z) :
  Vesting.decodeI128 v = Return z ->
  exists hi lo, v = scvI128 hi lo /\ z = Z.lor (Z.shiftl hi 64) lo.
Proof. destruct v; try discriminate. intros [= <-]. eauto. Qed.

(** lib/stellar's decoder on well-formed words gives the decimal string
    of what lib/vesting's decoder gives. *)
Lemma stellar_decodeI128_wf (hi lo : Z) :
  wfInt128Parts hi lo ->
  Stellar.decodeI128 (scvI128 hi lo)
  = Return (Js.toString (Z.lor (Z.shiftl hi 64) lo)).
Proof.
  intros [_ Hlo]. destruct (lor_shifted_word hi lo Hlo) as [Hor Hadd].
  unfold Stellar.decodeI128. rewrite !BigInt_toString. cbn [bind].
  now rewrite Hor, Hadd.
Qed.

Variable lib : Lib.
Variable server : Server.
Variable passphrase : string.
Variables contractId recipientAddress : string.

(** What a schedule returned by lib/vesting rests on. *)
Lemma vesting_schedule_inversion (sched : Vesting.VestingSchedule) :
  Vesting.fetchVestingSchedule lib server passphrase contractId recipientAddress
    = Return sched ->
  exists addressVal entries fieldMap hiT loT hiR loR,
    newAddress lib recipientAddress = Return addressVal
    /\ Vesting.simulateCall lib server passphrase contractId "get_schedule"
         [addressVal] = Return (scvMap (Some entries))
    /\ Vesting.collectFields entries [] = Return fieldMap
    /\ Vesting.mapGet "recipient" fieldMap
       = Some (scvAddress (Vesting.recipient sched))
    /\ Vesting.mapGet "total_amount" fieldMap = Some (scvI128 hiT loT)
    /\ Vesting.totalAmount sched = Z.lor (Z.shiftl hiT 64) loT
    /\ Vesting.mapGet "cliff_ledger" fieldMap
       = Some (scvU32 (Vesting.cliffLedger sched))
    /\ Vesting.mapGet "end_ledger" fieldMap
       = Some (scvU32 (Vesting.endLedger sched))
    /\ Vesting.mapGet "released" fieldMap = Some (scvI128 hiR loR)
    /\ Vesting.released sched = Z.lor (Z.shiftl hiR 64) loR
    /\ Vesting.mapGet "revoked" fieldMap = Some (scvBool (Vesting.revoked sched)).
Proof.
  intros H. unfold Vesting.fetchVestingSchedule in H.
  apply bind_Return in H as (addressVal & Haddr & H).
  apply bind_Return in H as (result & Hsim & H).
  apply bind_Return in H as (fields & Hfields & H).
  apply bind_Return in H as (fieldMap & Hmap & H).
  apply bind_Return in H as (v1 & Hv1 & H). apply bind_Return in H as (r1 & Hr1 & H).
  apply bind_Return in H as (v2 & Hv2 & H). apply bind_Return in H as (r2 & Hr2 & H).
  apply bind_Return in H as (v3 & Hv3 & H). apply bind_Return in H as (r3 & Hr3 & H).
  apply bind_Return in H as (v4 & Hv4 & H). apply bind_Return in H as (r4 & Hr4 & H).
  apply bind_Return in H as (v5 & Hv5 & H). apply bind_Return in H as (r5 & Hr5 & H).
  apply bind_Return in H as (v6 & Hv6 & H). apply bind_Return in H as (r6 & Hr6 & H).
  injection H as <-. cbn.
  apply deref_Return in Hv1, Hv2, Hv3, Hv4, Hv5, Hv6.
  apply decodeAddress_Return in Hr1. apply decodeU32_Return in Hr3, Hr4.
  apply decodeBool_Return in Hr6.
  apply decodeI128_Return in Hr2 as (hiT & loT & -> & ->).
  apply decodeI128_Return in Hr5 as (hiR & loR & -> & ->).
  subst v1 v3 v4 v6.
  assert (result = scvMap (Some fields)) as ->.
  { destruct result as [| | | | | | | |[entries|]]; try discriminate Hfields.
    now injection Hfields as <-. }
  exists addressVal, fields, fieldMap, hiT, loT, hiR, loR.
  repeat split; assumption.
Qed.

End ScheduleDecoders.



Section SchedulesAgree.

Import Sdk.

Variable valueToString : ScVal -> string.
Variable entries : list (ScVal * ScVal).
Variable fieldMap : list (string * ScVal).
Hypothesis Hcollect : Vesting.collectFields entries [] = Return fieldMap.
Hypothesis Hdistinct : NoDup (map fst entries).

Lemma getStructField_of_mapGet (name : string) (v : ScVal) :
  Vesting.mapGet name fieldMap = Some v ->
  StellarClient.getStructField valueToString entries name = Return v.
Proof.
  intros H. unfold StellarClient.getStructField.
  rewrite (collectFields_lookup valueToString entries [] fieldMap name
             Hcollect Hdistinct) in H.
  destruct (find _ entries); [now injection H as -> | discriminate].
Qed.

Lemma mapGet_in_entries (name : string) (v : ScVal) :
  Vesting.mapGet name fieldMap = Some v -> exists k, In (k, v) entries.
Proof.
  intros H.
  rewrite (collectFields_lookup valueToString entries [] fieldMap name
             Hcollect Hdistinct) in H.
  destruct (find _ entries) as [[k w]|] eqn:Hfind; [|discriminate].
  injection H as <-. exists k. now apply find_some in Hfind as [Hin _].
Qed.

End SchedulesAgree.

(** X5.  The two schedule decoders agree.  When both clients receive the
    same struct from [get_schedule], with distinct keys and well-formed
    128-bit words, every schedule lib/vesting decodes is decoded by
    lib/stellar to the same recipient, ledgers and flag, and to the
    decimal strings of the same two amounts. *)
Theorem schedule_decoders_agree (lib : Sdk.Lib) (server : Sdk.Server)
    (localUrl : string) (valueToString : Sdk.ScVal -> string)
    (contractId recipientAddress : string)
    (config : TransactionSimulator.NetworkConfig)
    (addressVal : Sdk.ScVal) (entries : list (Sdk.ScVal * Sdk.ScVal))
    (sched : Vesting.VestingSchedule) :
  Sdk.newAddress lib recipientAddress = Return addressVal ->
  Vesting.simulateCall lib server (TransactionSimulator.passphrase config)
    contractId "get_schedule" [addressVal] = Return (Sdk.scvMap (Some entries)) ->
  StellarClient.simulateCall lib localUrl contractId "get_schedule" config
    [addressVal] = Return (Sdk.scvMap (Some entries)) ->
  NoDup (map fst entries) ->
  (forall k hi lo, In (k, Sdk.scvI128 hi lo) entries -> Sdk.wfInt128Parts hi lo) ->
  Vesting.fetchVestingSchedule lib server (TransactionSimulator.passphrase config)
    contractId recipientAddress = Return sched ->
  StellarClient.fetchVestingSchedule lib localUrl valueToString contractId
    recipientAddress config
  = Return {| StellarClient.recipient := Vesting.recipient sched;
              StellarClient.totalAmount := Js.toString (Vesting.totalAmount sched);
              StellarClient.cliffLedger := Vesting.cliffLedger sched;
              StellarClient.endLedger := Vesting.endLedger sched;
              StellarClient.released := Js.toString (Vesting.released sched);
              StellarClient.revoked := Vesting.revoked sched |}.
Proof.
  intros Haddr Hv Hs Hnd Hwf Hfetch.
  destruct (vesting_schedule_inversion _ _ _ _ _ _ Hfetch)
    as (a & es & fieldMap & hiT & loT & hiR & loR & Ha & Hsim & Hc
        & H1 & H2 & HT & H3 & H4 & H5 & HR & H6).
  rewrite Haddr in Ha. injection Ha as <-.
  rewrite Hv in Hsim. injection Hsim as <-.
  destruct (mapGet_in_entries valueToString _ _ Hc Hnd _ _ H2) as [kT HinT].
  destruct (mapGet_in_entries valueToString _ _ Hc Hnd _ _ H5) as [kR HinR].
  unfold StellarClient.fetchVestingSchedule.
  rewrite Haddr. cbn [bind]. rewrite Hs. cbn [bind].
  rewrite (getStructField_of_mapGet valueToString _ _ Hc Hnd _ _ H1). cbn [bind].
  cbn [StellarClient.decodeAddress].
  rewrite (getStructField_of_mapGet valueToString _ _ Hc Hnd _ _ H2). cbn [bind].
  rewrite (stellar_decodeI128_wf _ _ (Hwf _ _ _ HinT)). cbn [bind].
  rewrite (getStructField_of_mapGet valueToString _ _ Hc Hnd _ _ H3). cbn [bind].
  cbn [StellarClient.decodeU32].
  rewrite (getStructField_of_mapGet valueToString _ _ Hc Hnd _ _ H4). cbn [bind].
  cbn [StellarClient.decodeU32].
  rewrite (getStructField_of_mapGet valueToString _ _ Hc Hnd _ _ H5). cbn [bind].
  rewrite (stellar_decodeI128_wf _ _ (Hwf _ _ _ HinR)). cbn [bind].
  rewrite (getStructField_of_mapGet valueToString _ _ Hc Hnd _ _ H6). cbn [bind].
  rewrite HT, HR. reflexivity.
Qed.

Lemma schedule_decoders_agree_witness :
  StellarClient.fetchVestingSchedule (Remote.libFor Remote.sampleNode)
    "https://soroban-testnet.stellar.org" (fun _ => "") "CVESTING" "GRECIPIENT"
    {| TransactionSimulator.rpcUrl := "https://soroban-testnet.stellar.org";
       TransactionSimulator.passphrase := "Test SDF Network ; September 2015" |}
  = Return {| StellarClient.recipient := "GRECIPIENT";
              StellarClient.totalAmount := "1000";
              StellarClient.cliffLedger := 100;
              StellarClient.endLedger := 1100;
              StellarClient.released := "200";
              StellarClient.revoked := false |}.
Proof.
  refine (schedule_decoders_agree (Remote.libFor Remote.sampleNode) Remote.sampleNode
            "https://soroban-testnet.stellar.org" (fun _ => "") "CVESTING" "GRECIPIENT"
            {| TransactionSimulator.rpcUrl := "https://soroban-testnet.stellar.org";
               TransactionSimulator.passphrase := "Test SDF Network ; September 2015" |}
            (Sdk.scvAddress "GRECIPIENT")
            [ (Sdk.scvSymbol "recipient", Sdk.scvAddress "GRECIPIENT");
              (Sdk.scvSymbol "total_amount", Sdk.scvI128 0 1000);
              (Sdk.scvSymbol "cliff_ledger", Sdk.scvU32 100);
              (Sdk.scvSymbol "end_ledger", Sdk.scvU32 1100);
              (Sdk.scvSymbol "released", Sdk.scvI128 0 200);
              (Sdk.scvSymbol "revoked", Sdk.scvBool false) ]
            {| Vesting.recipient := "GRECIPIENT"; Vesting.totalAmount := 1000;
               Vesting.cliffLedger := 100; Vesting.endLedger := 1100;
               Vesting.released := 200; Vesting.revoked := false |}
            eq_refl eq_refl eq_refl _ _ _).
  - repeat constructor; cbn; intuition discriminate.
  - intros k hi lo H. cbn [In] in H.
    repeat (destruct H as [H | H]; [try discriminate H|]); try contradiction;
      injection H as _ <- <-; unfold Sdk.wfInt128Parts; lia.
  - vm_compute. reflexivity.
Defined.

(* ------------------------------------------------------------------ *)
(** ** lib/stellar: which server answers, and the token summary         *)
(* ------------------------------------------------------------------ *)

(** X6.  lib/stellar's [simulateCall] constructs a server from
    [config.rpcUrl] but sends the simulation through [getRpc()]: as long
    as the constructor accepts the URL, the outcome does not depend on the
    URL of the configuration. *)
Theorem simulateCall_ignores_config_url (lib : Sdk.Lib) (localUrl : string)
    (contractId method : string) (args : list Sdk.ScVal)
    (config1 config2 : TransactionSimulator.NetworkConfig) (s1 s2 : Sdk.Server) :
  Sdk.newServer lib (TransactionSimulator.rpcUrl config1) = Return s1 ->
  Sdk.newServer lib (TransactionSimulator.rpcUrl config2) = Return s2 ->
  TransactionSimulator.passphrase config1 = TransactionSimulator.passphrase config2 ->
  StellarClient.simulateCall lib localUrl contractId method config1 args
  = StellarClient.simulateCall lib localUrl contractId method config2 args.
Proof.
  intros H1 H2 Hp. unfold StellarClient.simulateCall.
  rewrite H1, H2, Hp. reflexivity.
Qed.

Lemma simulateCall_ignores_config_url_witness :
  StellarClient.simulateCall (Remote.libFor Remote.sampleNode)
    "https://soroban-testnet.stellar.org" "CVESTING" "vested_amount"
    {| TransactionSimulator.rpcUrl := "https://mainnet.example";
       TransactionSimulator.passphrase := "Test SDF Network ; September 2015" |} []
  = StellarClient.simulateCall (Remote.libFor Remote.sampleNode)
      "https://soroban-testnet.stellar.org" "CVESTING" "vested_amount"
      {| TransactionSimulator.rpcUrl := "https://soroban-testnet.stellar.org";
         TransactionSimulator.passphrase := "Test SDF Network ; September 2015" |} [].
Proof.
  apply (simulateCall_ignores_config_url (Remote.libFor Remote.sampleNode) _ _ _ _
           _ _ Remote.sampleNode Remote.sampleNode); reflexivity.
Defined.

Section TokenSummary.

Import Sdk.

Variable lib : Lib.
Variable localUrl : string.
Variable valueToString : ScVal -> string.
Variable contractId : string.
Variable config : TransactionSimulator.NetworkConfig.

Let call (method : string) :=
  StellarClient.simulateCall lib localUrl contractId method config [].

(** The formatter accepts what lib/stellar's decoder returns. *)
Lemma stellar_decodeI128_is_decimal (v : ScVal) (s : string) :
  Stellar.decodeI128 v = Return s -> exists z, s = Js.toString z.
Proof.
  destruct v; try discriminate. unfold Stellar.decodeI128.
  rewrite !BigInt_toString. cbn [bind]. intros [= <-]. eauto.
Qed.

Lemma supplyOrNA_failed (decimals : Z) (e : JsThrown) :
  call "total_supply" = Throw e ->
  StellarClient.supplyOrNA lib localUrl contractId config decimals = "N/A".
Proof.
  subst call. cbv beta. intros H. unfold StellarClient.supplyOrNA.
  rewrite H. reflexivity.
Qed.

End TokenSummary.

(** X7.  [fetchTokenInfo] resolves whenever the name, symbol and decimals
    reads succeed, decimals being a u32, and the admin read either fails
    or returns an address: a failing [total_supply] read leaves the two
    supplies at ["N/A"], a failing [admin] read leaves the admin at
    ["N/A"], and the circulating supply always equals the total supply. *)
Theorem fetchTokenInfo_fallbacks (lib : Sdk.Lib) (localUrl : string)
    (valueToString : Sdk.ScVal -> string) (contractId : string)
    (config : TransactionSimulator.NetworkConfig)
    (nameVal symbolVal : Sdk.ScVal) (decimals : Z)
    (adminRead : Outcome Sdk.ScVal) :
  StellarClient.simulateCall lib localUrl contractId "name" config [] = Return nameVal ->
  StellarClient.simulateCall lib localUrl contractId "symbol" config []
    = Return symbolVal ->
  StellarClient.simulateCall lib localUrl contractId "decimals" config []
    = Return (Sdk.scvU32 decimals) ->
  StellarClient.simulateCall lib localUrl contractId "admin" config [] = adminRead ->
  (forall v, adminRead = Return v -> exists a, v = Sdk.scvAddress a) ->
  exists info,
    StellarClient.fetchTokenInfo lib localUrl valueToString contractId config
      = Return info
    /\ StellarClient.decimals info = decimals
    /\ StellarClient.circulatingSupply info = StellarClient.totalSupply info
    /\ (forall e,
          StellarClient.simulateCall lib localUrl contractId "total_supply" config []
            = Throw e ->
          StellarClient.totalSupply info = "N/A")
    /\ (forall e, adminRead = Throw e -> StellarClient.admin info = "N/A")
    /\ (forall a, adminRead = Return (Sdk.scvAddress a) -> StellarClient.admin info = a).
Proof.
  intros Hn Hs Hd Ha Hadmin. unfold StellarClient.fetchTokenInfo.
  rewrite Hn, Hs, Hd, Ha. cbn [bind StellarClient.decodeU32].
  destruct adminRead as [v | e].
  - destruct (Hadmin v eq_refl) as [a ->]. cbn [bind StellarClient.decodeAddress].
    eexists. split; [reflexivity|]. cbn.
    repeat split.
    + intros e He. now apply (supplyOrNA_failed _ _ _ _ _ e).
    + discriminate.
    + now intros a' [= ->].
  - cbn [bind]. eexists. split; [reflexivity|]. cbn.
    repeat split.
    + intros e' He. now apply (supplyOrNA_failed _ _ _ _ _ e').
    + discriminate.
Qed.

Lemma fetchTokenInfo_fallbacks_witness :
  exists info,
    StellarClient.fetchTokenInfo (Remote.libFor (Samples.tokenNode None))
      "https://soroban-testnet.stellar.org" (fun _ => "") "CTOKEN" Samples.testnet
    = Return info
    /\ StellarClient.decimals info = 7
    /\ StellarClient.circulatingSupply info = StellarClient.totalSupply info.
Proof.
  destruct (fetchTokenInfo_fallbacks (Remote.libFor (Samples.tokenNode None))
              "https://soroban-testnet.stellar.org" (fun _ => "") "CTOKEN"
              Samples.testnet (Sdk.scvString "Launch Token") (Sdk.scvSymbol "LNCH") 7
              (Throw (JsError "Soroban simulation error (admin): HostError: missing function"))
              eq_refl eq_refl eq_refl eq_refl)
    as (info & Hinfo & Hd & Hc & _).
  - discriminate.
  - exists info. auto.
Defined.

(* ------------------------------------------------------------------ *)
(** ** Formatting what was decoded                                      *)
(* ------------------------------------------------------------------ *)

Section DecimalStrings.

(** lib/stellar's formatter does not throw on the decimal string of an
    integer. *)
Lemma stellar_format_decimal (z : Z) (decimals : nat) :
  exists display, Stellar.formatTokenAmount (Js.toString z) decimals = Return display.
Proof.
  unfold Stellar.formatTokenAmount.
  destruct (String.eqb (Js.toString z) "N/A"); [eauto|].
  rewrite BigInt_toString. cbn [bind].
  destruct (Z.rem z (10 ^ Z.of_nat decimals) =? 0); eauto.
Qed.

Lemma toString_injective (a b : Z) : Js.toString a = Js.toString b -> a = b.
Proof.
  intros H. pose proof (BigInt_toString a) as Ha.
  rewrite H, BigInt_toString in Ha. congruence.
Qed.

Lemma toString_is_zero (z : Z) : String.eqb (Js.toString z) "0" = (z =? 0).
Proof.
  destruct (Z.eqb_spec z 0) as [-> | Hz]; [reflexivity|].
  apply String.eqb_neq. intros H. apply Hz.
  apply toString_injective. exact H.
Qed.

End DecimalStrings.

(** X8.  Whatever lib/stellar's [decodeI128] returns, its
    [formatTokenAmount] formats without throwing, at every number of
    decimals.  On other strings the formatter returns ["N/A"] unchanged,
    formats the empty string as ["0"], and throws the [SyntaxError] of
    [BigInt] on a string that is not an integer literal. *)
Theorem formatTokenAmount_accepts_decoded (v : Sdk.ScVal) (raw : string)
    (decimals : nat) :
  Stellar.decodeI128 v = Return raw ->
  (exists display, Stellar.formatTokenAmount raw decimals = Return display)
  /\ Stellar.formatTokenAmount "N/A" decimals = Return "N/A"
  /\ Stellar.formatTokenAmount "" decimals = Return "0"
  /\ (forall text e,
        text <> "N/A" -> Js.BigInt text = Throw e ->
        Stellar.formatTokenAmount text decimals = Throw e).
Proof.
  intros Hdec.
  destruct (stellar_decodeI128_is_decimal v raw Hdec) as [z ->].
  split; [apply stellar_format_decimal|].
  split; [reflexivity|]. split.
  - unfold Stellar.formatTokenAmount. cbn [String.eqb Js.BigInt bind].
    rewrite Z.rem_0_l by (apply Z.pow_nonzero; lia). reflexivity.
  - intros text e Hna He. unfold Stellar.formatTokenAmount.
    destruct (String.eqb_spec text "N/A"); [contradiction|].
    rewrite He. reflexivity.
Qed.

Lemma formatTokenAmount_accepts_decoded_witness :
  Stellar.decodeI128 (Sdk.scvI128 (-1) 5) = Return "-18446744073709551611"
  /\ exists display,
       Stellar.formatTokenAmount "-18446744073709551611" 7 = Return display.
Proof.
  assert (E : Stellar.decodeI128 (Sdk.scvI128 (-1) 5) = Return "-18446744073709551611")
    by (vm_compute; reflexivity).
  split; [exact E|].
  exact (proj1 (formatTokenAmount_accepts_decoded _ _ 7 E)).
Defined.

(** X9.  The allowances page lists, in the order they were read, exactly
    the spenders whose allowance is not zero, each with the decimal string
    of its amount; formatting never fails; and a listed allowance is
    flagged expired exactly when its amount is negative. *)
Theorem allowances_listed (decimals : nat) (fetched : list (string * Z)) :
  exists shown,
    AllowancesPage.listed decimals fetched = Return shown
    /\ map (fun a => (AllowancesPage.spenderAddress a, AllowancesPage.amount a,
                      AllowancesPage.isExpired a)) shown
       = map (fun f => (fst f, Js.toString (snd f), snd f <? 0))
             (filter (fun f => negb (snd f =? 0)) fetched)
    /\ Forall (fun a =>
                 Stellar.formatTokenAmount (AllowancesPage.amount a) decimals
                 = Return (AllowancesPage.amountFormatted a)) shown.
Proof.
  unfold AllowancesPage.listed.
  induction fetched as [|[spender z] fetched IH].
  - exists []. repeat split; constructor.
  - destruct IH as (shown & Hrest & Hmap & Hfmt).
    apply bind_Return in Hrest as (results & Hresults & Hshown).
    injection Hshown as <-.
    destruct (stellar_format_decimal z decimals) as [display Hdisplay].
    cbn [AllowancesPage.allResults AllowancesPage.toAllowance].
    rewrite Hdisplay. cbn [bind]. rewrite Hresults. cbn [bind].
    eexists. split; [reflexivity|].
    cbn [filter AllowancesPage.amount snd]. rewrite toString_is_zero.
    destruct (Z.eqb_spec z 0) as [-> | Hz]; cbn [negb].
    + split; assumption.
    + cbn [map fst snd AllowancesPage.spenderAddress AllowancesPage.amount
           AllowancesPage.isExpired]. split.
      * f_equal; [|exact Hmap]. do 2 f_equal.
        destruct (Z.leb_spec z 0), (Z.ltb_spec z 0); try reflexivity; lia.
      * constructor; [exact Hdisplay | exact Hfmt].
Qed.

(* ------------------------------------------------------------------ *)
(** ** The pre-flight helpers and what the form shows                   *)
(* ------------------------------------------------------------------ *)

Section PreflightHelpers.

Import Sdk TransactionSimulator.

Variable lib : Lib.
Variable nativeToScVal : Z -> string -> Outcome ScVal.

(** [simulateTransaction] resolves, to a result without warnings and
    without simulation details. *)
Lemma simulateTransaction_resolves (contractId method : string) (args : list ScVal)
    (config : NetworkConfig) (source : string) :
  exists r,
    simulateTransaction lib contractId method args config source = Return r
    /\ warnings r = [] /\ simulationDetails r = None
    /\ (success r = true -> errors r = [])
    /\ (success r = false -> exists message, errors r = [message]).
Proof.
  destruct (simulate_cases lib contractId method args config source)
    as [(e & He & _) | (rpc & tx & sim & H1 & H2 & H3)].
  - eexists. split; [exact He|]. cbn. repeat split; try discriminate; eauto.
  - eexists. split; [exact (simulate_response _ _ _ _ _ _ rpc tx sim H1 H2 H3)|].
    destruct (sim_error sim), (sim_transactionData sim), (sim_result sim); cbn;
      repeat split; try discriminate; eauto.
Qed.

End PreflightHelpers.

(** X10.  [simulateTransfer] resolves exactly when its three arguments
    encode: both addresses are accepted by the [Address] constructor, the
    amount converts with [BigInt] and the encoder accepts it as an i128.
    Otherwise the promise rejects, the arguments being built outside the
    [try] block of [simulateTransaction]. *)
Theorem simulateTransfer_resolves_iff (lib : Sdk.Lib)
    (nativeToScVal : Z -> string -> Outcome Sdk.ScVal)
    (contractId fromAddress toAddress : string) (amount : Preflight.Amount)
    (config : TransactionSimulator.NetworkConfig) :
  (exists r,
     Preflight.simulateTransfer lib nativeToScVal contractId fromAddress toAddress
       amount config = Return r)
  <-> (exists a1 a2 n a3,
         Sdk.newAddress lib fromAddress = Return a1
         /\ Sdk.newAddress lib toAddress = Return a2
         /\ Preflight.toBigInt amount = Return n
         /\ nativeToScVal n "i128" = Return a3).
Proof.
  unfold Preflight.simulateTransfer. split.
  - intros (r & H).
    apply bind_Return in H as (a1 & H1 & H).
    apply bind_Return in H as (a2 & H2 & H).
    apply bind_Return in H as (n & H3 & H).
    apply bind_Return in H as (a3 & H4 & _).
    exists a1, a2, n, a3. auto.
  - intros (a1 & a2 & n & a3 & H1 & H2 & H3 & H4).
    rewrite H1, H2, H3. cbn [bind]. rewrite H4. cbn [bind].
    destruct (simulateTransaction_resolves lib contractId "transfer" [a1; a2; a3]
                config fromAddress) as (r & Hr & _).
    eauto.
Qed.

(** A transfer of "1.5" is rejected by [BigInt] before any simulation;
    a transfer of "15" is simulated. *)
Lemma simulateTransfer_resolves_iff_witness :
  Preflight.simulateTransfer (Samples.checkingLib (Samples.tokenNode None))
    Samples.encodeAny "CTOKEN" "GALICE" "GBOB" (Preflight.AmountString "1.5")
    Samples.testnet
  = Throw (JsError "Cannot convert 1.5 to a BigInt")
  /\ exists r,
       Preflight.simulateTransfer (Samples.checkingLib (Samples.tokenNode None))
         Samples.encodeAny "CTOKEN" "GALICE" "GBOB" (Preflight.AmountString "15")
         Samples.testnet = Return r.
Proof.
  split; [vm_compute; reflexivity|].
  apply (simulateTransfer_resolves_iff (Samples.checkingLib (Samples.tokenNode None))
           Samples.encodeAny "CTOKEN" "GALICE" "GBOB" (Preflight.AmountString "15")
           Samples.testnet).
  eexists _, _, _, _. repeat split; vm_compute; reflexivity.
Defined.

(** X11.  Revoking an allowance is approving the amount 0 with expiration
    ledger 1000, for every configuration; and without a configuration
    both helpers resolve to the failure "Network configuration is
    required" before looking at the addresses, even ones the SDK would
    refuse. *)
Theorem simulateRevokeAllowance_is_approve_zero (lib : Sdk.Lib)
    (nativeToScVal : Z -> string -> Outcome Sdk.ScVal)
    (contractId ownerAddress spenderAddress : string)
    (config : option TransactionSimulator.NetworkConfig) :
  Preflight.simulateRevokeAllowance lib nativeToScVal contractId ownerAddress
    spenderAddress config
  = Preflight.simulateApprove lib nativeToScVal contractId ownerAddress
      spenderAddress (Preflight.AmountBigInt 0) 1000 config
  /\ (config = None ->
      forall amount expirationLedger,
        Preflight.simulateApprove lib nativeToScVal contractId ownerAddress
          spenderAddress amount expirationLedger config
        = Return (TransactionSimulator.failure "Network configuration is required")).
Proof.
  split.
  - destruct config; reflexivity.
  - intros -> amount expirationLedger. reflexivity.
Qed.

Lemma simulateRevokeAllowance_is_approve_zero_witness :
  Preflight.simulateApprove (Samples.checkingLib (Samples.tokenNode None))
    Samples.encodeAny "CTOKEN" "not an address" "GBOB" (Preflight.AmountString "x")
    Preflight.defaultExpirationLedger None
  = Return (TransactionSimulator.failure "Network configuration is required").
Proof.
  apply (simulateRevokeAllowance_is_approve_zero
           (Samples.checkingLib (Samples.tokenNode None)) Samples.encodeAny
           "CTOKEN" "not an address" "GBOB" None).
  reflexivity.
Defined.

(** X12.  What the mint form shows once a check has settled.  For a
    result of [simulateTransaction] the panel is the success panel "Ready
    to mint tokens" when the check passed and the error panel with the
    single error when it failed, never the warning panel and never
    nothing; the submit button of a valid, idle form is enabled exactly
    when the check passed.  When the check threw, the panel shows the
    error's message and the button stays disabled. *)
Theorem mint_form_after_check (lib : Sdk.Lib) (contractId method : string)
    (args : list Sdk.ScVal) (config : TransactionSimulator.NetworkConfig)
    (source : string) (r : TransactionSimulator.PreflightCheckResult) :
  TransactionSimulator.simulateTransaction lib contractId method args config source
    = Return r ->
  let state := Some (PreflightCheck.handleCheck (Return r)) in
  PreflightCheck.mintPanel state
  = (if TransactionSimulator.success r
     then PreflightCheck.SuccessPanel "Ready to mint tokens"
     else PreflightCheck.ErrorPanel (TransactionSimulator.errors r))
  /\ (TransactionSimulator.success r = false ->
      exists message, TransactionSimulator.errors r = [message])
  /\ PreflightCheck.submitDisabled true false state
     = negb (TransactionSimulator.success r)
  /\ (forall message,
        let thrown := Some (PreflightCheck.handleCheck (Throw (JsError message))) in
        PreflightCheck.mintPanel thrown = PreflightCheck.ErrorPanel [message]
        /\ PreflightCheck.submitDisabled true false thrown = true).
Proof.
  intros Hrun state. subst state.
  destruct (simulateTransaction_resolves lib contractId method args config source)
    as (r' & Hr' & Hw & _ & Hok & Hfail).
  rewrite Hrun in Hr'. injection Hr' as <-.
  unfold PreflightCheck.mintPanel, PreflightCheck.handleCheck,
    PreflightCheck.PreflightCheckDisplay, PreflightCheck.submitDisabled.
  cbn [PreflightCheck.isLoading PreflightCheck.errors PreflightCheck.warnings
       PreflightCheck.success].
  rewrite Hw. cbn [PreflightCheck.nonEmpty negb orb].
  destruct (TransactionSimulator.success r) eqn:Hs.
  - rewrite (Hok eq_refl). cbn. repeat split; try discriminate.
  - destruct (Hfail eq_refl) as [message Hm]. rewrite Hm. cbn.
    repeat split; eauto.
Qed.

Lemma mint_form_after_check_witness :
  PreflightCheck.mintPanel
    (Some (PreflightCheck.handleCheck
             (Return (TransactionSimulator.failure "Invalid contract ID: bad"))))
  = PreflightCheck.ErrorPanel ["Invalid contract ID: bad"].
Proof.
  assert (E : TransactionSimulator.simulateTransaction
                (Remote.strictLib (Remote.simulationNode (Throw (JsError "unused"))))
                "bad" "mint" [] Samples.testnet TransactionSimulator.defaultSource
              = Return (TransactionSimulator.failure "Invalid contract ID: bad"))
    by (vm_compute; reflexivity).
  exact (proj1 (mint_form_after_check _ _ _ _ _ _ _ E)).
Defined.

(* ------------------------------------------------------------------ *)
(** ** Pages of the holders table                                       *)
(* ------------------------------------------------------------------ *)

Section Pages.

Variable A : Type.

(** From a non-negative start, a slice of ten is the first ten of what
    follows the start. *)
Lemma slice_ten (a : list A) (start : nat) :
  JsExtra.slice a (Z.of_nat start) (Z.of_nat start + 10)
  = firstn 10 (skipn start a).
Proof.
  unfold JsExtra.slice, JsExtra.clampIndex.
  destruct (Z.ltb_spec (Z.of_nat start) 0); [lia|].
  destruct (Z.ltb_spec (Z.of_nat start + 10) 0); [lia|].
  set (len := List.length a).
  destruct (Nat.le_gt_cases len start) as [Hout | Hin].
  - rewrite (skipn_all2 (n := start) a) by (subst len; lia).
    rewrite Z.min_r, Z.min_r by lia.
    rewrite Z.sub_diag. reflexivity.
  - rewrite (Z.min_l (Z.of_nat start)) by lia. rewrite Nat2Z.id.
    destruct (Nat.le_gt_cases (start + 10) len) as [Hfull | Hlast].
    + rewrite Z.min_l by lia.
      replace (Z.to_nat (Z.of_nat start + 10 - Z.of_nat start)) with 10%nat by lia.
      reflexivity.
    + rewrite Z.min_r by lia.
      assert (Hl : List.length (skipn start a) = (len - start)%nat)
        by (subst len; apply length_skipn).
      rewrite !firstn_all2 by lia. reflexivity.
Qed.

Lemma paginatedHolders_chunk (sorted : list A) (i : nat) :
  TokenDashboard.paginatedHolders sorted (Z.of_nat i + 1)
  = firstn 10 (skipn (10 * i) sorted).
Proof.
  unfold TokenDashboard.paginatedHolders, TokenDashboard.endIndex,
    TokenDashboard.startIndex, TokenDashboard.itemsPerPage.
  replace ((Z.of_nat i + 1 - 1) * 10) with (Z.of_nat (10 * i)) by lia.
  apply slice_ten.
Qed.

(** Chunks of ten, taken one after the other, make up the list. *)
Lemma chunks_concat (pages : nat) : forall l : list A,
  (List.length l <= 10 * pages)%nat ->
  List.concat (map (fun i => firstn 10 (skipn (10 * i) l)) (seq 0 pages)) = l.
Proof.
  induction pages as [|pages IH]; intros l Hlen.
  - destruct l; [reflexivity | simpl in Hlen; lia].
  - cbn [seq map List.concat]. rewrite <- seq_shift, map_map.
    rewrite Nat.mul_0_r. cbn [skipn].
    transitivity (firstn 10 l ++ skipn 10 l)%list; [|apply firstn_skipn].
    f_equal.
    etransitivity; [|apply (IH (skipn 10 l)); rewrite length_skipn; lia].
    f_equal. apply map_ext. intros i.
    rewrite skipn_skipn. do 2 f_equal. lia.
Qed.

Lemma totalPages_bounds (sorted : list A) :
  let n := Z.of_nat (List.length sorted) in
  let pages := TokenDashboard.totalPages sorted in
  0 <= pages /\ n <= 10 * pages < n + 10.
Proof.
  cbv zeta. unfold TokenDashboard.totalPages, TokenDashboard.itemsPerPage.
  pose proof (Z.div_mod (Z.of_nat (List.length sorted) + 10 - 1) 10).
  pose proof (Z.mod_pos_bound (Z.of_nat (List.length sorted) + 10 - 1) 10).
  lia.
Qed.

End Pages.

(** X13.  The pages of the holders table partition the sorted list: the
    pages 1 to [totalPages], one after the other, are the list itself, so
    every holder is on exactly one page, in order. *)
Theorem pages_partition (A : Type) (sorted : list A) :
  List.concat (map (TokenDashboard.paginatedHolders sorted)
              (TokenDashboard.pageNumbers (TokenDashboard.totalPages sorted)))
  = sorted.
Proof.
  unfold TokenDashboard.pageNumbers. rewrite map_map.
  rewrite (map_ext _ (fun i => firstn 10 (skipn (10 * i) sorted)))
    by (intros i; apply paginatedHolders_chunk).
  apply chunks_concat.
  pose proof (totalPages_bounds A sorted) as H. cbv zeta in H. lia.
Qed.

(** X14.  A page between 1 and [totalPages] is never empty and holds at
    most ten holders, exactly ten when it is not the last; a page after
    the last is empty; and "Previous" and "Next" keep the current page
    between 1 and [totalPages]. *)
Theorem page_sizes (A : Type) (sorted : list A) (currentPage : Z) :
  1 <= currentPage <= TokenDashboard.totalPages sorted ->
  let page := TokenDashboard.paginatedHolders sorted currentPage in
  let pages := TokenDashboard.totalPages sorted in
  (1 <= List.length page <= 10)%nat
  /\ (currentPage < pages -> List.length page = 10%nat)
  /\ (forall later, pages < later -> TokenDashboard.paginatedHolders sorted later = [])
  /\ 1 <= TokenDashboard.previousPage currentPage <= pages
  /\ 1 <= TokenDashboard.nextPage pages currentPage <= pages.
Proof.
  intros Hp page pages. subst page pages.
  pose proof (totalPages_bounds A sorted) as Hb. cbv zeta in Hb.
  assert (Hchunk : forall p, 1 <= p ->
            TokenDashboard.paginatedHolders sorted p
            = firstn 10 (skipn (10 * Z.to_nat (p - 1)) sorted)).
  { intros p H1. rewrite <- paginatedHolders_chunk. f_equal. lia. }
  rewrite Hchunk by lia.
  rewrite length_firstn, length_skipn.
  unfold TokenDashboard.previousPage, TokenDashboard.nextPage.
  repeat split; try lia.
  intros later Hlater. rewrite Hchunk by lia.
  rewrite skipn_all2 by lia. reflexivity.
Qed.

Lemma page_sizes_witness :
  1 <= 2 <= TokenDashboard.totalPages (seq 0 13)
  /\ TokenDashboard.paginatedHolders (seq 0 13) 2 = [10; 11; 12]%nat.
Proof.
  assert (H : 1 <= 2 <= TokenDashboard.totalPages (seq 0 13)) by (vm_compute; split; discriminate).
  split; [exact H|].
  destruct (page_sizes nat (seq 0 13) 2 H) as (_ & _ & _).
  reflexivity.
Defined.

Section PageButtons.

Lemma pageNumbers_in (pages page : Z) :
  In page (TokenDashboard.pageNumbers pages) <-> 1 <= page <= pages.
Proof.
  unfold TokenDashboard.pageNumbers. rewrite in_map_iff. split.
  - intros (i & <- & Hi). apply in_seq in Hi. lia.
  - intros H. exists (Z.to_nat (page - 1)). split; [lia|].
    apply in_seq. lia.
Qed.

Lemma pageNumbers_NoDup (pages : Z) : NoDup (TokenDashboard.pageNumbers pages).
Proof.
  unfold TokenDashboard.pageNumbers.
  generalize (seq_NoDup (Z.to_nat pages) 0).
  induction (seq 0 (Z.to_nat pages)) as [|i l IH]; intros Hnd; cbn [map].
  - constructor.
  - apply NoDup_cons_iff in Hnd as [Hnotin Hnd]. constructor; [|now apply IH].
    rewrite in_map_iff. intros (j & Hj & Hin).
    assert (j = i) by lia. subst j. contradiction.
Qed.

End PageButtons.

(** X15.  The page buttons of the holders table.  With the current page
    between 1 and the number of pages, at most five buttons are shown;
    they include the first page, the last page and the current page, and
    every button shown is a page between 1 and the number of pages. *)
Theorem visiblePages_bounded (pages currentPage : Z) :
  1 <= currentPage <= pages ->
  let shown := TokenDashboard.visiblePages pages currentPage in
  (List.length shown <= 5)%nat
  /\ In 1 shown /\ In pages shown /\ In currentPage shown
  /\ NoDup shown
  /\ (forall page, In page shown -> 1 <= page <= pages).
Proof.
  intros Hc shown. subst shown. unfold TokenDashboard.visiblePages.
  assert (Hin : forall page,
            In page (filter (TokenDashboard.pageShown pages currentPage)
                       (TokenDashboard.pageNumbers pages))
            <-> 1 <= page <= pages
                /\ (page = 1 \/ page = pages \/ Z.abs (page - currentPage) <= 1)).
  { intros page. rewrite filter_In, pageNumbers_in.
    unfold TokenDashboard.pageShown.
    rewrite !orb_true_iff, !Z.eqb_eq, Z.leb_le. tauto. }
  assert (Hnd : NoDup (filter (TokenDashboard.pageShown pages currentPage)
                         (TokenDashboard.pageNumbers pages)))
    by (apply NoDup_filter, pageNumbers_NoDup).
  split.
  - change 5%nat
      with (List.length [1; pages; currentPage - 1; currentPage; currentPage + 1]).
    apply NoDup_incl_length; [exact Hnd|].
    intros page Hp. apply Hin in Hp as [_ Hp]. cbn [In]. lia.
  - repeat split; try (apply Hin; lia); try exact Hnd;
      intros; match goal with H : In _ _ |- _ => apply Hin in H end; lia.
Qed.

Lemma visiblePages_bounded_witness :
  1 <= 5 <= 12 /\ TokenDashboard.visiblePages 12 5 = [1; 4; 5; 6; 12].
Proof.
  split; [lia|].
  destruct (visiblePages_bounded 12 5 ltac:(lia)) as (_ & _).
  vm_compute. reflexivity.
Defined.

(* ------------------------------------------------------------------ *)
(** ** The vesting card                                                 *)
(* ------------------------------------------------------------------ *)

(** X16.  On the vesting card of a schedule that is not revoked and has
    [cliffLedger <= endLedger], badge, label and progress bar agree: the
    badge is green exactly when the label is "Fully Vested", which is
    exactly when the bar is at 100%; "Cliff Pending" comes with an empty
    bar; and "Vesting" is shown from the cliff ledger up to the end
    ledger. *)
Theorem vesting_card_consistent (cliffLedger endLedger currentLedger : Z) :
  cliffLedger <= endLedger ->
  let label := VestingCard.statusLabel false cliffLedger endLedger currentLedger in
  let color := VestingCard.statusColor false endLedger currentLedger in
  let progress := PersonalDashboard.vestProgress cliffLedger endLedger currentLedger in
  (color = "text-green-400 bg-green-400/10 border-green-400/20"
   <-> label = "Fully Vested")
  /\ (label = "Fully Vested" <-> progress = PersonalDashboard.FullyVested)
  /\ (label = "Cliff Pending" -> progress = PersonalDashboard.CliffPending)
  /\ (label = "Vesting" <-> cliffLedger <= currentLedger < endLedger)
  /\ (label = "Cliff Pending" <-> currentLedger < cliffLedger).
Proof.
  intros Hce label color progress. subst label color progress.
  unfold VestingCard.statusLabel, VestingCard.statusColor,
    PersonalDashboard.vestProgress.
  destruct (Z.ltb_spec currentLedger cliffLedger),
    (Z.geb_spec currentLedger endLedger), (Z.gtb_spec currentLedger cliffLedger);
    try lia; repeat split; intros; try discriminate; try reflexivity; try lia.
Qed.

Lemma vesting_card_consistent_witness :
  100 <= 1100
  /\ VestingCard.statusLabel false 100 1100 100 = "Vesting".
Proof.
  split; [lia|].
  apply (vesting_card_consistent 100 1100 100); lia.
Defined.

(** X17.  The vesting card never fails on a schedule that lib/stellar
    fetched: the two amount strings convert back with [BigInt] to the
    integers they print, the unreleased amount is their difference, and
    the released percentage stays between 0 and 100 when [0 <= released
    <= total]. *)
Theorem vesting_card_amounts (lib : Sdk.Lib) (localUrl : string)
    (valueToString : Sdk.ScVal -> string) (contractId recipientAddress : string)
    (config : TransactionSimulator.NetworkConfig)
    (info : StellarClient.VestingScheduleInfo) :
  StellarClient.fetchVestingSchedule lib localUrl valueToString contractId
    recipientAddress config = Return info ->
  exists a,
    VestingCard.amounts info = Return a
    /\ Js.toString (VestingCard.totalAmount a) = StellarClient.totalAmount info
    /\ Js.toString (VestingCard.released a) = StellarClient.released info
    /\ VestingCard.unreleased a = VestingCard.totalAmount a - VestingCard.released a
    /\ (0 <= VestingCard.released a <= VestingCard.totalAmount a ->
        0 <= VestingCard.releasedPct a <= 100).
Proof.
  intros H. unfold StellarClient.fetchVestingSchedule in H.
  apply bind_Return in H as (addressVal & _ & H).
  apply bind_Return in H as (result & _ & H).
  apply bind_Return in H as (fields & _ & H).
  apply bind_Return in H as (v1 & _ & H). apply bind_Return in H as (r1 & _ & H).
  apply bind_Return in H as (v2 & _ & H). apply bind_Return in H as (r2 & Hr2 & H).
  apply bind_Return in H as (v3 & _ & H). apply bind_Return in H as (r3 & _ & H).
  apply bind_Return in H as (v4 & _ & H). apply bind_Return in H as (r4 & _ & H).
  apply bind_Return in H as (v5 & _ & H). apply bind_Return in H as (r5 & Hr5 & H).
  apply bind_Return in H as (v6 & _ & H). apply bind_Return in H as (r6 & _ & H).
  injection H as <-.
  apply stellar_decodeI128_is_decimal in Hr2 as [total ->].
  apply stellar_decodeI128_is_decimal in Hr5 as [released ->].
  unfold VestingCard.amounts.
  cbn [StellarClient.totalAmount StellarClient.released].
  rewrite !BigInt_toString. cbn [bind].
  eexists. split; [reflexivity|]. cbn.
  repeat split; try reflexivity.
  - unfold VestingCard.releasedPct in *. cbn [VestingCard.totalAmount VestingCard.released].
    destruct (Z.gtb_spec total 0); [|lia].
    rewrite Z.quot_div_nonneg by lia. apply Z.div_pos; lia.
  - unfold VestingCard.releasedPct in *. cbn [VestingCard.totalAmount VestingCard.released].
    destruct (Z.gtb_spec total 0); [|lia].
    rewrite Z.quot_div_nonneg by lia. apply Z.div_le_upper_bound; lia.
Qed.

Lemma vesting_card_amounts_witness :
  exists a,
    VestingCard.amounts
      {| StellarClient.recipient := "GRECIPIENT"; StellarClient.totalAmount := "1000";
         StellarClient.cliffLedger := 100; StellarClient.endLedger := 1100;
         StellarClient.released := "200"; StellarClient.revoked := false |}
    = Return a
    /\ VestingCard.unreleased a = VestingCard.totalAmount a - VestingCard.released a.
Proof.
  assert (E : StellarClient.fetchVestingSchedule (Remote.libFor Remote.sampleNode)
                "https://soroban-testnet.stellar.org" (fun _ => "") "CVESTING"
                "GRECIPIENT" Samples.testnet
              = Return {| StellarClient.recipient := "GRECIPIENT";
                          StellarClient.totalAmount := "1000";
                          StellarClient.cliffLedger := 100;
                          StellarClient.endLedger := 1100;
                          StellarClient.released := "200";
                          StellarClient.revoked := false |})
    by (vm_compute; reflexivity).
  destruct (vesting_card_amounts _ _ _ _ _ _ _ E) as (a & Ha & _ & _ & Hu & _).
  exists a. split; assumption.
Defined.

(* ------------------------------------------------------------------ *)
(** ** Negative amounts on the claim page                               *)
(* ------------------------------------------------------------------ *)

Section SingleCharacter.

Lemma includes_char_app (c : ascii) (a b : string) :
  Js.includes (String c "") (a ++ b)
  = Js.includes (String c "") a || Js.includes (String c "") b.
Proof.
  induction a as [|x a IH].
  - cbn [append]. rewrite (includes_unfold _ ""). reflexivity.
  - cbn [append]. rewrite (includes_unfold _ (String x (a ++ b))),
      (includes_unfold _ (String x a)), IH.
    cbn [Js.startsWith].
    replace (Js.startsWith "" (a ++ b)) with true by (destruct (a ++ b); reflexivity).
    replace (Js.startsWith "" a) with true by (destruct a; reflexivity).
    now rewrite orb_assoc.
Qed.

Lemma includes_char_zeros (k : nat) :
  Js.includes "-" (Js.repeat "0" k) = false.
Proof. induction k as [|k IH]; [reflexivity|]. cbn. exact IH. Qed.

(** Stripping trailing zeros does not remove a minus sign. *)
Lemma stripTrailingZeros_keeps_minus (s : string) :
  Js.includes "-" s = true -> Js.includes "-" (Js.stripTrailingZeros s) = true.
Proof.
  intros H. rewrite (stripTrailingZeros_decompose s) in H.
  rewrite includes_char_app, includes_char_zeros, orb_false_r in H. exact H.
Qed.

End SingleCharacter.

(** X18.  lib/vesting's [formatTokenAmount] on a negative amount that is
    not a multiple of [10^decimals] writes a minus sign inside the
    fractional part, and when the amount is above [-10^decimals] the
    integer part is a bare ["0"]: [-5] at seven decimals is shown as
    ["0.00000-5"].  (The claim page passes it the releasable amount, which
    can be negative.) *)
Theorem negative_amount_display (raw : Z) (decimals : nat) :
  raw < 0 ->
  Z.rem raw (10 ^ Z.of_nat decimals) <> 0 ->
  exists fraction,
    Vesting.formatTokenAmount raw decimals
    = Js.toString (Z.quot raw (10 ^ Z.of_nat decimals)) ++ "." ++ fraction
    /\ Js.includes "-" fraction = true
    /\ (- 10 ^ Z.of_nat decimals < raw ->
        Js.toString (Z.quot raw (10 ^ Z.of_nat decimals)) = "0")
    /\ Vesting.formatTokenAmount (-5) 7 = "0.00000-5".
Proof.
  intros Hneg Hrem.
  assert (Hd : 0 < 10 ^ Z.of_nat decimals) by (apply Z.pow_pos_nonneg; lia).
  unfold Vesting.formatTokenAmount.
  destruct (Z.eqb_spec (Z.rem raw (10 ^ Z.of_nat decimals)) 0); [contradiction|].
  eexists. split; [reflexivity|]. split; [|split].
  - apply stripTrailingZeros_keeps_minus.
    unfold Js.padStart. rewrite includes_char_app. apply orb_true_iff. right.
    assert (Hfrac : Z.rem raw (10 ^ Z.of_nat decimals) < 0).
    { pose proof (Z.rem_nonpos raw (10 ^ Z.of_nat decimals)). lia. }
    unfold Js.toString. destruct (Z.ltb_spec (Z.rem raw (10 ^ Z.of_nat decimals)) 0);
      [|lia].
    rewrite includes_unfold. cbn [Js.startsWith Ascii.eqb Bool.eqb andb].
    destruct (Js.natToString _); reflexivity.
  - intros Hsmall.
    replace raw with (- (- raw)) by lia.
    rewrite Z.quot_opp_l, Z.quot_small by lia. reflexivity.
  - vm_compute. reflexivity.
Qed.

Lemma negative_amount_display_witness :
  -15 < 0 /\ Vesting.formatTokenAmount (-15) 1 = "-1.-5".
Proof.
  split; [lia|].
  destruct (negative_amount_display (-15) 1) as (fraction & H & _);
    [lia | vm_compute; discriminate |].
  vm_compute. reflexivity.
Defined.

(* ------------------------------------------------------------------ *)
(** ** Submitting: refusals and failing status queries                  *)
(* ------------------------------------------------------------------ *)

Section PollErrors.

Import Sdk Remote.

Variable server : Server.
Variable hash : string.

(** lib/vesting: a status query that throws ends the loop with its
    error. *)
Lemma pollLoop_throw (k : nat) : forall remaining clock e,
  (k < remaining)%nat ->
  (forall j, (queries clock <= j < queries clock + k)%nat ->
             statusAt server hash j NOT_FOUND) ->
  getTransaction server hash (queries clock + k) = Throw e ->
  Vesting.pollLoop server hash remaining clock
  = (Throw e, {| queries := queries clock + k + 1;
                 slept := slept clock + 2000 * (Z.of_nat k + 1) |}).
Proof.
  induction k as [|k IH]; intros remaining clock e Hk Hnf He;
    (destruct remaining as [|remaining]; [lia|]); cbn [Vesting.pollLoop].
  - clock_simpl. rewrite Nat.add_0_r in He. rewrite He.
    f_equal; apply clock_ext; clock_simpl; lia.
  - destruct (Hnf (queries clock)) as (r0 & Hr0 & Hst0); [lia|].
    clock_simpl. rewrite Hr0, Hst0. clock_simpl.
    rewrite (IH remaining _ e).
    + f_equal; apply clock_ext; clock_simpl; lia.
    + lia.
    + intros j Hj. clock_simpl. apply Hnf. lia.
    + clock_simpl. rewrite <- He. f_equal. lia.
Qed.

(** lib/stellar: the same for its loop. *)
Lemma pollWhile_throw (k : nat) : forall remaining getResponse clock e,
  (k < remaining)%nat ->
  get_status getResponse = NOT_FOUND ->
  (forall j, (queries clock <= j < queries clock + k)%nat ->
             statusAt server hash j NOT_FOUND) ->
  getTransaction server hash (queries clock + k) = Throw e ->
  Stellar.pollWhile server hash remaining getResponse clock
  = (Throw e, {| queries := queries clock + k + 1;
                 slept := slept clock + 1000 * (Z.of_nat k + 1) |}).
Proof.
  induction k as [|k IH]; intros remaining getResponse clock e Hk Hcur Hnf He;
    (destruct remaining as [|remaining]; [lia|]); cbn [Stellar.pollWhile];
    rewrite Hcur; clock_simpl.
  - rewrite Nat.add_0_r in He. rewrite He.
    f_equal; apply clock_ext; clock_simpl; lia.
  - destruct (Hnf (queries clock)) as (r0 & Hr0 & Hst0); [lia|].
    rewrite Hr0. rewrite (IH remaining r0 _ e).
    + f_equal; apply clock_ext; clock_simpl; lia.
    + lia.
    + exact Hst0.
    + intros j Hj. clock_simpl. apply Hnf. lia.
    + clock_simpl. rewrite <- He. f_equal. lia.
Qed.

(** lib/vesting's loop always makes a first query. *)
Lemma pollLoop_first_query (remaining : nat) (clock : Clock) :
  (queries clock < queries (snd (Vesting.pollLoop server hash (S remaining) clock)))%nat.
Proof.
  cbn [Vesting.pollLoop].
  destruct (getTransaction server hash (queries (sleep 2000 clock)))
    as [getResponse | e]; [|clock_simpl; lia].
  destruct (isSUCCESS (get_status getResponse)); [clock_simpl; lia|].
  destruct (isFAILED (get_status getResponse)); [clock_simpl; lia|].
  pose proof (pollLoop_clock server hash remaining (tick (sleep 2000 clock))) as H.
  cbv zeta in H. clock_simpl. lia.
Qed.

End PollErrors.

(** X19.  The node's immediate answer decides whether a submission is
    polled.  On [ERROR] both operations reject at once, without a single
    status query or pause, [submitTransaction] quoting the error result
    (or "undefined").  Every other answer, [TRY_AGAIN_LATER] and
    [DUPLICATE] as well as [PENDING], starts the polling: at least one
    status query is made. *)
Theorem submit_refused_or_polled (lib : Sdk.Lib) (server : Sdk.Server)
    (rpcUrl passphrase signedXdr : string) (tx : Sdk.Tx)
    (response : Sdk.SendTransactionResponse) :
  Sdk.fromXDR lib signedXdr passphrase = Return tx ->
  Sdk.newServer lib rpcUrl = Return server ->
  Sdk.sendTransaction server tx = Return response ->
  let vesting := Vesting.submitTx lib server passphrase signedXdr in
  let stellar := Stellar.submitTransaction lib rpcUrl passphrase signedXdr in
  (Sdk.send_status response = Sdk.ERROR ->
   vesting = (Throw (JsError "Transaction submission failed: ERROR"), Sdk.clockStart)
   /\ stellar = (Throw (JsError ("Transaction failed: "
                                 ++ Sdk.renderOptional (Sdk.send_errorResult response))),
                 Sdk.clockStart))
  /\ (Sdk.send_status response <> Sdk.ERROR ->
      (1 <= Sdk.queries (snd vesting))%nat /\ (1 <= Sdk.queries (snd stellar))%nat).
Proof.
  intros Hx Hsrv Hsend vesting stellar. subst vesting stellar. split.
  - intros Herr. unfold Vesting.submitTx, Stellar.submitTransaction.
    rewrite Hx, Hsrv, Hsend, Herr. split; reflexivity.
  - intros Hok.
    assert (Hacc : Remote.accepted lib server passphrase signedXdr
                     (Sdk.send_hash response)).
    { exists tx, response. repeat split; try assumption.
      destruct (Sdk.send_status response); try reflexivity. congruence. }
    split.
    + rewrite (submitTx_accepted lib server passphrase signedXdr _ Hacc).
      pose proof (pollLoop_first_query server (Sdk.send_hash response) 29
                    Sdk.clockStart) as H.
      clock_simpl. lia.
    + pose proof (submitTransaction_bounded lib server rpcUrl passphrase signedXdr
                    _ Hacc Hsrv) as H.
      cbv zeta in H. lia.
Qed.

Lemma submit_refused_or_polled_witness :
  Stellar.submitTransaction (Remote.libFor (Samples.tokenNode None))
    "https://soroban-testnet.stellar.org" "Test SDF Network ; September 2015" "AAAA"
  = (Throw (JsError "Transaction failed: AAAAAAAAAGT////7AAAAAA=="), Sdk.clockStart).
Proof.
  refine (proj2 (proj1 (submit_refused_or_polled
                          (Remote.libFor (Samples.tokenNode None))
                          (Samples.tokenNode None)
                          "https://soroban-testnet.stellar.org"
                          "Test SDF Network ; September 2015" "AAAA"
                          _ _ eq_refl eq_refl eq_refl) eq_refl)).
Defined.

(** X20.  A status query that fails ends the submission with the
    query's own error, after the queries made so far: at query number
    [k] (from 0) [submitTx] has made [k + 1] queries and slept [2 (k + 1)]
    seconds, [submitTransaction] [k + 1] queries and [k] seconds.  No
    query is retried. *)
Theorem submit_query_failure (lib : Sdk.Lib) (server : Sdk.Server)
    (rpcUrl passphrase signedXdr hash : string) (k : nat) (e : JsThrown) :
  Remote.accepted lib server passphrase signedXdr hash ->
  Sdk.newServer lib rpcUrl = Return server ->
  Remote.notFoundBefore server hash k ->
  Sdk.getTransaction server hash k = Throw e ->
  ((k < 30)%nat ->
   Vesting.submitTx lib server passphrase signedXdr
   = (Throw e, {| Sdk.queries := S k; Sdk.slept := 2000 * Z.of_nat (S k) |}))
  /\ ((k <= 30)%nat ->
      Stellar.submitTransaction lib rpcUrl passphrase signedXdr
      = (Throw e, {| Sdk.queries := S k; Sdk.slept := 1000 * Z.of_nat k |})).
Proof.
  intros Hacc Hsrv Hnf He. split; intros Hk.
  - rewrite (submitTx_accepted lib server passphrase signedXdr hash Hacc).
    rewrite (pollLoop_throw server hash k 30 Sdk.clockStart e); clock_simpl.
    + f_equal. apply clock_ext; clock_simpl; lia.
    + exact Hk.
    + intros j Hj. apply Hnf. lia.
    + exact He.
  - rewrite (submitTransaction_accepted lib server rpcUrl passphrase signedXdr hash
               Hacc Hsrv).
    destruct k as [|k].
    + rewrite He. reflexivity.
    + destruct (Hnf 0%nat) as (first & Hfirst & Hst0); [lia|].
      rewrite Hfirst.
      rewrite (pollWhile_throw server hash k Stellar.maxAttempts first
                 (Sdk.tick Sdk.clockStart) e); clock_simpl.
      * unfold Remote.stellarVerdict. f_equal. apply clock_ext; clock_simpl; lia.
      * unfold Stellar.maxAttempts. lia.
      * exact Hst0.
      * intros j Hj. apply Hnf. lia.
      * exact He.
Qed.

Lemma submit_query_failure_witness :
  Vesting.submitTx (Remote.libFor (Samples.flakyNode 2)) (Samples.flakyNode 2)
    "Test SDF Network ; September 2015" "AAAA"
  = (Throw (JsError "Network Error"), {| Sdk.queries := 3; Sdk.slept := 6000 |}).
Proof.
  refine (proj1 (submit_query_failure (Remote.libFor (Samples.flakyNode 2))
                   (Samples.flakyNode 2) "https://soroban-testnet.stellar.org"
                   "Test SDF Network ; September 2015" "AAAA" "HASH" 2
                   (JsError "Network Error") _ eq_refl _ eq_refl) _).
  - eexists _, _. repeat split; reflexivity.
  - intros j Hj. unfold Remote.statusAt.
    destruct j as [|[|j]]; [eexists; split; reflexivity .. | lia].
  - lia.
Defined.

(* ------------------------------------------------------------------ *)
(** ** More on the error classifier                                     *)
(* ------------------------------------------------------------------ *)

Section Classifier.

Import TransactionSimulator.

(** What [parseSorobanError] returns: a message of the table, a message
    of the checks that follow it, or its argument. *)
Lemma parseSorobanError_range (s : string) :
  In (parseSorobanError s)
     (map snd ERROR_MESSAGE_MAP
      ++ [ "Contract invocation failed. The transaction may have invalid parameters.";
           "Insufficient XLM balance to pay transaction fees.";
           "The operation timed out. Please try again.";
           "Transaction deadline exceeded. Please try again.";
           "Failed to build transaction. Please check your inputs." ])%list
  \/ parseSorobanError s = s.
Proof.
  unfold parseSorobanError.
  destruct (firstRule (Js.toLowerCase s)) as [[key message]|] eqn:Hrule.
  - left. apply in_or_app. left.
    apply find_some in Hrule as [Hin _].
    exact (in_map snd _ _ Hin).
  - unfold panicMessage.
    repeat match goal with
           | |- context [if ?b then _ else _] => destruct b
           end;
      try (left; apply in_or_app; right; cbn [In]; tauto).
    right. reflexivity.
Qed.

(** A capital letter, and nothing else, is moved by [lowerChar]. *)
Lemma lowerChar_idem (c : ascii) : Js.lowerChar (Js.lowerChar c) = Js.lowerChar c.
Proof.
  destruct c as [[] [] [] [] [] [] [] []]; reflexivity.
Qed.

Lemma toLowerCase_idem (s : string) :
  Js.toLowerCase (Js.toLowerCase s) = Js.toLowerCase s.
Proof.
  induction s as [|c s IH]; [reflexivity|].
  cbn [Js.toLowerCase]. now rewrite lowerChar_idem, IH.
Qed.

End Classifier.

(** X21.  Classifying is idempotent: every message [parseSorobanError]
    produces is classified as itself, so a text that went through it
    once (as the [errors] of a pre-flight result have) can go through it
    again unchanged. *)
Theorem parseSorobanError_idempotent (errorMessage : string) :
  TransactionSimulator.parseSorobanError
    (TransactionSimulator.parseSorobanError errorMessage)
  = TransactionSimulator.parseSorobanError errorMessage.
Proof.
  destruct (parseSorobanError_range errorMessage) as [Hin | Hsame].
  - revert Hin.
    generalize (TransactionSimulator.parseSorobanError errorMessage) as m.
    apply Forall_forall.
    repeat (apply Forall_cons; [vm_compute; reflexivity|]).
    apply Forall_nil.
  - now rewrite Hsame.
Qed.

(** X22.  Only the letters' case-folded form decides the class: two
    texts with the same lower-case form get the same message, unless
    neither is recognised and each is returned as it is; in particular
    a text and its lower-case form, and anything recognised is
    recognised in every capitalisation. *)
Theorem parseSorobanError_case_insensitive (a b : string) :
  Js.toLowerCase a = Js.toLowerCase b ->
  (TransactionSimulator.parseSorobanError a = TransactionSimulator.parseSorobanError b
   \/ (TransactionSimulator.parseSorobanError a = a
       /\ TransactionSimulator.parseSorobanError b = b))
  /\ (TransactionSimulator.parseSorobanError a <> a ->
      TransactionSimulator.parseSorobanError (Js.toLowerCase b)
      = TransactionSimulator.parseSorobanError a).
Proof.
  intros Hlow. unfold TransactionSimulator.parseSorobanError.
  rewrite toLowerCase_idem, <- Hlow.
  destruct (TransactionSimulator.firstRule (Js.toLowerCase a)) as [[key message]|].
  - split; [left|]; reflexivity.
  - destruct (TransactionSimulator.panicMessage (Js.toLowerCase a)) as [message|].
    + split; [left|]; reflexivity.
    + split; [right; split; reflexivity | intros H; now contradiction H].
Qed.

Lemma parseSorobanError_case_insensitive_witness :
  TransactionSimulator.parseSorobanError "hosterror: no schedule found"
  = TransactionSimulator.parseSorobanError "HostError: NO SCHEDULE FOUND".
Proof.
  refine (proj2 (parseSorobanError_case_insensitive
                   "HostError: NO SCHEDULE FOUND" "HOSTERROR: No Schedule Found"
                   eq_refl) _).
  vm_compute. discriminate.
Defined.

(* ------------------------------------------------------------------ *)
(** ** The claim page's look-up                                         *)
(* ------------------------------------------------------------------ *)

Section Lookup.

Import Sdk.

(** A text that contains [p] still does behind any prefix. *)
Lemma includes_prefixed (p a : string) : forall b,
  Js.includes p b = true -> Js.includes p (a ++ b) = true.
Proof.
  induction a as [|c a IH]; intros b H; [exact H|].
  cbn [append]. rewrite includes_unfold, (IH b H). apply orb_true_r.
Qed.


End Lookup.



(** X24.  When the node answers the page's reads with a simulation error
    that contains "no schedule found", the page shows its own sentence
    instead of the error.  The test is on the exact letters: an error
    that differs in case is shown as received, behind "Simulation
    failed: ". *)
Theorem handleLookup_no_schedule (lib : Sdk.Lib) (server : Sdk.Server)
    (passphrase key contractId error : string) (addressVal : Sdk.ScVal) :
  key <> "" ->
  ClaimVesting.CONTRACT_ID_RE (JsExtra.trim contractId) = true ->
  Sdk.newAddress lib key = Return addressVal ->
  (forall inv, exists tx, Sdk.build lib inv = Return tx) ->
  (forall tx, Sdk.simulateTransaction server tx
              = Return (Samples.simulationFailure error)) ->
  ClaimVesting.handleLookup lib server passphrase true (Some key) contractId
  = if Js.includes "no schedule found" error
    then ClaimVesting.LookupError
           "No vesting schedule found for your wallet on this contract."
    else ClaimVesting.LookupError ("Simulation failed: " ++ error).
Proof.
  intros Hkey Hre Haddr Hbuild Hsim.
  unfold ClaimVesting.handleLookup.
  destruct key as [|c key]; [now contradiction Hkey|].
  cbn [ClaimVesting.truthy]. rewrite Hre. cbn [negb].
  unfold Vesting.fetchVestingInfo, Vesting.fetchVestingSchedule,
    Vesting.simulateCall.
  rewrite Haddr. cbn [bind].
  match goal with
  | |- context [Sdk.build lib ?inv] => destruct (Hbuild inv) as [tx Htx]; rewrite Htx
  end.
  cbn [bind]. rewrite Hsim. cbn [bind Samples.simulationFailure Sdk.sim_error].
  destruct (Js.includes "no schedule found" error) eqn:Hinc.
  - now rewrite (includes_prefixed "no schedule found" "Simulation failed: " error Hinc).
  - assert (Hout : Js.includes "no schedule found" ("Simulation failed: " ++ error)
                   = false).
    { cbn [append].
      do 19 (rewrite includes_unfold; cbn [Js.startsWith Ascii.eqb Bool.eqb andb orb]).
      exact Hinc. }
    now rewrite Hout.
Qed.

Lemma handleLookup_no_schedule_witness :
  ClaimVesting.handleLookup
    (Remote.libFor (Remote.simulationNode
                      (Return (Samples.simulationFailure "HostError: No schedule found"))))
    (Remote.simulationNode
       (Return (Samples.simulationFailure "HostError: No schedule found")))
    "Test SDF Network ; September 2015" true (Some "GRECIPIENT")
    "CAAAAAAAAAAAAAAAAAAAAAAAAAAAAAAAAAAAAAAAAAAAAAAAAAAAAAAA"
  = ClaimVesting.LookupError "Simulation failed: HostError: No schedule found".
Proof.
  refine (handleLookup_no_schedule
            (Remote.libFor (Remote.simulationNode
               (Return (Samples.simulationFailure "HostError: No schedule found"))))
            (Remote.simulationNode
               (Return (Samples.simulationFailure "HostError: No schedule found")))
            "Test SDF Network ; September 2015" "GRECIPIENT"
            "CAAAAAAAAAAAAAAAAAAAAAAAAAAAAAAAAAAAAAAAAAAAAAAAAAAAAAAA"
            "HostError: No schedule found" (Sdk.scvAddress "GRECIPIENT")
            _ _ _ _ _).
  - discriminate.
  - vm_compute. reflexivity.
  - reflexivity.
  - intros inv. eexists. reflexivity.
  - intros tx. reflexivity.
Defined.
